(** * MS5805 pressure/temperature sensor driver: model and verification

    Shallow embedding of the Arduino driver [ms5805.cpp] / [ms5805.h]:
    the PROM coefficient load with its 4-bit CRC, the ADC conversion
    sequence over the I2C bus (the Arduino [Wire] object) and the
    second-order temperature compensation.

    Machine integers are [Z] with the wrap-around of every C operation
    written out; the coefficient array is a [list Z] accessed with
    stdpp's lookup and insert; the bus is an explicit world that hands
    out the results of [Wire.endTransmission] and [Wire.read] and keeps a
    log of every bus operation; the private and public methods are
    computations in a small state monad over driver object and world. *)

From Stdlib Require Import ZArith Lia List Bool.
From Stdlib Require Import Floats.SpecFloat.
From stdpp Require Import base list.

Local Open Scope Z_scope.

(** ** Fixed-width integers *)

Module Int.

(** Conversion to an unsigned type of [w] bits. *)
Definition unsigned (w : Z) (z : Z) : Z := z mod 2 ^ w.

(** Conversion to a signed two's-complement type of [w] bits. *)
Definition signed (w : Z) (z : Z) : Z :=
  (z + 2 ^ (w - 1)) mod 2 ^ w - 2 ^ (w - 1).

Definition uint8 := unsigned 8.
Definition uint16 := unsigned 16.
Definition uint32 := unsigned 32.
Definition int32 := signed 32.
Definition int64 := signed 64.

End Int.

Import Int.

(** ** Constants of [ms5805.cpp] and [ms5805.h] *)

Definition MS5805_ADDR : Z := 0x76.

Definition MS5805_RESET_COMMAND : Z := 0x1E.
Definition MS5805_START_PRESSURE_ADC_CONVERSION : Z := 0x40.
Definition MS5805_START_TEMPERATURE_ADC_CONVERSION : Z := 0x50.
Definition MS5805_READ_ADC : Z := 0x00.

Definition MS5805_CONVERSION_OSR_MASK : Z := 0x0F.

Definition MS5805_PROM_ADDRESS_READ_ADDRESS_0 : Z := 0xA0.

Definition MS5805_CRC_INDEX : nat := 0.
Definition MS5805_PRESSURE_SENSITIVITY_INDEX : nat := 1.
Definition MS5805_PRESSURE_OFFSET_INDEX : nat := 2.
Definition MS5805_TEMP_COEFF_OF_PRESSURE_SENSITIVITY_INDEX : nat := 3.
Definition MS5805_TEMP_COEFF_OF_PRESSURE_OFFSET_INDEX : nat := 4.
Definition MS5805_REFERENCE_TEMPERATURE_INDEX : nat := 5.
Definition MS5805_TEMP_COEFF_OF_TEMPERATURE_INDEX : nat := 6.

Definition MS5805_COEFFICIENT_COUNT : nat := 7.

Inductive ms5805_resolution_osr : Set :=
| ms5805_resolution_osr_256
| ms5805_resolution_osr_512
| ms5805_resolution_osr_1024
| ms5805_resolution_osr_2048
| ms5805_resolution_osr_4096
| ms5805_resolution_osr_8192.

(** The enumerators count from zero. *)
Definition osr_value (r : ms5805_resolution_osr) : Z :=
  match r with
  | ms5805_resolution_osr_256 => 0
  | ms5805_resolution_osr_512 => 1
  | ms5805_resolution_osr_1024 => 2
  | ms5805_resolution_osr_2048 => 3
  | ms5805_resolution_osr_4096 => 4
  | ms5805_resolution_osr_8192 => 5
  end.

Inductive ms5805_status : Set :=
| ms5805_status_ok
| ms5805_status_no_i2c_acknowledge
| ms5805_status_i2c_transfer_error
| ms5805_status_crc_error.

Definition ms5805_status_eqb (a b : ms5805_status) : bool :=
  match a, b with
  | ms5805_status_ok, ms5805_status_ok
  | ms5805_status_no_i2c_acknowledge, ms5805_status_no_i2c_acknowledge
  | ms5805_status_i2c_transfer_error, ms5805_status_i2c_transfer_error
  | ms5805_status_crc_error, ms5805_status_crc_error => true
  | _, _ => false
  end.

(** [enum ms5805_status_code]: the values of [Wire.endTransmission] the
    driver names. *)
Definition ms5805_STATUS_OK : Z := 0.
Definition ms5805_STATUS_ERR_OVERFLOW : Z := 1.
Definition ms5805_STATUS_ERR_TIMEOUT : Z := 4.

(** [conversion_time[6]], in milliseconds. *)
Definition conversion_time : list Z := [1; 2; 3; 5; 9; 17].

(** ** The coefficient array and the CRC check *)

(** [n_prom[i]] for an array held as a list. *)
Definition word_at (n_prom : list Z) (i : nat) : Z := default 0 (n_prom !! i).

(** One turn of the inner loop of [crc_check]:
    [if (n_rem & 0x8000) n_rem = (n_rem << 1) ^ 0x3000; else n_rem <<= 1;]
    with [n_rem] a [uint16_t]. *)
Definition crc_bit (n_rem : Z) : Z :=
  if negb (Z.land n_rem 0x8000 =? 0)
  then uint16 (Z.lxor (Z.shiftl n_rem 1) 0x3000)
  else uint16 (Z.shiftl n_rem 1).

(** [for (n_bit = 8; n_bit > 0; n_bit--)]. *)
Fixpoint crc_bits (n_bit : nat) (n_rem : Z) : Z :=
  match n_bit with
  | O => n_rem
  | S n_bit' => crc_bits n_bit' (crc_bit n_rem)
  end.

(** The body of the outer loop for byte counter [cnt]. *)
Definition crc_byte (n_prom : list Z) (cnt : nat) (n_rem : Z) : Z :=
  let n_rem :=
    if (cnt mod 2 =? 1)%nat
    then uint16 (Z.lxor n_rem (Z.land (word_at n_prom (Nat.shiftr cnt 1)) 0x00FF))
    else uint16 (Z.lxor n_rem (Z.shiftr (word_at n_prom (Nat.shiftr cnt 1)) 8)) in
  crc_bits 8 n_rem.

(** [for (cnt = ...; cnt < (MS5805_COEFFICIENT_COUNT + 1) * 2; cnt++)],
    with [todo] turns left. *)
Fixpoint crc_loop (todo : nat) (n_prom : list Z) (cnt : nat) (n_rem : Z) : Z :=
  match todo with
  | O => n_rem
  | S todo' => crc_loop todo' n_prom (S cnt) (crc_byte n_prom cnt n_rem)
  end.

(** [boolean ms5805::crc_check(uint16_t *n_prom, uint8_t crc)].  The array
    is updated in place by the source; the model returns the array as the
    call leaves it next to the result. *)
Definition crc_check (n_prom : list Z) (crc : Z) : bool * list Z :=
  let n_rem := 0x00 in
  let crc_read := word_at n_prom 0 in
  let n_prom := <[MS5805_COEFFICIENT_COUNT := 0]> n_prom in
  let n_prom := <[0%nat := Z.land 0x0FFF (word_at n_prom 0)]> n_prom in
  let n_rem := crc_loop ((MS5805_COEFFICIENT_COUNT + 1) * 2) n_prom 0 n_rem in
  let n_rem := Z.shiftr n_rem 12 in
  let n_prom := <[0%nat := crc_read]> n_prom in
  (n_rem =? crc, n_prom).

(** ** The driver object *)

(** The data members of [class ms5805].  The member that the source calls
    [ms5805_resolution_osr] (as its type) is [resolution_osr] here. *)
Record ms5805 : Type := mk_ms5805 {
  eeprom_coeff : list Z;      (* uint16_t eeprom_coeff[MS5805_COEFFICIENT_COUNT + 1] *)
  coeff_read : bool;          (* bool coeff_read = false *)
  resolution_osr : ms5805_resolution_osr
}.

Definition with_eeprom_coeff (d : ms5805) (c : list Z) : ms5805 :=
  mk_ms5805 c (coeff_read d) (resolution_osr d).

Definition with_coeff_read (d : ms5805) (b : bool) : ms5805 :=
  mk_ms5805 (eeprom_coeff d) b (resolution_osr d).

Definition with_resolution_osr (d : ms5805) (r : ms5805_resolution_osr) : ms5805 :=
  mk_ms5805 (eeprom_coeff d) (coeff_read d) r.

(** ** The world outside the driver: the [Wire] bus and the delay *)

(** Every call into [Wire] and every [delay], with the value it gave back
    where it gives one. *)
Inductive bus_op : Set :=
| WireBegin
| BeginTransmission (addr : Z)
| WriteByte (b : Z)
| EndTransmission (result : Z)
| RequestFrom (addr : Z) (quantity : Z)
| ReadByte (result : Z)
| Delay (ms : Z).

(** The world decides what the bus answers.  [tx_status k] is the result
    of the [k]-th call of [Wire.endTransmission], [rx_data k] the result
    of the [k]-th call of [Wire.read], and [indeterminate k] the content
    that the [k]-th read of a local variable declared without initialiser
    finds (all counted from zero, over the whole run).  [n_tx], [n_rx] and
    [n_local] count the calls made so far and [log] lists the operations
    done so far, oldest first. *)
Record world : Type := mk_world {
  tx_status : nat -> Z;
  rx_data : nat -> Z;
  indeterminate : nat -> ms5805_status;
  n_tx : nat;
  n_rx : nat;
  n_local : nat;
  log : list bus_op
}.

Record state : Type := mk_state { this : ms5805; wire : world }.

(** *** A state monad over driver object and world *)

Definition M (A : Type) : Type := state -> A * state.

Definition ret {A} (a : A) : M A := fun s => (a, s).

Definition bind {A B} (c : M A) (k : A -> M B) : M B :=
  fun s => let (a, s') := c s in k a s'.

Notation "'let*' x ':=' c 'in' k" := (bind c (fun x => k))
  (at level 10, x pattern, c at level 100, k at level 200).

Notation "c ';;' k" := (bind c (fun _ => k))
  (at level 100, k at level 200, right associativity).

Definition get_this : M ms5805 := fun s => (this s, s).

Definition put_this (d : ms5805) : M unit := fun s => (tt, mk_state d (wire s)).

(** An operation that gives nothing back. *)
Definition bus (op : bus_op) : M unit :=
  fun s =>
    let w := wire s in
    (tt, mk_state (this s)
           (mk_world (tx_status w) (rx_data w) (indeterminate w)
              (n_tx w) (n_rx w) (n_local w) (log w ++ [op]))).

Definition Wire_beginTransmission (addr : Z) : M unit :=
  bus (BeginTransmission addr).

Definition Wire_write (b : Z) : M unit := bus (WriteByte b).

Definition Wire_endTransmission : M Z :=
  fun s =>
    let w := wire s in
    let r := tx_status w (n_tx w) in
    (r, mk_state (this s)
          (mk_world (tx_status w) (rx_data w) (indeterminate w)
             (S (n_tx w)) (n_rx w) (n_local w)
             (log w ++ [EndTransmission r]))).

Definition Wire_requestFrom (addr quantity : Z) : M unit :=
  bus (RequestFrom addr quantity).

Definition Wire_read : M Z :=
  fun s =>
    let w := wire s in
    let r := rx_data w (n_rx w) in
    (r, mk_state (this s)
          (mk_world (tx_status w) (rx_data w) (indeterminate w)
             (n_tx w) (S (n_rx w)) (n_local w)
             (log w ++ [ReadByte r]))).

Definition delay (ms : Z) : M unit := bus (Delay ms).

(** Reading a local of type [enum ms5805_status] that was never assigned. *)
Definition uninitialised_status : M ms5805_status :=
  fun s =>
    let w := wire s in
    (indeterminate w (n_local w),
     mk_state (this s)
       (mk_world (tx_status w) (rx_data w) (indeterminate w)
          (n_tx w) (n_rx w) (S (n_local w)) (log w))).

(** [for (i = 0; i < n; i++) buffer[i] = Wire.read();] with [buffer] an
    array of [uint8_t]. *)
Fixpoint read_buffer (n : nat) : M (list Z) :=
  match n with
  | O => ret []
  | S n' => let* b := Wire_read in
            let* rest := read_buffer n' in
            ret (uint8 b :: rest)
  end.

(** ** The methods of the driver *)

(** [void ms5805::begin(void)] *)
Definition begin : M unit := bus WireBegin.

(** [boolean ms5805::is_connected(void)] *)
Definition is_connected : M bool :=
  Wire_beginTransmission (uint8 MS5805_ADDR) ;;
  let* r := Wire_endTransmission in
  ret (uint8 r =? 0).

(** [enum ms5805_status ms5805::write_command(uint8_t cmd)] *)
Definition write_command (cmd : Z) : M ms5805_status :=
  Wire_beginTransmission (uint8 MS5805_ADDR) ;;
  Wire_write cmd ;;
  let* r := Wire_endTransmission in
  let i2c_status := uint8 r in
  if i2c_status =? ms5805_STATUS_ERR_OVERFLOW then
    ret ms5805_status_no_i2c_acknowledge
  else if negb (i2c_status =? ms5805_STATUS_OK) then
    ret ms5805_status_i2c_transfer_error
  else ret ms5805_status_ok.

(** [void ms5805::set_resolution(enum ms5805_resolution_osr res)] *)
Definition set_resolution (res : ms5805_resolution_osr) : M unit :=
  let* d := get_this in put_this (with_resolution_osr d res).

(** [enum ms5805_status ms5805::reset(void)] *)
Definition reset : M ms5805_status := write_command MS5805_RESET_COMMAND.

(** [enum ms5805_status ms5805::read_eeprom_coeff(uint8_t command,
    uint16_t *coeff)].  The second component is what the call stored
    through [coeff]: [None] when it returned without storing. *)
Definition read_eeprom_coeff (command : Z) : M (ms5805_status * option Z) :=
  Wire_beginTransmission (uint8 MS5805_ADDR) ;;
  Wire_write command ;;
  let* r := Wire_endTransmission in
  let i2c_status := uint8 r in
  Wire_requestFrom (uint8 MS5805_ADDR) 2 ;;
  let* buffer := read_buffer 2 in
  if i2c_status =? ms5805_STATUS_ERR_OVERFLOW then
    ret (ms5805_status_no_i2c_acknowledge, None)
  else
    ret (ms5805_status_ok,
         Some (uint16 (Z.lor (Z.shiftl (word_at buffer 0) 8) (word_at buffer 1)))).

(** The loop of [read_eeprom], [todo] turns left, at index [i].  [Some
    status] is the [return status] inside the loop, [None] the normal
    end of the loop. *)
Fixpoint read_eeprom_loop (todo : nat) (i : nat) : M (option ms5805_status) :=
  match todo with
  | O => ret None
  | S todo' =>
      let* (status, coeff) :=
        read_eeprom_coeff
          (uint8 (MS5805_PROM_ADDRESS_READ_ADDRESS_0 + Z.of_nat i * 2)) in
      let* d := get_this in
      match coeff with
      | Some v => put_this (with_eeprom_coeff d (<[i := v]> (eeprom_coeff d)))
      | None => ret tt
      end ;;
      if negb (ms5805_status_eqb status ms5805_status_ok) then ret (Some status)
      else read_eeprom_loop todo' (S i)
  end.

(** [enum ms5805_status ms5805::read_eeprom(void)] *)
Definition read_eeprom : M ms5805_status :=
  let* early := read_eeprom_loop MS5805_COEFFICIENT_COUNT 0 in
  match early with
  | Some status => ret status
  | None =>
      let* d := get_this in
      let '(crc_ok, n_prom) :=
        crc_check (eeprom_coeff d)
          (uint8 (Z.shiftr
                    (Z.land (word_at (eeprom_coeff d) MS5805_CRC_INDEX) 0xF000)
                    12)) in
      put_this (with_eeprom_coeff d n_prom) ;;
      if negb crc_ok then ret ms5805_status_crc_error
      else
        let* d := get_this in
        put_this (with_coeff_read d true) ;;
        ret ms5805_status_ok
  end.

(** [enum ms5805_status ms5805::conversion_and_read_adc(uint8_t cmd,
    uint32_t *adc)].  The local [status] is declared without initialiser
    and never assigned; both tests of it and the final [return status]
    read that same indeterminate content.  The second component is what
    the call stored through [adc]. *)
Definition conversion_and_read_adc (cmd : Z) : M (ms5805_status * option Z) :=
  let* status := uninitialised_status in
  Wire_beginTransmission (uint8 MS5805_ADDR) ;;
  Wire_write (uint8 cmd) ;;
  let* _ := Wire_endTransmission in
  delay (word_at conversion_time
           (Z.to_nat (Z.land cmd MS5805_CONVERSION_OSR_MASK / 2))) ;;
  Wire_beginTransmission (uint8 MS5805_ADDR) ;;
  Wire_write (uint8 0x00) ;;
  let* r := Wire_endTransmission in
  let i2c_status := uint8 r in
  Wire_requestFrom (uint8 MS5805_ADDR) 3 ;;
  let* buffer := read_buffer 3 in
  if negb (ms5805_status_eqb status ms5805_status_ok) then ret (status, None)
  else if negb (ms5805_status_eqb status ms5805_status_ok) then ret (status, None)
  else if i2c_status =? ms5805_STATUS_ERR_OVERFLOW then
    ret (ms5805_status_no_i2c_acknowledge, None)
  else if negb (i2c_status =? ms5805_STATUS_OK) then
    ret (ms5805_status_i2c_transfer_error, None)
  else
    ret (status,
         Some (uint32
                 (Z.lor (Z.lor (uint32 (Z.shiftl (uint32 (word_at buffer 0)) 16))
                               (uint32 (Z.shiftl (uint32 (word_at buffer 1)) 8)))
                        (word_at buffer 2)))).

(** ** Arithmetic of the compensation *)

(** The operations of [int64_t]: the exact result converted back to 64
    bits.  [>>] on a signed operand is the arithmetic shift, [/] rounds
    towards zero. *)
Module I64.
Definition add (a b : Z) : Z := int64 (a + b).
Definition sub (a b : Z) : Z := int64 (a - b).
Definition mul (a b : Z) : Z := int64 (a * b).
Definition div (a b : Z) : Z := int64 (Z.quot a b).
Definition shl (a n : Z) : Z := int64 (Z.shiftl a n).
Definition shr (a n : Z) : Z := int64 (Z.shiftr a n).
End I64.

Declare Scope i64_scope.
Delimit Scope i64_scope with i64.
Notation "a + b" := (I64.add a b) : i64_scope.
Notation "a - b" := (I64.sub a b) : i64_scope.
Notation "a * b" := (I64.mul a b) : i64_scope.
Notation "a / b" := (I64.div a b) : i64_scope.
Notation "a << n" := (I64.shl a n) (at level 52, left associativity) : i64_scope.
Notation "a >> n" := (I64.shr a n) (at level 52, left associativity) : i64_scope.

(** [float] is IEEE 754 binary32, rounding to nearest even. *)
Definition float : Type := spec_float.
Definition float_of_int (z : Z) : float := binary_normalize 24 128 z 0 false.
Definition float_sub : float -> float -> float := SFsub 24 128.
Definition float_div : float -> float -> float := SFdiv 24 128.

(** [dT = (int32_t)adc_temperature -
          ((int32_t)eeprom_coeff[MS5805_REFERENCE_TEMPERATURE_INDEX] << 8)] *)
Definition calc_dT (eeprom_coeff : list Z) (adc_temperature : Z) : Z :=
  int32 (int32 adc_temperature
         - int32 (Z.shiftl
                    (int32 (word_at eeprom_coeff MS5805_REFERENCE_TEMPERATURE_INDEX))
                    8)).

(** [TEMP = 2000 + ((int64_t)dT *
          (int64_t)eeprom_coeff[MS5805_TEMP_COEFF_OF_TEMPERATURE_INDEX] >> 23)],
    stored in an [int32_t]. *)
Definition calc_TEMP (eeprom_coeff : list Z) (dT : Z) : Z :=
  int32 (2000
         + (int64 dT
            * int64 (word_at eeprom_coeff MS5805_TEMP_COEFF_OF_TEMPERATURE_INDEX)
            >> 23))%i64.

(** The second order temperature compensation: [(T2, OFF2, SENS2)]. *)
Definition second_order (dT TEMP : Z) : Z * Z * Z :=
  if TEMP <? 2000 then
    let T2 := ((3 * (int64 dT * int64 dT)) >> 33)%i64 in
    let OFF2 := (61 * (int64 TEMP - 2000) * (int64 TEMP - 2000) / 16)%i64 in
    let SENS2 := (29 * (int64 TEMP - 2000) * (int64 TEMP - 2000) / 16)%i64 in
    if TEMP <? -1500 then
      let OFF2 := (OFF2 + 17 * (int64 TEMP + 1500) * (int64 TEMP + 1500))%i64 in
      let SENS2 := (SENS2 + 9 * (int64 TEMP + 1500) * (int64 TEMP + 1500))%i64 in
      (T2, OFF2, SENS2)
    else (T2, OFF2, SENS2)
  else
    let T2 := ((5 * (int64 dT * int64 dT)) >> 38)%i64 in
    let OFF2 := 0 in
    let SENS2 := 0 in
    (T2, OFF2, SENS2).

(** The integer part of the computation at the end of
    [read_temperature_and_pressure]: [(TEMP, T2, P)]. *)
Definition compensation_int (eeprom_coeff : list Z)
    (adc_temperature adc_pressure : Z) : Z * Z * Z :=
  let dT := calc_dT eeprom_coeff adc_temperature in
  let TEMP := calc_TEMP eeprom_coeff dT in
  let '(T2, OFF2, SENS2) := second_order dT TEMP in
  let OFF :=
    ((int64 (word_at eeprom_coeff MS5805_PRESSURE_OFFSET_INDEX) << 17)
     + ((int64 (word_at eeprom_coeff MS5805_TEMP_COEFF_OF_PRESSURE_OFFSET_INDEX)
         * dT) >> 6))%i64 in
  let OFF := (OFF - OFF2)%i64 in
  let SENS :=
    ((int64 (word_at eeprom_coeff MS5805_PRESSURE_SENSITIVITY_INDEX) << 16)
     + ((int64 (word_at eeprom_coeff
                  MS5805_TEMP_COEFF_OF_PRESSURE_SENSITIVITY_INDEX)
         * dT) >> 7))%i64 in
  let SENS := (SENS - SENS2)%i64 in
  let P := ((((adc_pressure * SENS) >> 21) - OFF) >> 15)%i64 in
  (TEMP, T2, P).

(** [*temperature = ((float)TEMP - T2) / 100; *pressure = (float)P / 100;] *)
Definition compensation (eeprom_coeff : list Z)
    (adc_temperature adc_pressure : Z) : float * float :=
  let '(TEMP, T2, P) :=
    compensation_int eeprom_coeff adc_temperature adc_pressure in
  (float_div (float_sub (float_of_int TEMP) (float_of_int T2)) (float_of_int 100),
   float_div (float_of_int P) (float_of_int 100)).

(** [enum ms5805_status ms5805::read_temperature_and_pressure(float
    *temperature, float *pressure)].  The second component is what the
    call stored through [temperature] and [pressure]: [None] when it
    returned without storing.  The locals [adc_temperature] and
    [adc_pressure] hold what [conversion_and_read_adc] stored; the source
    reads them only after a call that returned [ms5805_status_ok], which
    has stored. *)
Definition read_temperature_and_pressure
  : M (ms5805_status * option (float * float)) :=
  let status := ms5805_status_ok in
  let* d := get_this in
  let* status :=
    (if eqb (coeff_read d) false then read_eeprom else ret status) in
  if negb (ms5805_status_eqb status ms5805_status_ok) then ret (status, None)
  else
    let* d := get_this in
    let cmd := uint8 (osr_value (resolution_osr d) * 2) in
    let cmd := uint8 (Z.lor cmd MS5805_START_TEMPERATURE_ADC_CONVERSION) in
    let* (status, adc_temperature) := conversion_and_read_adc cmd in
    if negb (ms5805_status_eqb status ms5805_status_ok) then ret (status, None)
    else
      let* d := get_this in
      let cmd := uint8 (osr_value (resolution_osr d) * 2) in
      let cmd := uint8 (Z.lor cmd MS5805_START_PRESSURE_ADC_CONVERSION) in
      let* (status, adc_pressure) := conversion_and_read_adc cmd in
      if negb (ms5805_status_eqb status ms5805_status_ok) then ret (status, None)
      else
        match adc_temperature, adc_pressure with
        | Some adc_temperature, Some adc_pressure =>
            if (adc_temperature =? 0) || (adc_pressure =? 0) then
              ret (ms5805_status_i2c_transfer_error, None)
            else
              let* d := get_this in
              ret (status,
                   Some (compensation (eeprom_coeff d)
                           adc_temperature adc_pressure))
        | _, _ => ret (status, None)
        end.

(** ** The CRC as the vendor describes it *)

(** The reference reads the table as a byte stream; it does not touch the
    table.  These definitions follow the description of the check, not the
    loop of [crc_check]. *)
Module CrcReference.

(** The words that enter the check: the CRC word with its top four bits
    cleared, the six coefficients, and a zero in the last slot. *)
Definition masked_table (table : list Z) : list Z :=
  imap (fun i w =>
          if (i =? 0)%nat then Z.land w 0x0FFF
          else if (i =? 7)%nat then 0
          else w) table.

(** Each word gives two bytes, the most significant first. *)
Definition bytes_msb_first (words : list Z) : list Z :=
  flat_map (fun w => [Z.shiftr w 8; Z.land w 0xFF]) words.

(** One bit step of the 16-bit remainder: shift left by one, and XOR
    with 0x3000 when the top bit was set before the shift. *)
Definition bit_step (r : Z) : Z :=
  let shifted := (2 * r) mod 2 ^ 16 in
  if Z.testbit r 15 then Z.lxor shifted 0x3000 else shifted.

(** A byte is XOR-ed into the low byte of the remainder, then eight bit
    steps follow. *)
Definition byte_step (r b : Z) : Z := Nat.iter 8 bit_step (Z.lxor r b).

Definition remainder (table : list Z) : Z :=
  fold_left byte_step (bytes_msb_first (masked_table table)) 0.

Definition crc4 (table : list Z) : Z := Z.shiftr (remainder table) 12.

Definition check (table : list Z) (expected : Z) : bool :=
  crc4 table =? expected.

(** The variant in which the bytes at even positions of the stream are
    XOR-ed into the high byte of the remainder and those at odd
    positions into the low byte. *)
Definition byte_step_by_parity (r : Z) (ib : nat * Z) : Z :=
  let (i, b) := ib in
  Nat.iter 8 bit_step
    (Z.lxor r (if Nat.even i then Z.shiftl b 8 else b)).

Definition remainder_by_parity (table : list Z) : Z :=
  fold_left byte_step_by_parity
    (imap (fun i b => (i, b)) (bytes_msb_first (masked_table table))) 0.

Definition check_by_parity (table : list Z) (expected : Z) : bool :=
  Z.shiftr (remainder_by_parity table) 12 =? expected.

End CrcReference.

(** What it would mean for [crc_check] to hand the array back exactly as
    it got it in the two slots it works on. *)
Definition slots_restored (before after : list Z) : Prop :=
  word_at after 0 = word_at before 0 /\ word_at after 7 = word_at before 7.

(** ** The compensation as the data sheet writes it *)

(** Exact integer arithmetic: no conversion to a machine width anywhere.
    [C] is the coefficient table, [D2] the raw temperature and [D1] the
    raw pressure. *)
Module Formula.

Definition dT (C : list Z) (D2 : Z) : Z := D2 - Z.shiftl (word_at C 5) 8.

Definition TEMP (C : list Z) (D2 : Z) : Z :=
  2000 + Z.shiftr (dT C D2 * word_at C 6) 23.

Definition T2 (dT TEMP : Z) : Z :=
  if TEMP <? 2000 then Z.shiftr (3 * (dT * dT)) 33
  else Z.shiftr (5 * (dT * dT)) 38.

Definition OFF2 (TEMP : Z) : Z :=
  if TEMP <? 2000 then
    61 * (TEMP - 2000) ^ 2 / 16
    + (if TEMP <? -1500 then 17 * (TEMP + 1500) ^ 2 else 0)
  else 0.

Definition SENS2 (TEMP : Z) : Z :=
  if TEMP <? 2000 then
    29 * (TEMP - 2000) ^ 2 / 16
    + (if TEMP <? -1500 then 9 * (TEMP + 1500) ^ 2 else 0)
  else 0.

Definition OFF (C : list Z) (D2 : Z) : Z :=
  Z.shiftl (word_at C 2) 17 + Z.shiftr (word_at C 4 * dT C D2) 6
  - OFF2 (TEMP C D2).

Definition SENS (C : list Z) (D2 : Z) : Z :=
  Z.shiftl (word_at C 1) 16 + Z.shiftr (word_at C 3 * dT C D2) 7
  - SENS2 (TEMP C D2).

Definition P (C : list Z) (D2 D1 : Z) : Z :=
  Z.shiftr (Z.shiftr (D1 * SENS C D2) 21 - OFF C D2) 15.

(** The two outputs: the centi-units divided by 100 in [float]. *)
Definition temperature (C : list Z) (D2 : Z) : float :=
  float_div
    (float_sub (float_of_int (TEMP C D2))
               (float_of_int (T2 (dT C D2) (TEMP C D2))))
    (float_of_int 100).

Definition pressure (C : list Z) (D2 D1 : Z) : float :=
  float_div (float_of_int (P C D2 D1)) (float_of_int 100).

End Formula.

(** The words of a coefficient array fit [uint16_t]. *)
Definition all_uint16 (C : list Z) : bool :=
  forallb (fun w => (0 <=? w) && (w <? 2 ^ 16)) C.

Definition uint16_words (C : list Z) : Prop :=
  forall i : nat, 0 <= word_at C i < 2 ^ 16.

(** ** Bus traffic *)

(** The world [w] after [tx] more results of [Wire.endTransmission], [rx]
    more of [Wire.read] and [loc] more reads of uninitialised locals, with
    [ops] appended to the log. *)
Definition advance (w : world) (tx rx loc : nat) (ops : list bus_op) : world :=
  mk_world (tx_status w) (rx_data w) (indeterminate w)
    (tx + n_tx w) (rx + n_rx w) (loc + n_local w) (log w ++ ops).

(** The operations that running [c] from [s] appends to the log. *)
Definition ops_of {A} (c : M A) (s : state) : list bus_op :=
  drop (length (log (wire s))) (log (wire (snd (c s)))).

(** Reading one PROM word: select the address, then read two bytes. *)
Definition word_exchange (command r b0 b1 : Z) : list bus_op :=
  [BeginTransmission 0x76; WriteByte command; EndTransmission r;
   RequestFrom 0x76 2; ReadByte b0; ReadByte b1].

(** One conversion: start it, wait, select the ADC register, read three
    bytes. *)
Definition conversion_exchange (cmd ms r1 r2 b0 b1 b2 : Z) : list bus_op :=
  [BeginTransmission 0x76; WriteByte cmd; EndTransmission r1; Delay ms;
   BeginTransmission 0x76; WriteByte 0x00; EndTransmission r2;
   RequestFrom 0x76 3; ReadByte b0; ReadByte b1; ReadByte b2].

(** The bus operations that belong to a coefficient read: the select of a
    PROM address (0xA0 to 0xAE) and the request for the two bytes of a
    word. *)
Definition is_coefficient_read (op : bus_op) : bool :=
  match op with
  | WriteByte b => (0xA0 <=? b) && (b <=? 0xAE)
  | RequestFrom _ quantity => quantity =? 2
  | _ => false
  end.

(** The PROM addresses a log selects, in order. *)
Definition selected_addresses (ops : list bus_op) : list Z :=
  omap (fun op =>
          match op with
          | WriteByte b => if (0xA0 <=? b) && (b <=? 0xAE) then Some b else None
          | _ => None
          end) ops.

(** The [k]-th result of [Wire.endTransmission] still to come in [w], and
    the [k]-th byte still to come. *)
Definition next_tx (w : world) (k : nat) : Z := tx_status w (k + n_tx w).
Definition next_rx (w : world) (k : nat) : Z := rx_data w (k + n_rx w).

(** Two bytes, the first in the high half. *)
Definition big_endian16 (b0 b1 : Z) : Z :=
  uint16 (Z.lor (Z.shiftl (uint8 b0) 8) (uint8 b1)).

(** The [k]-th word a coefficient load starting in [w] receives. *)
Definition fetched_word (w : world) (k : nat) : Z :=
  big_endian16 (next_rx w (2 * k)) (next_rx w (2 * k + 1)).

(** The log of words [k0] to [k0 + n - 1] of a coefficient load that
    started in [w]. *)
Fixpoint fetch_ops (w : world) (k0 n : nat) : list bus_op :=
  match n with
  | O => []
  | S n' =>
      word_exchange (uint8 (MS5805_PROM_ADDRESS_READ_ADDRESS_0 + Z.of_nat k0 * 2))
        (next_tx w k0) (next_rx w (2 * k0)) (next_rx w (2 * k0 + 1))
      ++ fetch_ops w (S k0) n'
  end.

(** The array after words [k0] to [k0 + n - 1] have been stored. *)
Fixpoint store_words (w : world) (k0 n : nat) (table : list Z) : list Z :=
  match n with
  | O => table
  | S n' => store_words w (S k0) n' (<[k0 := fetched_word w k0]> table)
  end.

(** The array a coefficient load started in state [s] has fetched when
    its loop ends, and the CRC nibble stored in an array. *)
Definition fetched_table (s : state) : list Z :=
  store_words (wire s) 0 MS5805_COEFFICIENT_COUNT (eeprom_coeff (this s)).

Definition stored_crc (C : list Z) : Z :=
  uint8 (Z.shiftr (Z.land (word_at C MS5805_CRC_INDEX) 0xF000) 12).

(** The command byte of a conversion that [read_temperature_and_pressure]
    builds from the resolution. *)
Definition conversion_command (d : ms5805) (base : Z) : Z :=
  uint8 (Z.lor (uint8 (osr_value (resolution_osr d) * 2)) base).

(** The calls a sketch can make on the driver object. *)
Inductive public_call : state -> state -> Prop :=
| call_begin s : public_call s (snd (begin s))
| call_is_connected s : public_call s (snd (is_connected s))
| call_reset s : public_call s (snd (reset s))
| call_set_resolution res s : public_call s (snd (set_resolution res s))
| call_read_temperature_and_pressure s :
    public_call s (snd (read_temperature_and_pressure s)).

(** Any number of public calls, one after the other. *)
Inductive later : state -> state -> Prop :=
| later_now s : later s s
| later_call s s' s'' : later s s' -> public_call s' s'' -> later s s''.

(** *** Worlds to run the driver in *)

(** A driver object fresh from its constructor, the array zeroed. *)
Definition fresh_driver : ms5805 :=
  mk_ms5805 (replicate 8 0) false ms5805_resolution_osr_256.

(** A world at its start. *)
Definition world_of (tx rx : nat -> Z) (loc : nat -> ms5805_status) : world :=
  mk_world tx rx loc 0 0 0 [].

(** The bytes a sensor sends: the PROM of the data sheet's example with
    its CRC nibble, then the example's raw temperature 8077636 and raw
    pressure 6465444.  After that the line reads zero. *)
Definition example_bytes : list Z :=
  [0x80; 0x00; 0xB5; 0x24; 0xAB; 0xCD; 0x71; 0x83; 0x6C; 0xC2; 0x7B; 0x41;
   0x6E; 0x05; 0x7B; 0x41; 0x44; 0x62; 0xA7; 0xA4].

Definition example_rx (k : nat) : Z := word_at example_bytes k.

(** Every exchange is acknowledged and the uninitialised local happens to
    hold [ms5805_status_ok]. *)
Definition example_world : world :=
  world_of (fun _ => 0) example_rx (fun _ => ms5805_status_ok).

Definition example_state : state := mk_state fresh_driver example_world.

(** *** What a computation may do *)

(** [c] only appends to the log, and every operation it appends
    satisfies [P]. *)
Definition emits (P : bus_op -> Prop) {A} (c : M A) : Prop :=
  forall s, exists ops,
    log (wire (snd (c s))) = log (wire s) ++ ops /\ Forall P ops.

(** [c] leaves the driver object as it found it. *)
Definition keeps_this {A} (c : M A) : Prop :=
  forall s, this (snd (c s)) = this s.

(** No operation of a coefficient read. *)
Definition no_coefficient_read (op : bus_op) : Prop :=
  is_coefficient_read op = false.

(** Where [read_temperature_and_pressure] stands once the coefficients
    are there: [s1] is [s] itself when the flag is set, and otherwise the
    state in which a successful [read_eeprom] ends. *)
Definition coefficients_ready (s s1 : state) : Prop :=
  (coeff_read (this s) = true /\ s1 = s)
  \/ (coeff_read (this s) = false /\ read_eeprom s = (ms5805_status_ok, s1)).

(** The example run, call by call: after the coefficient load, after the
    temperature conversion and after the pressure conversion. *)
Definition example_loaded : state := snd (read_eeprom example_state).

Definition example_after_temperature : state :=
  snd (conversion_and_read_adc
         (conversion_command (this example_loaded)
            MS5805_START_TEMPERATURE_ADC_CONVERSION)
         example_loaded).

Definition example_after_pressure : state :=
  snd (conversion_and_read_adc
         (conversion_command (this example_after_temperature)
            MS5805_START_PRESSURE_ADC_CONVERSION)
         example_after_temperature).

(** The same sensor once the line has gone quiet: the coefficients are
    cached and every byte reads zero. *)
Definition quiet_after_temperature : state :=
  snd (conversion_and_read_adc
         (conversion_command (this example_after_pressure)
            MS5805_START_TEMPERATURE_ADC_CONVERSION)
         example_after_pressure).

Definition quiet_after_pressure : state :=
  snd (conversion_and_read_adc
         (conversion_command (this quiet_after_temperature)
            MS5805_START_PRESSURE_ADC_CONVERSION)
         quiet_after_temperature).

(** The log of a load of [n] words in world [w]: word [k] comes from
    address [0xA0 + 2 * k]. *)
Definition word_exchanges (w : world) (n : nat) : list bus_op :=
  flat_map
    (fun k => word_exchange (0xA0 + 2 * Z.of_nat k) (next_tx w k)
                (next_rx w (2 * k)) (next_rx w (2 * k + 1)))
    (seq 0 n).

(** A load that reads eight words from the eight addresses 0xA0 to
    0xAE. *)
Definition reads_eight_words (ops : list bus_op) : Prop :=
  selected_addresses ops = [0xA0; 0xA2; 0xA4; 0xA6; 0xA8; 0xAA; 0xAC; 0xAE].

(** The example sensor with the CRC nibble of its PROM damaged. *)
Definition corrupted_rx (k : nat) : Z :=
  word_at (<[0%nat := 0x70]> example_bytes) k.

Definition corrupted_state : state :=
  mk_state fresh_driver
    (world_of (fun _ => 0) corrupted_rx (fun _ => ms5805_status_ok)).

(** The example sensor on a bus where every [Wire.endTransmission]
    reports the timeout code. *)
Definition timeout_state : state :=
  mk_state fresh_driver
    (world_of (fun _ => ms5805_STATUS_ERR_TIMEOUT) example_rx
       (fun _ => ms5805_status_ok)).

(** The example sensor on a bus that acknowledges everything, while the
    uninitialised local of [conversion_and_read_adc] holds the value of
    [ms5805_status_i2c_transfer_error]. *)
Definition stale_local_state : state :=
  mk_state fresh_driver
    (world_of (fun _ => 0) example_rx
       (fun _ => ms5805_status_i2c_transfer_error)).

(** The state [s] with the result of its next [Wire.endTransmission]
    replaced by [r]. *)
Definition with_next_tx (s : state) (r : Z) : state :=
  let w := wire s in
  mk_state (this s)
    (mk_world (fun k => if (k =? n_tx w)%nat then r else tx_status w k)
       (rx_data w) (indeterminate w) (n_tx w) (n_rx w) (n_local w) (log w)).

(** ** More vocabulary *)

(** The wait of a conversion at each resolution, in milliseconds
    ([MS5805_CONVERSION_TIME_OSR_256] and following). *)
Definition conversion_wait (res : ms5805_resolution_osr) : Z :=
  match res with
  | ms5805_resolution_osr_256 => 1
  | ms5805_resolution_osr_512 => 2
  | ms5805_resolution_osr_1024 => 3
  | ms5805_resolution_osr_2048 => 5
  | ms5805_resolution_osr_4096 => 9
  | ms5805_resolution_osr_8192 => 17
  end.

(** The two conversions of a measurement as they appear on the bus of
    world [w] for a driver set to resolution [res]: the temperature
    conversion takes the next two results of [Wire.endTransmission] and the
    next three bytes, the pressure conversion the ones after. *)
Definition temperature_exchange (res : ms5805_resolution_osr) (w : world)
  : list bus_op :=
  conversion_exchange (0x50 + 2 * osr_value res) (conversion_wait res)
    (next_tx w 0) (next_tx w 1) (next_rx w 0) (next_rx w 1) (next_rx w 2).

Definition pressure_exchange (res : ms5805_resolution_osr) (w : world)
  : list bus_op :=
  conversion_exchange (0x40 + 2 * osr_value res) (conversion_wait res)
    (next_tx w 2) (next_tx w 3) (next_rx w 3) (next_rx w 4) (next_rx w 5).

(** Whether the conversion that starts in world [w] will return
    [ms5805_status_ok]. *)
Definition conversion_succeeds (w : world) : bool :=
  ms5805_status_eqb (indeterminate w (n_local w)) ms5805_status_ok
  && (uint8 (next_tx w 1) =? ms5805_STATUS_OK).

(** The example sensor with cached coefficients on a bus that does not
    acknowledge the register select of the next conversion. *)
Definition nack_state : state :=
  mk_state (this example_loaded)
    (world_of (fun k => if (k =? 1)%nat then 1 else 0) example_rx
       (fun _ => ms5805_status_ok)).

(** The sensor answers the word reads of a load that starts in world [w]
    with the words of [C], each as its high byte followed by its low
    byte. *)
Definition sensor_sends (w : world) (C : list Z) : Prop :=
  forall (k : nat) (c : Z),
    C !! k = Some c ->
    uint8 (next_rx w (2 * k)) = Z.shiftr c 8
    /\ uint8 (next_rx w (2 * k + 1)) = Z.land c 0xFF.

(** The next [n] exchanges of world [w] do not report the overflow
    code. *)
Definition acknowledged (w : world) (n : nat) : Prop :=
  forall k : nat, (k < n)%nat ->
                  uint8 (next_tx w k) <> ms5805_STATUS_ERR_OVERFLOW.

(** The next [n] calls of [Wire.read] in world [w] all give the byte
    [b]. *)
Definition line_reads (w : world) (n : nat) (b : Z) : Prop :=
  forall k : nat, (k < n)%nat -> uint8 (next_rx w k) = b.

(** A sensor whose data line reads zero throughout, and one whose receive
    buffer is empty, so that [Wire.read] gives -1. *)
Definition silent_state : state :=
  mk_state fresh_driver
    (world_of (fun _ => 0) (fun _ => 0) (fun _ => ms5805_status_ok)).

Definition empty_buffer_state : state :=
  mk_state fresh_driver
    (world_of (fun _ => 0) (fun _ => -1) (fun _ => ms5805_status_ok)).

(** The array [t] with bit [j] of word [i] inverted. *)
Definition flip_bit (t : list Z) (i j : nat) : list Z :=
  <[i := Z.lxor (word_at t i) (2 ^ Z.of_nat j)]> t.

(** The test that [read_eeprom] makes on the array it has fetched. *)
Definition valid_prom (t : list Z) : bool := fst (crc_check t (stored_crc t)).

(** The array whose only set bit is bit [j] of word [i]. *)
Definition unit_table (i j : nat) : list Z :=
  <[i := 2 ^ Z.of_nat j]> (replicate 8 0).

(** The computed CRC XOR the stored nibble: zero for a valid array. *)
Definition syndrome (t : list Z) : Z :=
  Z.lxor (CrcReference.crc4 t) (Z.shiftr (word_at t 0) 12).

(** The state of a load that started in world [w] with driver [d], before
    word [i], with [table] in the array and [ops] logged since the
    start. *)
Definition before_word (d : ms5805) (w : world)
    (i : nat) (table : list Z) (ops : list bus_op) : state :=
  mk_state (with_eeprom_coeff d table) (advance w i (2 * i) 0 ops).

(** The bus operations of the exchange that fetches word [i]. *)
Definition exchange_of_word (w : world) (i : nat) : list bus_op :=
  word_exchange (uint8 (MS5805_PROM_ADDRESS_READ_ADDRESS_0 + Z.of_nat i * 2))
    (next_tx w i) (next_rx w (2 * i)) (next_rx w (2 * i + 1)).
(** * Properties *)

(** ** Fixed-width integers *)

Section IntFacts.

Lemma unsigned_id w z : 0 <= z < 2 ^ w -> unsigned w z = z.
Proof. intros H. unfold unsigned. apply Z.mod_small. exact H. Qed.

Lemma unsigned_range w z : 0 <= w -> 0 <= unsigned w z < 2 ^ w.
Proof.
  intros Hw. unfold unsigned. apply Z.mod_pos_bound.
  apply Z.pow_pos_nonneg; lia.
Qed.

Lemma signed_id w z :
  0 < w -> - 2 ^ (w - 1) <= z < 2 ^ (w - 1) -> signed w z = z.
Proof.
  intros Hw H. unfold signed.
  assert (E : 2 ^ w = 2 * 2 ^ (w - 1)).
  { replace w with (Z.succ (w - 1)) at 1 by lia.
    rewrite Z.pow_succ_r by lia. reflexivity. }
  rewrite Z.mod_small; lia.
Qed.

Lemma int32_id z : - 2 ^ 31 <= z < 2 ^ 31 -> int32 z = z.
Proof. intros H. apply signed_id; [lia | exact H]. Qed.

Lemma int64_id z : - 2 ^ 63 <= z < 2 ^ 63 -> int64 z = z.
Proof. intros H. apply signed_id; [lia | exact H]. Qed.

Lemma uint8_range z : 0 <= uint8 z < 256.
Proof. apply (unsigned_range 8). lia. Qed.

Lemma uint16_range z : 0 <= uint16 z < 65536.
Proof. apply (unsigned_range 16). lia. Qed.

End IntFacts.

(** ** The CRC check *)

Section CrcFacts.

Lemma land_top_bit (r : Z) : (Z.land r 0x8000 =? 0) = negb (Z.testbit r 15).
Proof.
  destruct (Z.testbit r 15) eqn:Hb; simpl.
  - apply Z.eqb_neq. intros E.
    apply (f_equal (fun z => Z.testbit z 15)) in E.
    rewrite Z.land_spec, Hb in E. discriminate E.
  - apply Z.eqb_eq. apply Z.bits_inj'. intros n Hn.
    rewrite Z.land_spec, Z.bits_0.
    destruct (Z.eq_dec n 15) as [-> | Hne].
    + rewrite Hb. reflexivity.
    + change 0x8000 with (2 ^ 15). rewrite Z.pow2_bits_false by lia.
      apply andb_false_r.
Qed.

Lemma uint16_shiftl_1 (r : Z) : uint16 (Z.shiftl r 1) = (2 * r) mod 2 ^ 16.
Proof.
  unfold uint16, unsigned. rewrite Z.shiftl_mul_pow2 by lia.
  f_equal. lia.
Qed.

Lemma uint16_lxor (a b : Z) :
  uint16 (Z.lxor a b) = Z.lxor (uint16 a) (uint16 b).
Proof.
  unfold uint16, unsigned. rewrite <- !Z.land_ones by lia.
  apply Z.bits_inj'. intros n Hn.
  rewrite !Z.land_spec, !Z.lxor_spec, !Z.land_spec.
  destruct (Z.testbit (Z.ones 16) n), (Z.testbit a n), (Z.testbit b n);
    reflexivity.
Qed.

(** The inner loop body is the reference's bit step. *)
Lemma crc_bit_bit_step (r : Z) : crc_bit r = CrcReference.bit_step r.
Proof.
  unfold crc_bit, CrcReference.bit_step.
  rewrite land_top_bit, negb_involutive.
  destruct (Z.testbit r 15).
  - rewrite uint16_lxor, uint16_shiftl_1. reflexivity.
  - apply uint16_shiftl_1.
Qed.

(** A bit step looks at the low 16 bits only. *)
Lemma bit_step_uint16 (x : Z) :
  CrcReference.bit_step (uint16 x) = CrcReference.bit_step x.
Proof.
  unfold CrcReference.bit_step, uint16, unsigned.
  rewrite Z.mod_pow2_bits_low by lia.
  rewrite Z.mul_mod_idemp_r by lia. reflexivity.
Qed.

Lemma crc_bits_iter (n : nat) (r : Z) :
  crc_bits n r = Nat.iter n CrcReference.bit_step r.
Proof.
  revert r. induction n as [|n IH]; intros r; [reflexivity|].
  cbn [crc_bits]. rewrite IH, crc_bit_bit_step.
  symmetry. apply Nat.iter_succ_r.
Qed.

Lemma crc_bits_8_uint16 (x : Z) :
  crc_bits 8 (uint16 x) = Nat.iter 8 CrcReference.bit_step x.
Proof.
  rewrite crc_bits_iter, !(Nat.iter_succ_r 7), bit_step_uint16.
  reflexivity.
Qed.

Lemma word_at_middle (pre post : list Z) (w : Z) :
  word_at (pre ++ w :: post) (length pre) = w.
Proof.
  unfold word_at. rewrite list_lookup_middle by reflexivity. reflexivity.
Qed.

(** The byte of an even counter is the high byte of its word. *)
Lemma crc_byte_even (pre post : list Z) (w r : Z) :
  crc_byte (pre ++ w :: post) (2 * length pre) r
  = CrcReference.byte_step r (Z.shiftr w 8).
Proof.
  unfold crc_byte, CrcReference.byte_step.
  replace (Nat.shiftr (2 * length pre) 1) with (length pre)
    by (cbn [Nat.shiftr nat_rect]; symmetry; apply Nat.div2_double).
  replace ((2 * length pre) mod 2 =? 1)%nat with false.
  - rewrite word_at_middle. apply crc_bits_8_uint16.
  - symmetry. apply Nat.eqb_neq.
    rewrite Nat.mul_comm, Nat.Div0.mod_mul. discriminate.
Qed.

(** The byte of an odd counter is the low byte of its word. *)
Lemma crc_byte_odd (pre post : list Z) (w r : Z) :
  crc_byte (pre ++ w :: post) (S (2 * length pre)) r
  = CrcReference.byte_step r (Z.land w 0xFF).
Proof.
  unfold crc_byte, CrcReference.byte_step.
  replace (Nat.shiftr (S (2 * length pre)) 1) with (length pre)
    by (cbn [Nat.shiftr nat_rect]; symmetry; apply Nat.div2_succ_double).
  replace (S (2 * length pre) mod 2 =? 1)%nat with true.
  - rewrite word_at_middle. apply crc_bits_8_uint16.
  - symmetry. apply Nat.eqb_eq.
    replace (S (2 * length pre)) with (1 + length pre * 2)%nat by lia.
    rewrite Nat.Div0.mod_add. reflexivity.
Qed.

Lemma crc_loop_two (n : nat) (t : list Z) (cnt : nat) (r : Z) :
  crc_loop (S (S n)) t cnt r
  = crc_loop n t (S (S cnt)) (crc_byte t (S cnt) (crc_byte t cnt r)).
Proof. reflexivity. Qed.

Lemma bytes_msb_first_cons (w : Z) (ws : list Z) :
  CrcReference.bytes_msb_first (w :: ws)
  = Z.shiftr w 8 :: Z.land w 0xFF :: CrcReference.bytes_msb_first ws.
Proof. reflexivity. Qed.

Lemma fold_left_two {A B} (f : A -> B -> A) (x y : B) (l : list B) (a : A) :
  fold_left f (x :: y :: l) a = fold_left f l (f (f a x) y).
Proof. reflexivity. Qed.

(** The counting loop walks the byte stream of the words still ahead. *)
Lemma crc_loop_fold (post pre : list Z) (r : Z) :
  crc_loop (2 * length post) (pre ++ post) (2 * length pre) r
  = fold_left CrcReference.byte_step (CrcReference.bytes_msb_first post) r.
Proof.
  revert pre r. induction post as [|w post IH]; intros pre r.
  - reflexivity.
  - replace (2 * length (w :: post))%nat with (S (S (2 * length post)))
      by (cbn [length]; lia).
    rewrite crc_loop_two, crc_byte_even, crc_byte_odd.
    rewrite bytes_msb_first_cons, fold_left_two.
    replace (pre ++ w :: post) with ((pre ++ [w]) ++ post)
      by (rewrite <- app_assoc; reflexivity).
    replace (S (S (2 * length pre))) with (2 * length (pre ++ [w]))%nat
      by (rewrite length_app; cbn [length]; lia).
    apply IH.
Qed.

(** A table of eight words, spelled out. *)
Lemma table_of_length_8 (t : list Z) :
  length t = 8%nat ->
  exists w0 w1 w2 w3 w4 w5 w6 w7, t = [w0; w1; w2; w3; w4; w5; w6; w7].
Proof.
  intros H.
  do 8 (destruct t as [|? t]; [discriminate H|]).
  destruct t; [|discriminate H]. repeat eexists.
Qed.

(** What the loop of [crc_check] sees is the masked table. *)
Lemma working_table (t : list Z) :
  length t = 8%nat ->
  <[0%nat := Z.land 0x0FFF (word_at (<[MS5805_COEFFICIENT_COUNT := 0]> t) 0)]>
    (<[MS5805_COEFFICIENT_COUNT := 0]> t)
  = CrcReference.masked_table t.
Proof.
  intros H. destruct (table_of_length_8 t H)
    as (w0 & w1 & w2 & w3 & w4 & w5 & w6 & w7 & ->).
  cbn. rewrite Z.land_comm. reflexivity.
Qed.

Lemma masked_table_length (t : list Z) :
  length (CrcReference.masked_table t) = length t.
Proof. unfold CrcReference.masked_table. apply length_imap. Qed.

(** The remainder [crc_check] compares is the reference's. *)
Lemma crc_check_result (t : list Z) (crc : Z) :
  length t = 8%nat ->
  fst (crc_check t crc) = (CrcReference.crc4 t =? crc).
Proof.
  intros H. unfold crc_check. cbn [fst]. rewrite working_table by exact H.
  pose proof (crc_loop_fold (CrcReference.masked_table t) [] 0) as L.
  rewrite masked_table_length, H in L. cbn [app length Nat.mul] in L.
  change ((MS5805_COEFFICIENT_COUNT + 1) * 2)%nat with (2 * 8)%nat.
  cbn [Nat.mul Nat.add] in L |- *. rewrite L. reflexivity.
Qed.

(** The array after the call: only the last slot may have changed. *)
Lemma crc_check_array (t : list Z) (crc : Z) :
  length t = 8%nat ->
  snd (crc_check t crc) = <[MS5805_COEFFICIENT_COUNT := 0]> t.
Proof.
  intros H. destruct (table_of_length_8 t H)
    as (w0 & w1 & w2 & w3 & w4 & w5 & w6 & w7 & ->).
  reflexivity.
Qed.

End CrcFacts.

(** C3, as amended.  On every array of eight words and for every
    expected value, [crc_check] answers what the reference answers: the
    remainder starts at zero, word 0 enters with its top four bits
    cleared and word 7 as zero, the sixteen bytes are taken most
    significant byte first, each byte is XOR-ed into the low byte of the
    remainder and followed by eight bit steps with the constant 0x3000,
    and the result is whether the remainder shifted right by 12 equals
    the expected value. *)
Theorem crc_check_refines_reference (n_prom : list Z) (crc : Z) :
  length n_prom = 8%nat ->
  fst (crc_check n_prom crc) = CrcReference.check n_prom crc.
Proof. intros H. unfold CrcReference.check. apply crc_check_result, H. Qed.

Lemma crc_check_refines_reference_witness :
  length [0x8000; 46372; 43981; 29059; 27842; 31553; 28165; 0] = 8%nat
  /\ fst (crc_check [0x8000; 46372; 43981; 29059; 27842; 31553; 28165; 0] 8)
     = CrcReference.check
         [0x8000; 46372; 43981; 29059; 27842; 31553; 28165; 0] 8.
Proof.
  split; [reflexivity|].
  apply (crc_check_refines_reference
           [0x8000; 46372; 43981; 29059; 27842; 31553; 28165; 0] 8).
  reflexivity.
Defined.

(** C3, as stated, fails: with the bytes at even positions XOR-ed into
    the high byte of the remainder the reference rejects an array that
    [crc_check] accepts. *)
Lemma crc_check_differs_from_parity_reference :
  fst (crc_check [0x7000; 0x0100; 0; 0; 0; 0; 0; 0] 7) = true
  /\ CrcReference.check_by_parity [0x7000; 0x0100; 0; 0; 0; 0; 0; 0] 7 = false.
Proof. split; vm_compute; reflexivity. Qed.

(** C9, as amended.  After [crc_check] the CRC word at index 0 is what it
    was before the call and words 1 to 6 are untouched; slot 7 holds zero,
    whatever it held before. *)
Theorem crc_check_restores_crc_word (n_prom : list Z) (crc : Z) :
  length n_prom = 8%nat ->
  word_at (snd (crc_check n_prom crc)) 0 = word_at n_prom 0
  /\ (forall i : nat, (i < 7)%nat ->
                     snd (crc_check n_prom crc) !! i = n_prom !! i)
  /\ word_at (snd (crc_check n_prom crc)) 7 = 0
  /\ snd (crc_check n_prom crc) = <[7%nat := 0]> n_prom.
Proof.
  intros H. rewrite (crc_check_array n_prom crc H).
  change MS5805_COEFFICIENT_COUNT with 7%nat.
  assert (Hother : forall i : nat, (i < 7)%nat ->
                                   <[7%nat := 0]> n_prom !! i = n_prom !! i).
  { intros i Hi. apply list_lookup_insert_ne. lia. }
  split; [unfold word_at; rewrite Hother by lia; reflexivity|].
  split; [exact Hother|].
  split; [|reflexivity].
  unfold word_at. rewrite list_lookup_insert_eq by lia. reflexivity.
Qed.

Lemma crc_check_restores_crc_word_witness :
  length [0x7123; 1; 2; 3; 4; 5; 6; 0x77] = 8%nat
  /\ snd (crc_check [0x7123; 1; 2; 3; 4; 5; 6; 0x77] 7)
     = [0x7123; 1; 2; 3; 4; 5; 6; 0].
Proof.
  split; [reflexivity|].
  apply (crc_check_restores_crc_word [0x7123; 1; 2; 3; 4; 5; 6; 0x77] 7).
  reflexivity.
Defined.

(** C9, as stated, fails: the zero written to slot 7 stays. *)
Lemma crc_check_keeps_slot_7_zeroed :
  ~ slots_restored [0x7123; 1; 2; 3; 4; 5; 6; 0x77]
      (snd (crc_check [0x7123; 1; 2; 3; 4; 5; 6; 0x77] 7)).
Proof. intros [_ H]. vm_compute in H. discriminate H. Qed.
(** ** The arithmetic of the compensation never leaves 64 bits *)

Section ArithFacts.

(** [lia] with quotients and remainders by constants. *)
Ltac Zify.zify_post_hook ::= Z.to_euclidean_division_equations.

Lemma square_bound (a A : Z) : - A <= a <= A -> 0 <= a * a <= A * A.
Proof. intros H. nia. Qed.

Lemma product_bound (a b A B : Z) :
  - A <= a <= A -> 0 <= b <= B -> - (A * B) <= a * b <= A * B.
Proof. intros Ha Hb. nia. Qed.

(** Rewrites the innermost conversion whose operand is in range. *)
Ltac fits32 :=
  match goal with
  | |- context [int32 ?z] =>
      lazymatch z with
      | context [int32 _] => fail
      | context [int64 _] => fail
      | _ => rewrite (int32_id z) by lia
      end
  end.

Ltac fits64 :=
  match goal with
  | |- context [int64 ?z] =>
      lazymatch z with
      | context [int64 _] => fail
      | _ => rewrite (int64_id z) by lia
      end
  end.

Ltac shifts :=
  rewrite ?Z.shiftl_mul_pow2, ?Z.shiftr_div_pow2 by lia.

Lemma all_uint16_words (C : list Z) : all_uint16 C = true -> uint16_words C.
Proof.
  unfold all_uint16, uint16_words, word_at. intros H i.
  destruct (C !! i) as [w|] eqn:E; simpl; [|lia].
  rewrite forallb_forall in H.
  assert (Hin : In w C).
  { apply list_elem_of_In. eapply list_elem_of_lookup_2. exact E. }
  specialize (H w Hin). cbv beta in H.
  apply andb_true_iff in H. destruct H as [Hlo Hhi].
  apply Z.leb_le in Hlo. apply Z.ltb_lt in Hhi. lia.
Qed.

Lemma calc_dT_exact (C : list Z) (D2 : Z) :
  uint16_words C -> 0 <= D2 < 2 ^ 24 ->
  calc_dT C D2 = Formula.dT C D2 /\ - 2 ^ 24 < Formula.dT C D2 < 2 ^ 24.
Proof.
  intros HC HD. unfold calc_dT, Formula.dT.
  change MS5805_REFERENCE_TEMPERATURE_INDEX with 5%nat.
  pose proof (HC 5%nat) as H5. shifts.
  repeat fits32. lia.
Qed.

Lemma calc_TEMP_exact (C : list Z) (dT : Z) :
  uint16_words C -> - 2 ^ 24 < dT < 2 ^ 24 ->
  calc_TEMP C dT = 2000 + Z.shiftr (dT * word_at C 6) 23
  /\ - 2 ^ 17 <= Z.shiftr (dT * word_at C 6) 23 < 2 ^ 17.
Proof.
  intros HC HD. unfold calc_TEMP, I64.add, I64.shr, I64.mul.
  change MS5805_TEMP_COEFF_OF_TEMPERATURE_INDEX with 6%nat.
  pose proof (HC 6%nat) as H6.
  pose proof (product_bound dT (word_at C 6) (2 ^ 24 - 1) (2 ^ 16 - 1)
                ltac:(lia) ltac:(lia)) as Hp.
  shifts. repeat fits64. fits32. lia.
Qed.

(** Lines 322-336 on values that do not overflow. *)
Lemma second_order_exact (dT TEMP : Z) :
  - 2 ^ 30 <= dT <= 2 ^ 30 -> - 2 ^ 28 <= TEMP <= 2 ^ 28 ->
  second_order dT TEMP
  = (Formula.T2 dT TEMP, Formula.OFF2 TEMP, Formula.SENS2 TEMP).
Proof.
  intros HD HT.
  pose proof (square_bound dT (2 ^ 30) ltac:(lia)) as Hd.
  pose proof (square_bound (TEMP - 2000) (2 ^ 28 + 2000) ltac:(lia)) as Ha.
  pose proof (square_bound (TEMP + 1500) (2 ^ 28 + 1500) ltac:(lia)) as Hb.
  unfold second_order, Formula.T2, Formula.OFF2, Formula.SENS2.
  unfold I64.add, I64.sub, I64.mul, I64.div, I64.shr.
  rewrite !Z.pow_2_r. shifts.
  destruct (TEMP <? 2000); [destruct (TEMP <? -1500)|];
    repeat fits64;
    first [reflexivity | f_equal; [f_equal|]; lia].
Qed.

(** How large the second-order terms get for temperatures the first
    order formula can produce. *)
Lemma second_order_terms_bound (TEMP : Z) :
  2000 - 2 ^ 17 <= TEMP < 2000 + 2 ^ 17 ->
  0 <= Formula.OFF2 TEMP <= 61 * 2 ^ 30 + 17 * 2 ^ 34
  /\ 0 <= Formula.SENS2 TEMP <= 29 * 2 ^ 30 + 9 * 2 ^ 34.
Proof.
  intros HT.
  pose proof (square_bound (TEMP - 2000) (2 ^ 17)) as Ha.
  pose proof (square_bound (TEMP + 1500) (2 ^ 17)) as Hb.
  unfold Formula.OFF2, Formula.SENS2. rewrite !Z.pow_2_r.
  destruct (Z.ltb_spec TEMP 2000); [destruct (Z.ltb_spec TEMP (-1500))|];
    lia.
Qed.

(** Lines 312-354 compute the data sheet's numbers. *)
Lemma compensation_int_exact (C : list Z) (D2 D1 : Z) :
  uint16_words C -> 0 <= D2 < 2 ^ 24 -> 0 <= D1 < 2 ^ 24 ->
  compensation_int C D2 D1
  = (Formula.TEMP C D2,
     Formula.T2 (Formula.dT C D2) (Formula.TEMP C D2),
     Formula.P C D2 D1).
Proof.
  intros HC H2 H1.
  destruct (calc_dT_exact C D2 HC H2) as [EdT BdT].
  destruct (calc_TEMP_exact C (Formula.dT C D2) HC BdT) as [ET BT].
  assert (BT' : 2000 - 2 ^ 17 <= Formula.TEMP C D2 < 2000 + 2 ^ 17)
    by (unfold Formula.TEMP; lia).
  unfold compensation_int. rewrite EdT, ET.
  change (2000 + Z.shiftr (Formula.dT C D2 * word_at C 6) 23)
    with (Formula.TEMP C D2).
  rewrite second_order_exact by lia. cbv beta iota zeta.
  destruct (second_order_terms_bound (Formula.TEMP C D2) BT') as [Bo Bs].
  unfold Formula.P, Formula.OFF, Formula.SENS.
  change MS5805_PRESSURE_OFFSET_INDEX with 2%nat.
  change MS5805_TEMP_COEFF_OF_PRESSURE_OFFSET_INDEX with 4%nat.
  change MS5805_PRESSURE_SENSITIVITY_INDEX with 1%nat.
  change MS5805_TEMP_COEFF_OF_PRESSURE_SENSITIVITY_INDEX with 3%nat.
  pose proof (HC 1%nat) as H_1. pose proof (HC 2%nat) as H_2.
  pose proof (HC 3%nat) as H_3. pose proof (HC 4%nat) as H_4.
  set (d := Formula.dT C D2) in *.
  set (o2 := Formula.OFF2 (Formula.TEMP C D2)) in *.
  set (s2 := Formula.SENS2 (Formula.TEMP C D2)) in *.
  set (c1 := word_at C 1) in *. set (c2 := word_at C 2) in *.
  set (c3 := word_at C 3) in *. set (c4 := word_at C 4) in *.
  pose proof (product_bound d c3 (2 ^ 24) (2 ^ 16)
                ltac:(lia) ltac:(lia)) as Hp3.
  pose proof (product_bound d c4 (2 ^ 24) (2 ^ 16)
                ltac:(lia) ltac:(lia)) as Hp4.
  unfold I64.add, I64.sub, I64.mul, I64.shl, I64.shr. shifts.
  pose proof (product_bound (c1 * 2 ^ 16 + c3 * d / 2 ^ 7 - s2) D1
                (2 ^ 32 + 2 ^ 33 + 29 * 2 ^ 30 + 9 * 2 ^ 34) (2 ^ 24)
                ltac:(lia) ltac:(lia)) as HpS.
  repeat fits64. reflexivity.
Qed.

End ArithFacts.
(** ** Running the methods *)

Section BusFacts.

Lemma ops_of_advance {A} (c : M A) (s : state) (d : ms5805)
    (tx rx loc : nat) (ops : list bus_op) :
  snd (c s) = mk_state d (advance (wire s) tx rx loc ops) ->
  ops_of c s = ops.
Proof.
  intros H. unfold ops_of. rewrite H. cbn [wire advance log].
  apply drop_app_length.
Qed.

(** [read_eeprom_coeff] in one step. *)
Lemma read_eeprom_coeff_run (command : Z) (s : state) :
  read_eeprom_coeff command s
  = ((if uint8 (next_tx (wire s) 0) =? ms5805_STATUS_ERR_OVERFLOW
      then (ms5805_status_no_i2c_acknowledge, None)
      else (ms5805_status_ok,
            Some (big_endian16 (next_rx (wire s) 0) (next_rx (wire s) 1)))),
     mk_state (this s)
       (advance (wire s) 1 2 0
          (word_exchange command (next_tx (wire s) 0)
             (next_rx (wire s) 0) (next_rx (wire s) 1)))).
Proof.
  cbv beta iota zeta delta
    [read_eeprom_coeff bind Wire_beginTransmission Wire_write
     Wire_endTransmission Wire_requestFrom read_buffer Wire_read bus ret
     advance word_exchange next_tx next_rx
     wire this tx_status rx_data indeterminate n_tx n_rx n_local log
     Nat.add].
  rewrite <- !app_assoc. cbn [app].
  destruct (uint8 _ =? ms5805_STATUS_ERR_OVERFLOW); reflexivity.
Qed.

(** [conversion_and_read_adc] in one step. *)
Lemma conversion_and_read_adc_run (cmd : Z) (s : state) :
  let w := wire s in
  let status := indeterminate w (n_local w) in
  let i2c_status := uint8 (next_tx w 1) in
  conversion_and_read_adc cmd s
  = ((if negb (ms5805_status_eqb status ms5805_status_ok) then (status, None)
      else if i2c_status =? ms5805_STATUS_ERR_OVERFLOW then
        (ms5805_status_no_i2c_acknowledge, None)
      else if negb (i2c_status =? ms5805_STATUS_OK) then
        (ms5805_status_i2c_transfer_error, None)
      else
        (status,
         Some (uint32
                 (Z.lor
                    (Z.lor (uint32 (Z.shiftl (uint32 (uint8 (next_rx w 0))) 16))
                           (uint32 (Z.shiftl (uint32 (uint8 (next_rx w 1))) 8)))
                    (uint8 (next_rx w 2)))))),
     mk_state (this s)
       (advance w 2 3 1
          (conversion_exchange (uint8 cmd)
             (word_at conversion_time
                (Z.to_nat (Z.land cmd MS5805_CONVERSION_OSR_MASK / 2)))
             (next_tx w 0) (next_tx w 1)
             (next_rx w 0) (next_rx w 1) (next_rx w 2)))).
Proof.
  cbv beta iota zeta delta
    [conversion_and_read_adc bind uninitialised_status
     Wire_beginTransmission Wire_write Wire_endTransmission delay
     Wire_requestFrom read_buffer Wire_read bus ret
     advance conversion_exchange next_tx next_rx
     wire this tx_status rx_data indeterminate n_tx n_rx n_local log
     Nat.add].
  rewrite <- !app_assoc. cbn [app].
  destruct (negb (ms5805_status_eqb _ ms5805_status_ok)); [reflexivity|].
  destruct (uint8 _ =? ms5805_STATUS_ERR_OVERFLOW); [reflexivity|].
  destruct (negb (uint8 _ =? ms5805_STATUS_OK)); reflexivity.
Qed.

Lemma advance_advance (w : world) (a b c a' b' c' : nat)
    (ops ops' : list bus_op) :
  advance (advance w a b c ops) a' b' c' ops'
  = advance w (a' + a) (b' + b) (c' + c) (ops ++ ops').
Proof.
  unfold advance. cbn [tx_status rx_data indeterminate n_tx n_rx n_local log].
  rewrite !Nat.add_assoc, app_assoc. reflexivity.
Qed.

Lemma next_tx_advance (w : world) (a b c : nat) (ops : list bus_op) (k : nat) :
  next_tx (advance w a b c ops) k = next_tx w (k + a).
Proof.
  unfold next_tx, advance. cbn [tx_status n_tx]. f_equal. lia.
Qed.

Lemma next_rx_advance (w : world) (a b c : nat) (ops : list bus_op) (k : nat) :
  next_rx (advance w a b c ops) k = next_rx w (k + b).
Proof.
  unfold next_rx, advance. cbn [rx_data n_rx]. f_equal. lia.
Qed.

Lemma advance_nothing (w : world) : advance w 0 0 0 [] = w.
Proof.
  destruct w. unfold advance. cbn. rewrite app_nil_r. reflexivity.
Qed.

(** The loop of [read_eeprom] from word [i] on, in a load that started
    in world [w] with driver [d], as long as no exchange reports the
    overflow code. *)
Lemma read_eeprom_loop_run (d : ms5805) (w : world) (n : nat) :
  forall (i : nat) (table : list Z) (ops : list bus_op),
    (forall k : nat, (i <= k < i + n)%nat ->
                     uint8 (next_tx w k) <> ms5805_STATUS_ERR_OVERFLOW) ->
    read_eeprom_loop n i
      (mk_state (with_eeprom_coeff d table) (advance w i (2 * i) 0 ops))
    = (None,
       mk_state (with_eeprom_coeff d (store_words w i n table))
         (advance w (i + n) (2 * (i + n)) 0 (ops ++ fetch_ops w i n))).
Proof.
  induction n as [|n IH]; intros i table ops Hack.
  - cbn [read_eeprom_loop store_words fetch_ops]. unfold ret.
    rewrite Nat.add_0_r, app_nil_r. reflexivity.
  - cbn [read_eeprom_loop store_words fetch_ops].
    unfold bind at 1. rewrite read_eeprom_coeff_run.
    cbn [wire this]. rewrite !next_tx_advance, !next_rx_advance.
    cbn [Nat.add].
    replace (uint8 (next_tx w i) =? ms5805_STATUS_ERR_OVERFLOW) with false
      by (symmetry; apply Z.eqb_neq, Hack; lia).
    cbv beta iota zeta delta [bind get_this put_this ret].
    cbn [this wire ms5805_status_eqb negb eeprom_coeff with_eeprom_coeff].
    rewrite advance_advance.
    replace (with_eeprom_coeff (with_eeprom_coeff d table)
               (<[i := big_endian16 (next_rx w (2 * i))
                                    (next_rx w (S (2 * i)))]> table))
      with (with_eeprom_coeff d (<[i := fetched_word w i]> table)).
    2:{ unfold fetched_word. replace (2 * i + 1)%nat with (S (2 * i)) by lia.
        reflexivity. }
    replace (1 + i)%nat with (S i) by reflexivity.
    replace (2 + 2 * i)%nat with (2 * S i)%nat by lia.
    cbn [Nat.add].
    rewrite IH by (intros k Hk; apply Hack; lia).
    replace (S i + n)%nat with (i + S n)%nat by lia.
    rewrite <- app_assoc.
    replace (2 * i + 1)%nat with (S (2 * i)) by lia.
    reflexivity.
Qed.

Lemma bind_run {A B} (c : M A) (k : A -> M B) (s : state) :
  bind c k s = k (fst (c s)) (snd (c s)).
Proof. unfold bind. destruct (c s). reflexivity. Qed.

(** [read_temperature_and_pressure], call by call. *)
Lemma read_temperature_and_pressure_run (s : state) :
  read_temperature_and_pressure s
  = let (st0, s1) :=
      if coeff_read (this s) then (ms5805_status_ok, s) else read_eeprom s in
    if negb (ms5805_status_eqb st0 ms5805_status_ok) then ((st0, None), s1)
    else
      let (r1, s2) :=
        conversion_and_read_adc
          (conversion_command (this s1) MS5805_START_TEMPERATURE_ADC_CONVERSION)
          s1 in
      if negb (ms5805_status_eqb (fst r1) ms5805_status_ok)
      then ((fst r1, None), s2)
      else
        let (r2, s3) :=
          conversion_and_read_adc
            (conversion_command (this s2) MS5805_START_PRESSURE_ADC_CONVERSION)
            s2 in
        if negb (ms5805_status_eqb (fst r2) ms5805_status_ok)
        then ((fst r2, None), s3)
        else
          match snd r1, snd r2 with
          | Some D2, Some D1 =>
              if (D2 =? 0) || (D1 =? 0)
              then ((ms5805_status_i2c_transfer_error, None), s3)
              else ((fst r2,
                     Some (compensation (eeprom_coeff (this s3)) D2 D1)), s3)
          | _, _ => ((fst r2, None), s3)
          end.
Proof.
  unfold read_temperature_and_pressure, conversion_command.
  cbv beta iota zeta delta [bind get_this ret].
  destruct (coeff_read (this s)); cbn [eqb].
  - cbn [ms5805_status_eqb negb].
    destruct (conversion_and_read_adc _ s) as [[st1 a1] s2]. cbn [fst snd].
    destruct (negb (ms5805_status_eqb st1 ms5805_status_ok)); [reflexivity|].
    destruct (conversion_and_read_adc _ s2) as [[st2 a2] s3]. cbn [fst snd].
    destruct (negb (ms5805_status_eqb st2 ms5805_status_ok)); [reflexivity|].
    destruct a1 as [D2|], a2 as [D1|]; try reflexivity.
    destruct ((D2 =? 0) || (D1 =? 0)); reflexivity.
  - destruct (read_eeprom s) as [st0 s1].
    destruct (negb (ms5805_status_eqb st0 ms5805_status_ok)); [reflexivity|].
    destruct (conversion_and_read_adc _ s1) as [[st1 a1] s2]. cbn [fst snd].
    destruct (negb (ms5805_status_eqb st1 ms5805_status_ok)); [reflexivity|].
    destruct (conversion_and_read_adc _ s2) as [[st2 a2] s3]. cbn [fst snd].
    destruct (negb (ms5805_status_eqb st2 ms5805_status_ok)); [reflexivity|].
    destruct a1 as [D2|], a2 as [D1|]; try reflexivity.
    destruct ((D2 =? 0) || (D1 =? 0)); reflexivity.
Qed.

End BusFacts.

(** ** What the methods do to the log and to the driver object *)

Section Emits.

Variable P : bus_op -> Prop.

Lemma emits_ret {A} (a : A) : emits P (ret a).
Proof. intros s. exists []. cbn. rewrite app_nil_r. auto. Qed.

Lemma emits_bind {A B} (c : M A) (k : A -> M B) :
  emits P c -> (forall a, emits P (k a)) -> emits P (bind c k).
Proof.
  intros Hc Hk s. rewrite bind_run.
  destruct (Hc s) as (ops1 & E1 & F1).
  destruct (Hk (fst (c s)) (snd (c s))) as (ops2 & E2 & F2).
  exists (ops1 ++ ops2). rewrite E2, E1, app_assoc. split; [reflexivity|].
  apply Forall_app; auto.
Qed.

Lemma emits_get_this : emits P get_this.
Proof. intros s. exists []. cbn. rewrite app_nil_r. auto. Qed.

Lemma emits_put_this (d : ms5805) : emits P (put_this d).
Proof. intros s. exists []. cbn. rewrite app_nil_r. auto. Qed.

Lemma emits_uninitialised_status : emits P uninitialised_status.
Proof. intros s. exists []. cbn. rewrite app_nil_r. auto. Qed.

Lemma emits_bus (op : bus_op) : P op -> emits P (bus op).
Proof. intros H s. exists [op]. cbn. auto. Qed.

Lemma emits_Wire_endTransmission :
  (forall r, P (EndTransmission r)) -> emits P Wire_endTransmission.
Proof. intros H s. eexists [_]. cbn. auto. Qed.

Lemma emits_Wire_read : (forall r, P (ReadByte r)) -> emits P Wire_read.
Proof. intros H s. eexists [_]. cbn. auto. Qed.

Lemma emits_read_buffer (n : nat) :
  (forall r, P (ReadByte r)) -> emits P (read_buffer n).
Proof.
  intros H. induction n as [|n IH]; cbn [read_buffer].
  - apply emits_ret.
  - apply emits_bind; [apply emits_Wire_read, H|]. intros b.
    apply emits_bind; [exact IH|]. intros rest. apply emits_ret.
Qed.

End Emits.

Lemma keeps_this_ret {A} (a : A) : keeps_this (ret a).
Proof. intros s. reflexivity. Qed.

Lemma keeps_this_bind {A B} (c : M A) (k : A -> M B) :
  keeps_this c -> (forall a, keeps_this (k a)) -> keeps_this (bind c k).
Proof. intros Hc Hk s. rewrite bind_run, Hk, Hc. reflexivity. Qed.

Lemma keeps_this_get_this : keeps_this get_this.
Proof. intros s. reflexivity. Qed.

Lemma keeps_this_bus (op : bus_op) : keeps_this (bus op).
Proof. intros s. reflexivity. Qed.

Lemma keeps_this_Wire_endTransmission : keeps_this Wire_endTransmission.
Proof. intros s. reflexivity. Qed.

Lemma keeps_this_conversion_and_read_adc (cmd : Z) :
  keeps_this (conversion_and_read_adc cmd).
Proof.
  intros s. pose proof (conversion_and_read_adc_run cmd s) as R.
  cbv zeta in R. rewrite R. reflexivity.
Qed.

(** The log of [c] is the old log followed by [ops_of c]. *)
Lemma emits_ops_of (P : bus_op -> Prop) {A} (c : M A) (s : state) :
  emits P c ->
  log (wire (snd (c s))) = log (wire s) ++ ops_of c s /\ Forall P (ops_of c s).
Proof.
  intros H. destruct (H s) as (ops & E & F). unfold ops_of.
  rewrite E, drop_app_length. auto.
Qed.

Lemma ops_of_bind {A B} (c : M A) (k : A -> M B) (s : state) :
  emits (fun _ => True) c -> (forall a, emits (fun _ => True) (k a)) ->
  ops_of (bind c k) s = ops_of c s ++ ops_of (k (fst (c s))) (snd (c s)).
Proof.
  intros Hc Hk.
  destruct (emits_ops_of _ c s Hc) as [E1 _].
  destruct (emits_ops_of _ (k (fst (c s))) (snd (c s)) (Hk _)) as [E2 _].
  unfold ops_of at 1. rewrite bind_run, E2, E1, <- app_assoc.
  apply drop_app_length.
Qed.

(** The structure of a computation decides what it emits. *)
Ltac emits_step :=
  lazymatch goal with
  | |- emits _ (bind _ _) => apply emits_bind; [|intros ?]
  | |- emits _ (ret _) => apply emits_ret
  | |- emits _ get_this => apply emits_get_this
  | |- emits _ (put_this _) => apply emits_put_this
  | |- emits _ uninitialised_status => apply emits_uninitialised_status
  | |- emits _ (read_buffer _) => apply emits_read_buffer; intros ?
  | |- emits _ Wire_endTransmission =>
      apply emits_Wire_endTransmission; intros ?
  | |- emits _ Wire_read => apply emits_Wire_read; intros ?
  | |- emits _ (bus _) => apply emits_bus
  | |- emits _ (if ?b then _ else _) => destruct b
  | |- emits _ (match ?x with _ => _ end) => destruct x
  end.

Ltac emits_all := repeat emits_step; try exact I.

Lemma emits_read_eeprom_coeff (command : Z) :
  emits (fun _ => True) (read_eeprom_coeff command).
Proof.
  unfold read_eeprom_coeff, Wire_beginTransmission, Wire_write,
    Wire_requestFrom.
  emits_all.
Qed.

Lemma emits_read_eeprom_loop (n i : nat) :
  emits (fun _ => True) (read_eeprom_loop n i).
Proof.
  revert i. induction n as [|n IH]; intros i; cbn [read_eeprom_loop].
  - apply emits_ret.
  - apply emits_bind; [apply emits_read_eeprom_coeff|]. intros [status coeff].
    emits_all. apply IH.
Qed.

Lemma emits_read_eeprom : emits (fun _ => True) read_eeprom.
Proof.
  unfold read_eeprom.
  apply emits_bind; [apply emits_read_eeprom_loop|]. intros early.
  emits_all.
Qed.

(** A conversion requests three bytes, and selects no PROM address when
    its command byte is none. *)
Lemma emits_conversion_and_read_adc (cmd : Z) :
  no_coefficient_read (WriteByte (uint8 cmd)) ->
  emits no_coefficient_read (conversion_and_read_adc cmd).
Proof.
  intros Hcmd.
  unfold conversion_and_read_adc, Wire_beginTransmission, Wire_write,
    Wire_requestFrom, delay.
  emits_all; first [exact Hcmd | reflexivity].
Qed.

(** The command bytes that [read_temperature_and_pressure] builds are no
    PROM addresses. *)
Lemma conversion_command_no_address (d : ms5805) (base : Z) :
  base = MS5805_START_TEMPERATURE_ADC_CONVERSION
  \/ base = MS5805_START_PRESSURE_ADC_CONVERSION ->
  no_coefficient_read (WriteByte (uint8 (conversion_command d base))).
Proof.
  intros Hbase. destruct d as [C cr []], Hbase as [-> | ->]; reflexivity.
Qed.
(** ** The compensation *)

Section Compensation.

Lemma lor_below (n a b : Z) :
  0 < n -> 0 <= a < 2 ^ n -> 0 <= b < 2 ^ n -> 0 <= Z.lor a b < 2 ^ n.
Proof.
  intros Hn Ha Hb. split; [apply Z.lor_nonneg; lia|].
  destruct (Z.eq_dec (Z.lor a b) 0) as [E|E]; [rewrite E; lia|].
  assert (0 <= Z.lor a b) by (apply Z.lor_nonneg; lia).
  apply Z.log2_lt_pow2; [lia|]. rewrite Z.log2_lor by lia.
  apply Z.max_lub_lt.
  - destruct (Z.eq_dec a 0) as [->|]; [cbn; lia|].
    apply Z.log2_lt_pow2; lia.
  - destruct (Z.eq_dec b 0) as [->|]; [cbn; lia|].
    apply Z.log2_lt_pow2; lia.
Qed.

(** What [conversion_and_read_adc] stores is a 24-bit value, it stores
    exactly when it returns [ms5805_status_ok], and it leaves the driver
    object alone. *)
Lemma conversion_and_read_adc_result (cmd : Z) (s s' : state)
    (st : ms5805_status) (adc : option Z) :
  conversion_and_read_adc cmd s = ((st, adc), s') ->
  this s' = this s
  /\ (st = ms5805_status_ok <-> exists v, adc = Some v)
  /\ (forall v, adc = Some v -> 0 <= v < 2 ^ 24).
Proof.
  pose proof (conversion_and_read_adc_run cmd s) as R. cbv zeta in R.
  rewrite R. clear R. intros E.
  injection E as E1 E2. subst s'. split; [reflexivity|].
  destruct (indeterminate (wire s) (n_local (wire s))) eqn:Hu;
    cbn [ms5805_status_eqb negb] in E1;
    try (injection E1 as <- <-;
         split; [split; [discriminate | intros [v Hv]; discriminate Hv]
                | intros v Hv; discriminate Hv]).
  destruct (uint8 (next_tx (wire s) 1) =? ms5805_STATUS_ERR_OVERFLOW);
    [injection E1 as <- <-;
     split; [split; [discriminate | intros [v Hv]; discriminate Hv]
            | intros v Hv; discriminate Hv]|].
  destruct (negb (uint8 (next_tx (wire s) 1) =? ms5805_STATUS_OK));
    [injection E1 as <- <-;
     split; [split; [discriminate | intros [v Hv]; discriminate Hv]
            | intros v Hv; discriminate Hv]|].
  injection E1 as <- <-. split; [split; eauto|].
  intros v Hv. injection Hv as <-.
  pose proof (uint8_range (next_rx (wire s) 0)) as B0.
  pose proof (uint8_range (next_rx (wire s) 1)) as B1.
  pose proof (uint8_range (next_rx (wire s) 2)) as B2.
  unfold uint32. rewrite !Z.shiftl_mul_pow2 by lia.
  rewrite (unsigned_id 32 (uint8 (next_rx (wire s) 0))) by lia.
  rewrite (unsigned_id 32 (uint8 (next_rx (wire s) 1))) by lia.
  rewrite (unsigned_id 32 (uint8 (next_rx (wire s) 0) * 2 ^ 16)) by lia.
  rewrite (unsigned_id 32 (uint8 (next_rx (wire s) 1) * 2 ^ 8)) by lia.
  assert (B : 0 <= Z.lor (Z.lor (uint8 (next_rx (wire s) 0) * 2 ^ 16)
                                (uint8 (next_rx (wire s) 1) * 2 ^ 8))
                         (uint8 (next_rx (wire s) 2)) < 2 ^ 24)
    by (apply lor_below; [lia | apply lor_below; lia | lia]).
  rewrite (unsigned_id 32) by lia. exact B.
Qed.

Lemma coefficients_ready_run (s s1 : state) :
coefficients_ready s s1 ->
(if coeff_read (this s) then (ms5805_status_ok, s) else read_eeprom s)
= (ms5805_status_ok, s1).
Proof.
intros [[Hc ->] | [Hc Hr]]; rewrite Hc; [reflexivity | exact Hr].
Qed.

(** C1.  Once the coefficients are there and the two conversions have
  given the raw temperature [D2] and the raw pressure [D1], both not
  zero, [read_temperature_and_pressure] returns [ms5805_status_ok] and
  stores the first and second order formulas of the data sheet,
  evaluated in exact integer arithmetic with floor shifts: no
  intermediate leaves 64 bits.  The raw values are 24-bit values
  because [conversion_and_read_adc] builds them from three bytes. *)
Theorem read_temperature_and_pressure_exact
  (s s1 s2 s3 : state) (D2 D1 : Z) :
coefficients_ready s s1 ->
all_uint16 (eeprom_coeff (this s1)) = true ->
conversion_and_read_adc
  (conversion_command (this s1) MS5805_START_TEMPERATURE_ADC_CONVERSION) s1
= ((ms5805_status_ok, Some D2), s2) ->
conversion_and_read_adc
  (conversion_command (this s2) MS5805_START_PRESSURE_ADC_CONVERSION) s2
= ((ms5805_status_ok, Some D1), s3) ->
D2 <> 0 -> D1 <> 0 ->
let C := eeprom_coeff (this s1) in
(0 < D2 < 2 ^ 24 /\ 0 < D1 < 2 ^ 24)
/\ compensation_int C D2 D1
   = (Formula.TEMP C D2,
      Formula.T2 (Formula.dT C D2) (Formula.TEMP C D2),
      Formula.P C D2 D1)
/\ read_temperature_and_pressure s
   = ((ms5805_status_ok,
       Some (Formula.temperature C D2, Formula.pressure C D2 D1)), s3).
Proof.
intros Hready HC Hconv2 Hconv1 Hn2 Hn1 C.
destruct (conversion_and_read_adc_result _ _ _ _ _ Hconv2)
  as (Hthis2 & _ & Hr2).
destruct (conversion_and_read_adc_result _ _ _ _ _ Hconv1)
  as (Hthis1 & _ & Hr1).
specialize (Hr2 D2 eq_refl). specialize (Hr1 D1 eq_refl).
assert (Hint : compensation_int C D2 D1
               = (Formula.TEMP C D2,
                  Formula.T2 (Formula.dT C D2) (Formula.TEMP C D2),
                  Formula.P C D2 D1)).
{ apply compensation_int_exact; [apply all_uint16_words, HC | lia | lia]. }
split; [lia|]. split; [exact Hint|].
rewrite read_temperature_and_pressure_run.
rewrite (coefficients_ready_run s s1 Hready).
cbn [ms5805_status_eqb negb]. rewrite Hconv2.
cbn [fst snd ms5805_status_eqb negb]. rewrite Hconv1.
cbn [fst snd ms5805_status_eqb negb].
replace (D2 =? 0) with false by (symmetry; apply Z.eqb_neq; exact Hn2).
replace (D1 =? 0) with false by (symmetry; apply Z.eqb_neq; exact Hn1).
cbn [orb]. rewrite Hthis1, Hthis2. fold C.
unfold compensation. rewrite Hint. reflexivity.
Qed.

(** C2.  The second order correction tests [TEMP] with strict
  inequalities.  Below 2000 the low temperature terms apply, and the
  very low temperature terms are added only below -1500; from 2000
  upwards [T2] is the high temperature term and [OFF2] and [SENS2] are
  zero.  So [TEMP = 2000] takes the outer else branch and
  [TEMP = -1500] takes the low temperature branch without the very low
  temperature terms.  ([dT] and [TEMP] are taken in a range that holds
  every value the first order formula produces and in which no product
  overflows.) *)
Theorem second_order_strict_thresholds (dT TEMP : Z) :
- 2 ^ 30 <= dT <= 2 ^ 30 -> - 2 ^ 28 <= TEMP <= 2 ^ 28 ->
(TEMP < -1500 ->
 second_order dT TEMP
 = (Z.shiftr (3 * (dT * dT)) 33,
    61 * (TEMP - 2000) ^ 2 / 16 + 17 * (TEMP + 1500) ^ 2,
    29 * (TEMP - 2000) ^ 2 / 16 + 9 * (TEMP + 1500) ^ 2))
/\ (-1500 <= TEMP < 2000 ->
    second_order dT TEMP
    = (Z.shiftr (3 * (dT * dT)) 33,
       61 * (TEMP - 2000) ^ 2 / 16,
       29 * (TEMP - 2000) ^ 2 / 16))
/\ (2000 <= TEMP ->
    second_order dT TEMP = (Z.shiftr (5 * (dT * dT)) 38, 0, 0))
/\ (TEMP = 2000 ->
    second_order dT TEMP = (Z.shiftr (5 * (dT * dT)) 38, 0, 0))
/\ (TEMP = -1500 ->
    second_order dT TEMP
    = (Z.shiftr (3 * (dT * dT)) 33,
       61 * 3500 ^ 2 / 16, 29 * 3500 ^ 2 / 16)).
Proof.
intros HD HT. rewrite (second_order_exact dT TEMP HD HT).
unfold Formula.T2, Formula.OFF2, Formula.SENS2.
repeat split; intros H.
- replace (TEMP <? 2000) with true by (symmetry; apply Z.ltb_lt; lia).
  replace (TEMP <? -1500) with true by (symmetry; apply Z.ltb_lt; lia).
  reflexivity.
- replace (TEMP <? 2000) with true by (symmetry; apply Z.ltb_lt; lia).
  replace (TEMP <? -1500) with false by (symmetry; apply Z.ltb_ge; lia).
  rewrite !Z.add_0_r. reflexivity.
- replace (TEMP <? 2000) with false by (symmetry; apply Z.ltb_ge; lia).
  reflexivity.
- subst TEMP. reflexivity.
- subst TEMP. reflexivity.
Qed.

(** C8.  When the two conversions have returned [ms5805_status_ok] and
  one of the raw values they stored is zero,
  [read_temperature_and_pressure] returns
  [ms5805_status_i2c_transfer_error] and stores no output. *)
Theorem zero_adc_is_transfer_error (s s1 s2 s3 : state) (D2 D1 : Z) :
coefficients_ready s s1 ->
conversion_and_read_adc
  (conversion_command (this s1) MS5805_START_TEMPERATURE_ADC_CONVERSION) s1
= ((ms5805_status_ok, Some D2), s2) ->
conversion_and_read_adc
  (conversion_command (this s2) MS5805_START_PRESSURE_ADC_CONVERSION) s2
= ((ms5805_status_ok, Some D1), s3) ->
D2 = 0 \/ D1 = 0 ->
read_temperature_and_pressure s
= ((ms5805_status_i2c_transfer_error, None), s3).
Proof.
intros Hready Hconv2 Hconv1 Hzero.
rewrite read_temperature_and_pressure_run.
rewrite (coefficients_ready_run s s1 Hready).
cbn [ms5805_status_eqb negb]. rewrite Hconv2.
cbn [fst snd ms5805_status_eqb negb]. rewrite Hconv1.
cbn [fst snd ms5805_status_eqb negb].
replace ((D2 =? 0) || (D1 =? 0)) with true; [reflexivity|].
symmetry. apply orb_true_iff.
destruct Hzero as [-> | ->]; [left | right]; reflexivity.
Qed.

(** The data sheet's example: 20.00 degrees and 1100.02 mbar. *)
Lemma read_temperature_and_pressure_exact_witness :
coefficients_ready example_state example_loaded
/\ all_uint16 (eeprom_coeff (this example_loaded)) = true
/\ 8077636 <> 0 /\ 6465444 <> 0
/\ read_temperature_and_pressure example_state
   = ((ms5805_status_ok,
       Some (Formula.temperature (eeprom_coeff (this example_loaded)) 8077636,
             Formula.pressure (eeprom_coeff (this example_loaded))
               8077636 6465444)),
      example_after_pressure).
Proof.
assert (H1 : coefficients_ready example_state example_loaded)
  by (right; split; vm_compute; reflexivity).
assert (H2 : all_uint16 (eeprom_coeff (this example_loaded)) = true)
  by (vm_compute; reflexivity).
assert (H3 : conversion_and_read_adc
               (conversion_command (this example_loaded)
                  MS5805_START_TEMPERATURE_ADC_CONVERSION) example_loaded
             = ((ms5805_status_ok, Some 8077636), example_after_temperature))
  by (vm_compute; reflexivity).
assert (H4 : conversion_and_read_adc
               (conversion_command (this example_after_temperature)
                  MS5805_START_PRESSURE_ADC_CONVERSION)
               example_after_temperature
             = ((ms5805_status_ok, Some 6465444), example_after_pressure))
  by (vm_compute; reflexivity).
assert (H5 : 8077636 <> 0) by discriminate.
assert (H6 : 6465444 <> 0) by discriminate.
split; [exact H1|]. split; [exact H2|]. split; [exact H5|].
split; [exact H6|].
apply (read_temperature_and_pressure_exact
         example_state example_loaded example_after_temperature
         example_after_pressure 8077636 6465444 H1 H2 H3 H4 H5 H6).
Defined.

(** The temperature that lies exactly on the lower threshold. *)
Lemma second_order_strict_thresholds_witness :
- 2 ^ 30 <= -1042437 <= 2 ^ 30 /\ - 2 ^ 28 <= -1500 <= 2 ^ 28
/\ second_order (-1042437) (-1500)
   = (Z.shiftr (3 * (-1042437 * -1042437)) 33,
      61 * 3500 ^ 2 / 16, 29 * 3500 ^ 2 / 16).
Proof.
assert (H1 : - 2 ^ 30 <= -1042437 <= 2 ^ 30) by lia.
assert (H2 : - 2 ^ 28 <= -1500 <= 2 ^ 28) by lia.
split; [exact H1|]. split; [exact H2|].
apply (second_order_strict_thresholds (-1042437) (-1500) H1 H2).
reflexivity.
Defined.

(** The quiet line gives two raw values of zero. *)
Lemma zero_adc_is_transfer_error_witness :
coefficients_ready example_after_pressure example_after_pressure
/\ (0 = 0 \/ 0 = 0)
/\ read_temperature_and_pressure example_after_pressure
   = ((ms5805_status_i2c_transfer_error, None), quiet_after_pressure).
Proof.
assert (H1 : coefficients_ready example_after_pressure example_after_pressure)
  by (left; split; vm_compute; reflexivity).
assert (H2 : conversion_and_read_adc
               (conversion_command (this example_after_pressure)
                  MS5805_START_TEMPERATURE_ADC_CONVERSION)
               example_after_pressure
             = ((ms5805_status_ok, Some 0), quiet_after_temperature))
  by (vm_compute; reflexivity).
assert (H3 : conversion_and_read_adc
               (conversion_command (this quiet_after_temperature)
                  MS5805_START_PRESSURE_ADC_CONVERSION)
               quiet_after_temperature
             = ((ms5805_status_ok, Some 0), quiet_after_pressure))
  by (vm_compute; reflexivity).
assert (H4 : 0 = 0 \/ 0 = 0) by (left; reflexivity).
split; [exact H1|]. split; [exact H4|].
apply (zero_adc_is_transfer_error
         example_after_pressure example_after_pressure
         quiet_after_temperature quiet_after_pressure 0 0 H1 H2 H3 H4).
Defined.

End Compensation.

(** ** The coefficient load and the cache flag *)

Lemma with_eeprom_coeff_same (d : ms5805) :
  with_eeprom_coeff d (eeprom_coeff d) = d.
Proof. destruct d. reflexivity. Qed.

(** [read_eeprom] in one step, when no exchange reports the overflow
    code: seven words are fetched, then the CRC check decides. *)
Lemma read_eeprom_run (s : state) :
  (forall k : nat, (k < 7)%nat ->
                   uint8 (next_tx (wire s) k) <> ms5805_STATUS_ERR_OVERFLOW) ->
  let C := fetched_table s in
  let r := crc_check C (stored_crc C) in
  read_eeprom s
  = (if fst r then ms5805_status_ok else ms5805_status_crc_error,
     mk_state
       (mk_ms5805 (snd r) (if fst r then true else coeff_read (this s))
          (resolution_osr (this s)))
       (advance (wire s) 7 14 0 (fetch_ops (wire s) 0 7))).
Proof.
  intros Hack C r. subst r C. unfold fetched_table, stored_crc.
  change MS5805_COEFFICIENT_COUNT with 7%nat.
  pose proof (read_eeprom_loop_run (this s) (wire s) 7 0
                (eeprom_coeff (this s)) []
                ltac:(intros k Hk; apply Hack; lia)) as L.
  change (2 * 0)%nat with 0%nat in L.
  rewrite advance_nothing, with_eeprom_coeff_same in L.
  replace (mk_state (this s) (wire s)) with s in L by (destruct s; reflexivity).
  cbn [Nat.add Nat.mul app] in L.
  unfold read_eeprom. rewrite bind_run.
  change MS5805_COEFFICIENT_COUNT with 7%nat. rewrite L.
  cbn [fst snd]. rewrite bind_run.
  cbn [get_this fst snd this eeprom_coeff with_eeprom_coeff].
  destruct (crc_check _ _) as [crc_ok n_prom]. cbn [fst snd].
  cbv beta iota zeta delta [bind put_this get_this ret].
  cbn [this wire eeprom_coeff coeff_read resolution_osr with_eeprom_coeff
       with_coeff_read].
  destruct crc_ok; reflexivity.
Qed.

(** After the coefficient check [read_temperature_and_pressure] leaves
    the driver object alone and does no operation of a coefficient
    read. *)
Lemma read_temperature_and_pressure_after_load (s : state) :
  let s1 :=
    snd (if coeff_read (this s) then (ms5805_status_ok, s) else read_eeprom s) in
  this (snd (read_temperature_and_pressure s)) = this s1
  /\ exists rest,
      log (wire (snd (read_temperature_and_pressure s)))
      = log (wire s1) ++ rest
      /\ Forall no_coefficient_read rest.
Proof.
  rewrite read_temperature_and_pressure_run.
  destruct (if coeff_read (this s) then (ms5805_status_ok, s)
            else read_eeprom s) as [st0 s1].
  cbn [snd].
  assert (Stay : this s1 = this s1
                 /\ exists rest, log (wire s1) = log (wire s1) ++ rest
                                 /\ Forall no_coefficient_read rest).
  { split; [reflexivity|]. exists []. rewrite app_nil_r. auto. }
  destruct (negb (ms5805_status_eqb st0 ms5805_status_ok)); [exact Stay|].
  clear Stay.
  set (cmd2 := conversion_command (this s1)
                 MS5805_START_TEMPERATURE_ADC_CONVERSION).
  pose proof (keeps_this_conversion_and_read_adc cmd2 s1) as K2.
  destruct (emits_conversion_and_read_adc cmd2
              (conversion_command_no_address _ _ (or_introl eq_refl)) s1)
    as (ops2 & L2 & F2).
  destruct (conversion_and_read_adc cmd2 s1) as [r1 s2]. cbn [snd] in K2, L2.
  assert (After2 : this s2 = this s1
                   /\ exists rest, log (wire s2) = log (wire s1) ++ rest
                                   /\ Forall no_coefficient_read rest)
    by eauto.
  destruct (negb (ms5805_status_eqb (fst r1) ms5805_status_ok));
    [exact After2|].
  clear After2.
  set (cmd1 := conversion_command (this s2)
                 MS5805_START_PRESSURE_ADC_CONVERSION).
  pose proof (keeps_this_conversion_and_read_adc cmd1 s2) as K1.
  destruct (emits_conversion_and_read_adc cmd1
              (conversion_command_no_address _ _ (or_intror eq_refl)) s2)
    as (ops1 & L1 & F1).
  destruct (conversion_and_read_adc cmd1 s2) as [r2 s3]. cbn [snd] in K1, L1.
  assert (After1 : this s3 = this s1
                   /\ exists rest, log (wire s3) = log (wire s1) ++ rest
                                   /\ Forall no_coefficient_read rest).
  { split; [congruence|]. exists (ops2 ++ ops1).
    rewrite L1, L2, app_assoc. split; [reflexivity|].
    apply Forall_app; auto. }
  destruct (negb (ms5805_status_eqb (fst r2) ms5805_status_ok));
    [exact After1|].
  destruct (snd r1) as [D2|], (snd r2) as [D1|]; try exact After1.
  destruct ((D2 =? 0) || (D1 =? 0)); exact After1.
Qed.

(** Whatever [read_temperature_and_pressure] stores it has computed from
    the coefficient array of the driver object. *)
Lemma read_temperature_and_pressure_output (s : state)
    (st : ms5805_status) (reading : float * float) :
  fst (read_temperature_and_pressure s) = (st, Some reading) ->
  exists D2 D1,
    reading
    = compensation
        (eeprom_coeff (this (snd (read_temperature_and_pressure s)))) D2 D1.
Proof.
  rewrite read_temperature_and_pressure_run.
  destruct (if coeff_read (this s) then (ms5805_status_ok, s)
            else read_eeprom s) as [st0 s1].
  destruct (negb (ms5805_status_eqb st0 ms5805_status_ok));
    [intros H; discriminate H|].
  destruct (conversion_and_read_adc _ s1) as [r1 s2].
  destruct (negb (ms5805_status_eqb (fst r1) ms5805_status_ok));
    [intros H; discriminate H|].
  destruct (conversion_and_read_adc _ s2) as [r2 s3].
  destruct (negb (ms5805_status_eqb (fst r2) ms5805_status_ok));
    [intros H; discriminate H|].
  destruct (snd r1) as [D2|], (snd r2) as [D1|];
    try (intros H; discriminate H).
  destruct ((D2 =? 0) || (D1 =? 0)); [intros H; discriminate H|].
  cbn [fst snd]. intros H. injection H as _ <-. eauto.
Qed.

(** With the flag set, [read_temperature_and_pressure] does not touch
    the driver object and reads no coefficient. *)
Lemma read_temperature_and_pressure_cached (s : state) :
  coeff_read (this s) = true ->
  this (snd (read_temperature_and_pressure s)) = this s
  /\ Forall no_coefficient_read (ops_of read_temperature_and_pressure s).
Proof.
  intros Hc. pose proof (read_temperature_and_pressure_after_load s) as H.
  rewrite Hc in H. cbn [snd] in H. destruct H as (Hthis & rest & L & F).
  split; [exact Hthis|]. unfold ops_of. rewrite L, drop_app_length. exact F.
Qed.

Lemma write_command_keeps_this (cmd : Z) : keeps_this (write_command cmd).
Proof.
  intros s. unfold write_command.
  cbv beta iota zeta delta [bind Wire_beginTransmission Wire_write
                            Wire_endTransmission bus].
  cbn [this wire]. repeat (destruct (_ : bool)); reflexivity.
Qed.

(** No public call clears the flag or changes a validated array. *)
Lemma public_call_keeps_cache (s s' : state) :
  public_call s s' ->
  coeff_read (this s) = true ->
  coeff_read (this s') = true
  /\ eeprom_coeff (this s') = eeprom_coeff (this s).
Proof.
  intros Hcall Hc. destruct Hcall as [s | s | s | res s | s].
  - cbn. auto.
  - cbn. auto.
  - unfold reset. rewrite write_command_keeps_this. auto.
  - cbn. auto.
  - destruct (read_temperature_and_pressure_cached s Hc) as [-> _]. auto.
Qed.

Lemma later_keeps_cache (s s' : state) :
  later s s' ->
  coeff_read (this s) = true ->
  coeff_read (this s') = true
  /\ eeprom_coeff (this s') = eeprom_coeff (this s).
Proof.
  intros Hlater Hc. induction Hlater as [s | s s' s'' _ IH Hcall].
  - auto.
  - destruct (IH Hc) as [Hc' Ht'].
    destruct (public_call_keeps_cache s' s'' Hcall Hc') as [Hc'' Ht''].
    split; [exact Hc'' | congruence].
Qed.

(** A return from inside the loop of [read_eeprom] carries a status
    other than [ms5805_status_ok]. *)
Lemma read_eeprom_loop_early (n : nat) :
  forall (i : nat) (s s' : state) (status : ms5805_status),
    read_eeprom_loop n i s = (Some status, s') ->
    status <> ms5805_status_ok.
Proof.
  induction n as [|n IH]; intros i s s' status; cbn [read_eeprom_loop].
  - intros H. discriminate H.
  - rewrite bind_run.
    destruct (fst (read_eeprom_coeff _ s)) as [st coeff].
    rewrite bind_run. cbn [get_this fst snd]. rewrite bind_run.
    destruct (negb (ms5805_status_eqb st ms5805_status_ok)) eqn:Hst.
    + unfold ret. intros H. injection H as <- _.
      destruct st; [discriminate Hst | discriminate ..].
    + apply IH.
Qed.

(** A [read_eeprom] that returns [ms5805_status_ok] has set the flag. *)
Lemma read_eeprom_ok_sets_flag (s : state) :
  fst (read_eeprom s) = ms5805_status_ok ->
  coeff_read (this (snd (read_eeprom s))) = true.
Proof.
  unfold read_eeprom. rewrite bind_run.
  destruct (read_eeprom_loop MS5805_COEFFICIENT_COUNT 0 s)
    as [[status|] s1] eqn:Hloop; cbn [fst snd].
  - unfold ret. cbn [fst]. intros ->.
    exfalso. exact (read_eeprom_loop_early _ _ _ _ _ Hloop eq_refl).
  - rewrite bind_run. cbn [get_this fst snd].
    destruct (crc_check _ _) as [crc_ok n_prom].
    cbv beta iota zeta delta [bind put_this get_this ret].
    destruct crc_ok; cbn; [reflexivity | intros H; discriminate H].
Qed.

(** C4, as amended.  When no exchange reports the overflow code,
    [read_eeprom] reads seven words, from the seven addresses 0xA0, 0xA2,
    ... 0xAC: for each it selects the address and then reads two bytes,
    which it stores with the first byte in the high half.  Slot 7 of the
    array is not read from the bus.  The CRC check runs after the seven
    words are in and decides the result; it leaves slot 7 zero. *)
Theorem read_eeprom_fetches_seven_words (s : state) :
  length (eeprom_coeff (this s)) = 8%nat ->
  (forall k : nat, (k < 7)%nat ->
                   uint8 (next_tx (wire s) k) <> ms5805_STATUS_ERR_OVERFLOW) ->
  ops_of read_eeprom s = word_exchanges (wire s) 7
  /\ selected_addresses (ops_of read_eeprom s)
     = [0xA0; 0xA2; 0xA4; 0xA6; 0xA8; 0xAA; 0xAC]
  /\ (forall k : nat, (k < 7)%nat ->
        word_at (fetched_table s) k
        = big_endian16 (next_rx (wire s) (2 * k)) (next_rx (wire s) (2 * k + 1)))
  /\ word_at (fetched_table s) 7 = word_at (eeprom_coeff (this s)) 7
  /\ fst (read_eeprom s)
     = (if fst (crc_check (fetched_table s) (stored_crc (fetched_table s)))
        then ms5805_status_ok else ms5805_status_crc_error)
  /\ eeprom_coeff (this (snd (read_eeprom s)))
     = <[7%nat := 0]> (fetched_table s).
Proof.
  intros Hlen Hack.
  pose proof (read_eeprom_run s Hack) as R. cbv zeta in R.
  assert (Hops : ops_of read_eeprom s = word_exchanges (wire s) 7).
  { rewrite (ops_of_advance read_eeprom s _ 7 14 0 (fetch_ops (wire s) 0 7))
      by (rewrite R; reflexivity).
    reflexivity. }
  assert (Hlen' : length (fetched_table s) = 8%nat).
  { destruct (table_of_length_8 _ Hlen)
      as (w0 & w1 & w2 & w3 & w4 & w5 & w6 & w7 & E).
    unfold fetched_table. rewrite E. reflexivity. }
  split; [exact Hops|]. split; [rewrite Hops; reflexivity|].
  split; [|split; [|split]].
  - intros k Hk.
    destruct (table_of_length_8 _ Hlen)
      as (w0 & w1 & w2 & w3 & w4 & w5 & w6 & w7 & E).
    unfold fetched_table. rewrite E.
    do 7 (destruct k as [|k]; [reflexivity|]). lia.
  - destruct (table_of_length_8 _ Hlen)
      as (w0 & w1 & w2 & w3 & w4 & w5 & w6 & w7 & E).
    unfold fetched_table. rewrite E. reflexivity.
  - rewrite R. reflexivity.
  - rewrite R. cbn [snd this eeprom_coeff].
    apply crc_check_array, Hlen'.
Qed.

Lemma read_eeprom_fetches_seven_words_witness :
  length (eeprom_coeff (this example_state)) = 8%nat
  /\ ops_of read_eeprom example_state = word_exchanges (wire example_state) 7.
Proof.
  split; [reflexivity|].
  apply (read_eeprom_fetches_seven_words example_state).
  - reflexivity.
  - intros k Hk. vm_compute. discriminate.
Defined.

(** C4, as stated, fails: the load does not read eight words, the address
    0xAE is never selected. *)
Lemma read_eeprom_does_not_read_eight_words :
  ~ reads_eight_words (ops_of read_eeprom example_state).
Proof. intros H. vm_compute in H. discriminate H. Qed.

(** [read_eeprom_coeff] knows two outcomes only: the overflow code gives
    [ms5805_status_no_i2c_acknowledge], every other result of
    [Wire.endTransmission] gives [ms5805_status_ok] with the word
    stored. *)
Lemma read_eeprom_coeff_outcomes (command : Z) (s : state) :
  (uint8 (next_tx (wire s) 0) = ms5805_STATUS_ERR_OVERFLOW ->
   fst (read_eeprom_coeff command s) = (ms5805_status_no_i2c_acknowledge, None))
  /\ (uint8 (next_tx (wire s) 0) <> ms5805_STATUS_ERR_OVERFLOW ->
      fst (read_eeprom_coeff command s)
      = (ms5805_status_ok,
         Some (big_endian16 (next_rx (wire s) 0) (next_rx (wire s) 1)))).
Proof.
  rewrite read_eeprom_coeff_run. cbn [fst]. split; intros H.
  - rewrite H. reflexivity.
  - apply Z.eqb_neq in H. rewrite H. reflexivity.
Qed.

(** C5, the code at the failing input.  On a bus where every exchange
    ends with the timeout code, [read_eeprom_coeff] returns
    [ms5805_status_ok] and stores the word it read, and the whole
    coefficient load returns [ms5805_status_ok] and sets the flag, where
    the specification asks for [ms5805_status_i2c_transfer_error]. *)
Theorem read_eeprom_coeff_takes_timeout_for_success :
  uint8 (next_tx (wire timeout_state) 0) = ms5805_STATUS_ERR_TIMEOUT
  /\ fst (read_eeprom_coeff MS5805_PROM_ADDRESS_READ_ADDRESS_0 timeout_state)
     = (ms5805_status_ok, Some 0x8000)
  /\ fst (read_eeprom timeout_state) = ms5805_status_ok
  /\ coeff_read (this (snd (read_eeprom timeout_state))) = true.
Proof. repeat split; vm_compute; reflexivity. Qed.

(** C6.  After a call in which [read_eeprom] ran and returned
    [ms5805_status_ok], every later call of
    [read_temperature_and_pressure], whatever public calls came in
    between and whatever the bus does, performs no operation of a
    coefficient read, finds the flag set and the array that the load
    left, leaves the driver object as it is, and computes what it stores
    from that array. *)
Theorem cached_coefficients_are_reused (s0 s : state) :
  coeff_read (this s0) = false ->
  fst (read_eeprom s0) = ms5805_status_ok ->
  later (snd (read_temperature_and_pressure s0)) s ->
  Forall no_coefficient_read (ops_of read_temperature_and_pressure s)
  /\ coeff_read (this s) = true
  /\ eeprom_coeff (this s) = eeprom_coeff (this (snd (read_eeprom s0)))
  /\ this (snd (read_temperature_and_pressure s)) = this s
  /\ forall st reading,
      fst (read_temperature_and_pressure s) = (st, Some reading) ->
      exists D2 D1,
        reading
        = compensation (eeprom_coeff (this (snd (read_eeprom s0)))) D2 D1.
Proof.
  intros Hfirst Hok Hlater.
  pose proof (read_temperature_and_pressure_after_load s0) as [Hthis0 _].
  rewrite Hfirst in Hthis0.
  pose proof (read_eeprom_ok_sets_flag s0 Hok) as Hflag.
  rewrite <- Hthis0 in Hflag.
  destruct (later_keeps_cache _ _ Hlater Hflag) as [Hc Ht].
  rewrite Hthis0 in Ht.
  destruct (read_temperature_and_pressure_cached s Hc) as [Hthis Hquiet].
  split; [exact Hquiet|]. split; [exact Hc|]. split; [exact Ht|].
  split; [exact Hthis|].
  intros st reading Hout.
  destruct (read_temperature_and_pressure_output s st reading Hout)
    as (D2 & D1 & E).
  exists D2, D1. rewrite E, Hthis, Ht. reflexivity.
Qed.

(** The example run: the call after the first one. *)
Lemma cached_coefficients_are_reused_witness :
  coeff_read (this example_state) = false
  /\ fst (read_eeprom example_state) = ms5805_status_ok
  /\ Forall no_coefficient_read
       (ops_of read_temperature_and_pressure
          (snd (read_temperature_and_pressure example_state))).
Proof.
  assert (H1 : coeff_read (this example_state) = false) by reflexivity.
  assert (H2 : fst (read_eeprom example_state) = ms5805_status_ok)
    by (vm_compute; reflexivity).
  split; [exact H1|]. split; [exact H2|].
  apply (cached_coefficients_are_reused example_state
           (snd (read_temperature_and_pressure example_state)) H1 H2).
  apply later_now.
Defined.

(** One turn of the loop of [read_eeprom]. *)
Lemma read_eeprom_loop_step (n i : nat) :
  read_eeprom_loop (S n) i
  = (let* (status, coeff) :=
       read_eeprom_coeff
         (uint8 (MS5805_PROM_ADDRESS_READ_ADDRESS_0 + Z.of_nat i * 2)) in
     let* d := get_this in
     match coeff with
     | Some v => put_this (with_eeprom_coeff d (<[i := v]> (eeprom_coeff d)))
     | None => ret tt
     end ;;
     if negb (ms5805_status_eqb status ms5805_status_ok) then ret (Some status)
     else read_eeprom_loop n (S i)).
Proof. reflexivity. Qed.

(** Every coefficient load opens with the exchange for address 0xA0. *)
Lemma read_eeprom_starts_at_address_0 (s : state) :
  exists rest,
    ops_of read_eeprom s
    = word_exchange 0xA0 (next_tx (wire s) 0)
        (next_rx (wire s) 0) (next_rx (wire s) 1) ++ rest.
Proof.
  unfold read_eeprom.
  rewrite ops_of_bind;
    [|apply emits_read_eeprom_loop | intros early; emits_all].
  change MS5805_COEFFICIENT_COUNT with 7%nat.
  rewrite (read_eeprom_loop_step 6 0).
  rewrite ops_of_bind;
    [|apply emits_read_eeprom_coeff
     |intros [status coeff]; emits_all; apply emits_read_eeprom_loop].
  rewrite (ops_of_advance _ s _ 1 2 0
             (word_exchange 0xA0 (next_tx (wire s) 0)
                (next_rx (wire s) 0) (next_rx (wire s) 1)))
    by (rewrite read_eeprom_coeff_run; reflexivity).
  rewrite <- app_assoc. eauto.
Qed.

(** With the flag clear, [read_temperature_and_pressure] begins with a
    coefficient load. *)
Lemma read_temperature_and_pressure_loads_first (s : state) :
  coeff_read (this s) = false ->
  exists rest,
    ops_of read_temperature_and_pressure s = ops_of read_eeprom s ++ rest.
Proof.
  intros Hc. pose proof (read_temperature_and_pressure_after_load s) as H.
  rewrite Hc in H. destruct H as (_ & rest & L & _).
  destruct (emits_ops_of _ read_eeprom s emits_read_eeprom) as [E _].
  exists rest. unfold ops_of at 1. rewrite L, E, <- app_assoc.
  apply drop_app_length.
Qed.

(** C7.  When the seven words are in and the CRC computed over them does
    not match the stored nibble, [read_eeprom] returns
    [ms5805_status_crc_error], [read_temperature_and_pressure] returns it
    without storing an output, and the flag stays clear.  The next call
    of [read_temperature_and_pressure], in whatever world, therefore
    begins with a coefficient load from the bus, starting at address
    0xA0, and reads all seven words again when no exchange reports the
    overflow code. *)
Theorem crc_error_leaves_cache_unvalidated (s : state) :
  coeff_read (this s) = false ->
  (forall k : nat, (k < 7)%nat ->
                   uint8 (next_tx (wire s) k) <> ms5805_STATUS_ERR_OVERFLOW) ->
  fst (crc_check (fetched_table s) (stored_crc (fetched_table s))) = false ->
  fst (read_eeprom s) = ms5805_status_crc_error
  /\ coeff_read (this (snd (read_eeprom s))) = false
  /\ fst (read_temperature_and_pressure s) = (ms5805_status_crc_error, None)
  /\ coeff_read (this (snd (read_temperature_and_pressure s))) = false
  /\ forall w' : world,
      let s' := mk_state (this (snd (read_temperature_and_pressure s))) w' in
      (exists rest,
          ops_of read_temperature_and_pressure s' = ops_of read_eeprom s' ++ rest)
      /\ (exists rest,
             ops_of read_eeprom s'
             = word_exchange 0xA0 (next_tx w' 0) (next_rx w' 0) (next_rx w' 1)
               ++ rest)
      /\ ((forall k : nat, (k < 7)%nat ->
                           uint8 (next_tx w' k) <> ms5805_STATUS_ERR_OVERFLOW) ->
          ops_of read_eeprom s' = word_exchanges w' 7).
Proof.
  intros Hc Hack Hcrc.
  pose proof (read_eeprom_run s Hack) as R. cbv zeta in R.
  rewrite Hcrc in R.
  assert (Hrun : read_temperature_and_pressure s
                 = ((ms5805_status_crc_error, None), snd (read_eeprom s))).
  { rewrite read_temperature_and_pressure_run, Hc, R. reflexivity. }
  assert (Hflag : coeff_read (this (snd (read_eeprom s))) = false).
  { rewrite R. cbn [snd this coeff_read]. exact Hc. }
  split; [rewrite R; reflexivity|]. split; [exact Hflag|].
  split; [rewrite Hrun; reflexivity|].
  split; [rewrite Hrun; exact Hflag|].
  intros w' s'.
  assert (Hc' : coeff_read (this s') = false)
    by (subst s'; cbn [this]; rewrite Hrun; exact Hflag).
  split; [apply read_temperature_and_pressure_loads_first, Hc'|].
  split; [apply (read_eeprom_starts_at_address_0 s')|].
  intros Hack'.
  pose proof (read_eeprom_run s' Hack') as R'. cbv zeta in R'.
  unfold ops_of. rewrite R'. cbn [snd wire advance log].
  rewrite drop_app_length. reflexivity.
Qed.

(** The example sensor with a damaged CRC nibble. *)
Lemma crc_error_leaves_cache_unvalidated_witness :
  coeff_read (this corrupted_state) = false
  /\ fst (crc_check (fetched_table corrupted_state)
            (stored_crc (fetched_table corrupted_state))) = false
  /\ fst (read_temperature_and_pressure corrupted_state)
     = (ms5805_status_crc_error, None)
  /\ coeff_read (this (snd (read_temperature_and_pressure corrupted_state)))
     = false.
Proof.
  assert (H1 : coeff_read (this corrupted_state) = false) by reflexivity.
  assert (H2 : forall k : nat, (k < 7)%nat ->
                 uint8 (next_tx (wire corrupted_state) k)
                 <> ms5805_STATUS_ERR_OVERFLOW)
    by (intros k Hk; vm_compute; discriminate).
  assert (H3 : fst (crc_check (fetched_table corrupted_state)
                      (stored_crc (fetched_table corrupted_state))) = false)
    by (vm_compute; reflexivity).
  split; [exact H1|]. split; [exact H3|].
  pose proof (crc_error_leaves_cache_unvalidated corrupted_state H1 H2 H3)
    as (_ & _ & E & F & _).
  split; [exact E | exact F].
Defined.

(** The result of the write that starts the conversion is dropped: it
    does not reach the result of [conversion_and_read_adc]. *)
Lemma conversion_and_read_adc_drops_start_status (cmd : Z) (s : state) (r : Z) :
  fst (conversion_and_read_adc cmd (with_next_tx s r))
  = fst (conversion_and_read_adc cmd s).
Proof.
  pose proof (conversion_and_read_adc_run cmd s) as R.
  pose proof (conversion_and_read_adc_run cmd (with_next_tx s r)) as R'.
  cbv zeta in R, R'. rewrite R, R'. cbn [fst].
  unfold next_tx, next_rx, with_next_tx.
  cbn [wire tx_status rx_data indeterminate n_tx n_rx n_local].
  replace ((1 + n_tx (wire s) =? n_tx (wire s))%nat) with false
    by (symmetry; apply Nat.eqb_neq; lia).
  reflexivity.
Qed.

(** C10, the code at the failing input.  Both tests of [status] in
    [conversion_and_read_adc] read a local that was never assigned.  On
    a bus that acknowledges every exchange the call returns whatever
    that local holds when it is not [ms5805_status_ok], here
    [ms5805_status_i2c_transfer_error] with nothing stored; with the
    same bus and the local holding [ms5805_status_ok] it returns
    [ms5805_status_ok].  The returned status is thus not a function of
    the second exchange alone. *)
Theorem conversion_and_read_adc_returns_stale_local :
  tx_status (wire stale_local_state) = tx_status (wire example_state)
  /\ rx_data (wire stale_local_state) = rx_data (wire example_state)
  /\ fst (conversion_and_read_adc
            (conversion_command fresh_driver
               MS5805_START_TEMPERATURE_ADC_CONVERSION)
            stale_local_state)
     = (ms5805_status_i2c_transfer_error, None)
  /\ fst (conversion_and_read_adc
            (conversion_command fresh_driver
               MS5805_START_TEMPERATURE_ADC_CONVERSION)
            example_state)
     = (ms5805_status_ok, Some 0x8000B5).
Proof. repeat split; vm_compute; reflexivity. Qed.

(** * Further properties of the driver *)

(** ** Probing, resetting, choosing the resolution *)

(** [write_command] in one step. *)
Lemma write_command_run (cmd : Z) (s : state) :
  let r := next_tx (wire s) 0 in
  write_command cmd s
  = ((if uint8 r =? ms5805_STATUS_ERR_OVERFLOW
      then ms5805_status_no_i2c_acknowledge
      else if negb (uint8 r =? ms5805_STATUS_OK)
           then ms5805_status_i2c_transfer_error
           else ms5805_status_ok),
     mk_state (this s)
       (advance (wire s) 1 0 0
          [BeginTransmission 0x76; WriteByte cmd; EndTransmission r])).
Proof.
  cbv beta iota zeta delta
    [write_command bind Wire_beginTransmission Wire_write Wire_endTransmission
     bus ret advance next_tx
     wire this tx_status rx_data indeterminate n_tx n_rx n_local log Nat.add].
  rewrite <- !app_assoc. cbn [app].
  destruct (uint8 _ =? ms5805_STATUS_ERR_OVERFLOW); [reflexivity|].
  destruct (negb (uint8 _ =? ms5805_STATUS_OK)); reflexivity.
Qed.

(** X1.  [reset] puts exactly one transmission on the bus, the byte 0x1E
    to address 0x76, and leaves the driver object as it is: the flag and
    the coefficient array survive a reset.  Its status is
    [ms5805_status_ok] exactly when [Wire.endTransmission] gave 0,
    [ms5805_status_no_i2c_acknowledge] exactly when it gave 1, and
    [ms5805_status_i2c_transfer_error] for every other result; it is
    never [ms5805_status_crc_error]. *)
Theorem reset_sends_one_command (s : state) :
  let r := next_tx (wire s) 0 in
  ops_of reset s = [BeginTransmission 0x76; WriteByte 0x1E; EndTransmission r]
  /\ this (snd (reset s)) = this s
  /\ (fst (reset s) = ms5805_status_ok <-> uint8 r = 0)
  /\ (fst (reset s) = ms5805_status_no_i2c_acknowledge <-> uint8 r = 1)
  /\ (fst (reset s) = ms5805_status_i2c_transfer_error
      <-> uint8 r <> 0 /\ uint8 r <> 1)
  /\ fst (reset s) <> ms5805_status_crc_error.
Proof.
  intros r. unfold reset.
  pose proof (write_command_run MS5805_RESET_COMMAND s) as R. cbv zeta in R.
  fold r in R.
  split; [apply (ops_of_advance _ s (this s) 1 0 0); rewrite R; reflexivity|].
  rewrite R. cbn [fst snd this].
  unfold ms5805_STATUS_ERR_OVERFLOW, ms5805_STATUS_OK.
  split; [reflexivity|].
  destruct (Z.eqb_spec (uint8 r) 1) as [E1 | N1];
    [|destruct (Z.eqb_spec (uint8 r) 0) as [E0 | N0]; cbn [negb]];
    repeat split; intros; first [discriminate | lia | reflexivity | tauto].
Qed.

(** X2.  [is_connected] addresses the device without writing a byte and
    answers [true] exactly when [Wire.endTransmission] gave 0; it leaves
    the driver object as it is. *)
Theorem is_connected_probes_address (s : state) :
  let r := next_tx (wire s) 0 in
  ops_of is_connected s = [BeginTransmission 0x76; EndTransmission r]
  /\ this (snd (is_connected s)) = this s
  /\ (fst (is_connected s) = true <-> uint8 r = 0).
Proof.
  intros r.
  assert (R : is_connected s
              = (uint8 r =? 0,
                 mk_state (this s)
                   (advance (wire s) 1 0 0
                      [BeginTransmission 0x76; EndTransmission r]))).
  { subst r.
    cbv beta iota zeta delta
      [is_connected bind Wire_beginTransmission Wire_endTransmission
       bus ret advance next_tx
       wire this tx_status rx_data indeterminate n_tx n_rx n_local log Nat.add].
    rewrite <- !app_assoc. reflexivity. }
  split; [apply (ops_of_advance _ s (this s) 1 0 0); rewrite R; reflexivity|].
  rewrite R. cbn [fst snd this]. split; [reflexivity|].
  apply Z.eqb_eq.
Qed.

(** The command byte of a conversion is its base command plus twice
    the number of the resolution, the index into [conversion_time] that
    [conversion_and_read_adc] recovers from it is the number of the
    resolution again, so the index stays inside the table of six and the
    wait is the one listed for the resolution. *)
Lemma conversion_command_value (d : ms5805) (base : Z) :
  base = MS5805_START_TEMPERATURE_ADC_CONVERSION
  \/ base = MS5805_START_PRESSURE_ADC_CONVERSION ->
  let cmd := conversion_command d base in
  cmd = base + 2 * osr_value (resolution_osr d)
  /\ Z.land cmd MS5805_CONVERSION_OSR_MASK / 2 = osr_value (resolution_osr d)
  /\ (Z.to_nat (Z.land cmd MS5805_CONVERSION_OSR_MASK / 2)
      < length conversion_time)%nat
  /\ word_at conversion_time
       (Z.to_nat (Z.land cmd MS5805_CONVERSION_OSR_MASK / 2))
     = conversion_wait (resolution_osr d).
Proof.
  intros Hbase cmd. subst cmd.
  destruct d as [C cr []], Hbase as [-> | ->];
    (split; [|split; [|split]]); first [reflexivity | vm_compute; lia].
Qed.

(** X3.  The command byte of a conversion is its base command plus twice
    the number of the resolution, the index into [conversion_time] that
    [conversion_and_read_adc] recovers from it is the number of the
    resolution again, so the index stays inside the table of six and the
    wait is the one listed for the resolution. *)
Theorem resolution_selects_command_and_wait (d : ms5805) (base : Z) :
  base = MS5805_START_TEMPERATURE_ADC_CONVERSION
  \/ base = MS5805_START_PRESSURE_ADC_CONVERSION ->
  let cmd := conversion_command d base in
  cmd = base + 2 * osr_value (resolution_osr d)
  /\ Z.land cmd MS5805_CONVERSION_OSR_MASK / 2 = osr_value (resolution_osr d)
  /\ (Z.to_nat (Z.land cmd MS5805_CONVERSION_OSR_MASK / 2)
      < length conversion_time)%nat
  /\ word_at conversion_time
       (Z.to_nat (Z.land cmd MS5805_CONVERSION_OSR_MASK / 2))
     = conversion_wait (resolution_osr d).
Proof.
  intros Hbase cmd. subst cmd.
  destruct d as [C cr []], Hbase as [-> | ->];
    (split; [|split; [|split]]); first [reflexivity | vm_compute; lia].
Qed.

Lemma resolution_selects_command_and_wait_witness :
  (MS5805_START_PRESSURE_ADC_CONVERSION = MS5805_START_TEMPERATURE_ADC_CONVERSION
   \/ MS5805_START_PRESSURE_ADC_CONVERSION = MS5805_START_PRESSURE_ADC_CONVERSION)
  /\ conversion_command
       (mk_ms5805 [] false ms5805_resolution_osr_8192)
       MS5805_START_PRESSURE_ADC_CONVERSION
     = 0x4A.
Proof.
  assert (H : MS5805_START_PRESSURE_ADC_CONVERSION
              = MS5805_START_TEMPERATURE_ADC_CONVERSION
              \/ MS5805_START_PRESSURE_ADC_CONVERSION
                 = MS5805_START_PRESSURE_ADC_CONVERSION)
    by (right; reflexivity).
  split; [exact H|].
  apply (resolution_selects_command_and_wait
           (mk_ms5805 [] false ms5805_resolution_osr_8192)
           MS5805_START_PRESSURE_ADC_CONVERSION H).
Defined.

(** The log of one conversion, whatever its outcome. *)
Lemma conversion_and_read_adc_ops (d : ms5805) (base : Z) (s : state) :
  base = MS5805_START_TEMPERATURE_ADC_CONVERSION
  \/ base = MS5805_START_PRESSURE_ADC_CONVERSION ->
  snd (conversion_and_read_adc (conversion_command d base) s)
  = mk_state (this s)
      (advance (wire s) 2 3 1
         (conversion_exchange (base + 2 * osr_value (resolution_osr d))
            (conversion_wait (resolution_osr d))
            (next_tx (wire s) 0) (next_tx (wire s) 1)
            (next_rx (wire s) 0) (next_rx (wire s) 1) (next_rx (wire s) 2))).
Proof.
  intros Hbase.
  pose proof (conversion_and_read_adc_run (conversion_command d base) s) as R.
  cbv zeta in R. rewrite R. cbn [snd].
  destruct (conversion_command_value d base Hbase)
    as (E1 & _ & _ & E2).
  rewrite E2.
  replace (uint8 (conversion_command d base))
    with (base + 2 * osr_value (resolution_osr d)).
  - reflexivity.
  - rewrite <- E1. unfold conversion_command.
    symmetry. apply unsigned_id. apply uint8_range.
Qed.

Lemma conversion_and_read_adc_ok (cmd : Z) (s : state) :
  negb (ms5805_status_eqb (fst (fst (conversion_and_read_adc cmd s)))
          ms5805_status_ok)
  = negb (conversion_succeeds (wire s)).
Proof.
  pose proof (conversion_and_read_adc_run cmd s) as R. cbv zeta in R.
  rewrite R. unfold conversion_succeeds. cbn [fst].
  destruct (indeterminate (wire s) (n_local (wire s)));
    cbn [ms5805_status_eqb negb andb]; try reflexivity.
  unfold ms5805_STATUS_ERR_OVERFLOW, ms5805_STATUS_OK.
  destruct (Z.eqb_spec (uint8 (next_tx (wire s) 1)) 1) as [E | N].
  - rewrite E. reflexivity.
  - destruct (uint8 (next_tx (wire s) 1) =? 0); reflexivity.
Qed.

(** X4.  With the flag set, a measurement is the temperature conversion
    (command 0x50 plus twice the resolution, then the wait of the
    resolution) and, only when that conversion returned
    [ms5805_status_ok], the pressure conversion (command 0x40 plus twice
    the resolution): a failed temperature conversion ends the call before
    the pressure conversion is started, and nothing else is put on the
    bus.  [set_resolution] itself puts nothing on the bus and keeps the
    flag and the array; the measurement after it uses the new
    resolution. *)
Theorem cached_measurement_traffic (s : state) (res : ms5805_resolution_osr) :
  coeff_read (this s) = true ->
  ops_of read_temperature_and_pressure s
  = temperature_exchange (resolution_osr (this s)) (wire s)
    ++ (if conversion_succeeds (wire s)
        then pressure_exchange (resolution_osr (this s)) (wire s)
        else [])
  /\ ops_of (set_resolution res) s = []
  /\ coeff_read (this (snd (set_resolution res s))) = true
  /\ eeprom_coeff (this (snd (set_resolution res s))) = eeprom_coeff (this s)
  /\ ops_of read_temperature_and_pressure (snd (set_resolution res s))
     = temperature_exchange res (wire s)
       ++ (if conversion_succeeds (wire s)
           then pressure_exchange res (wire s)
           else []).
Proof.
  assert (Core : forall s0 : state,
             coeff_read (this s0) = true ->
             ops_of read_temperature_and_pressure s0
             = temperature_exchange (resolution_osr (this s0)) (wire s0)
               ++ (if conversion_succeeds (wire s0)
                   then pressure_exchange (resolution_osr (this s0)) (wire s0)
                   else [])).
  { clear s res. intros s Hc. unfold ops_of.
    rewrite read_temperature_and_pressure_run, Hc.
    cbn [ms5805_status_eqb negb].
    pose proof (conversion_and_read_adc_ops (this s)
                  MS5805_START_TEMPERATURE_ADC_CONVERSION s
                  (or_introl eq_refl)) as S2.
    pose proof (conversion_and_read_adc_ok
                  (conversion_command (this s)
                     MS5805_START_TEMPERATURE_ADC_CONVERSION) s) as O2.
    destruct (conversion_and_read_adc _ s) as [r1 s2].
    cbn [fst snd] in S2, O2. rewrite O2.
    destruct (conversion_succeeds (wire s)); cbn [negb].
    - pose proof (conversion_and_read_adc_ops (this s2)
                    MS5805_START_PRESSURE_ADC_CONVERSION s2
                    (or_intror eq_refl)) as S1.
      destruct (conversion_and_read_adc _ s2) as [r2 s3]. cbn [snd] in S1.
      assert (L : log (wire s3)
                  = log (wire s)
                    ++ temperature_exchange (resolution_osr (this s)) (wire s)
                    ++ pressure_exchange (resolution_osr (this s)) (wire s)).
      { rewrite S1, S2. cbn [this wire advance log].
        rewrite !next_tx_advance, !next_rx_advance, <- app_assoc.
        reflexivity. }
      assert (D : drop (length (log (wire s))) (log (wire s3))
                  = temperature_exchange (resolution_osr (this s)) (wire s)
                    ++ pressure_exchange (resolution_osr (this s)) (wire s))
        by (rewrite L; apply drop_app_length).
      destruct (negb (ms5805_status_eqb (fst r2) ms5805_status_ok));
        [exact D|].
      destruct (snd r1) as [D2|], (snd r2) as [D1|]; try exact D.
      destruct ((D2 =? 0) || (D1 =? 0)); exact D.
    - cbn [snd]. rewrite S2. cbn [wire advance log].
      rewrite drop_app_length, app_nil_r. reflexivity. }
  intros Hc. split; [apply Core, Hc|].
  split; [unfold ops_of; cbn; apply drop_all|].
  split; [exact Hc|]. split; [reflexivity|].
  apply (Core (snd (set_resolution res s))). exact Hc.
Qed.

Lemma cached_measurement_traffic_witness :
  coeff_read (this nack_state) = true
  /\ ops_of read_temperature_and_pressure nack_state
     = temperature_exchange ms5805_resolution_osr_256 (wire nack_state).
Proof.
  assert (H : coeff_read (this nack_state) = true) by (vm_compute; reflexivity).
  split; [exact H|].
  rewrite (proj1 (cached_measurement_traffic nack_state
                    ms5805_resolution_osr_256 H)).
  vm_compute. reflexivity.
Defined.

(** ** Errors end a measurement at once *)

(** X5.  When the flag is clear and [read_eeprom] does not return
    [ms5805_status_ok], [read_temperature_and_pressure] returns the status
    of [read_eeprom], stores no output and starts no conversion: the call
    ends in the state in which [read_eeprom] ended. *)
Theorem load_error_ends_measurement (s : state) :
  coeff_read (this s) = false ->
  fst (read_eeprom s) <> ms5805_status_ok ->
  read_temperature_and_pressure s
  = ((fst (read_eeprom s), None), snd (read_eeprom s))
  /\ ops_of read_temperature_and_pressure s = ops_of read_eeprom s.
Proof.
  intros Hc Hfail.
  assert (R : read_temperature_and_pressure s
              = ((fst (read_eeprom s), None), snd (read_eeprom s))).
  { rewrite read_temperature_and_pressure_run, Hc.
    destruct (read_eeprom s) as [st0 s1]. cbn [fst snd] in *.
    destruct st0; [contradiction | reflexivity ..]. }
  split; [exact R|]. unfold ops_of. rewrite R. reflexivity.
Qed.

Lemma load_error_ends_measurement_witness :
  coeff_read (this corrupted_state) = false
  /\ fst (read_eeprom corrupted_state) <> ms5805_status_ok
  /\ ops_of read_temperature_and_pressure corrupted_state
     = ops_of read_eeprom corrupted_state.
Proof.
  assert (H1 : coeff_read (this corrupted_state) = false) by reflexivity.
  assert (H2 : fst (read_eeprom corrupted_state) <> ms5805_status_ok)
    by (vm_compute; discriminate).
  split; [exact H1|]. split; [exact H2|].
  apply (load_error_ends_measurement corrupted_state H1 H2).
Defined.

(** X6.  When a conversion does not return [ms5805_status_ok],
    [read_temperature_and_pressure] returns the status of that conversion
    and stores no output; after a failed temperature conversion the
    pressure conversion is not started. *)
Theorem conversion_error_ends_measurement
    (s s1 s2 : state) (st : ms5805_status) (adc : option Z) :
  coefficients_ready s s1 ->
  st <> ms5805_status_ok ->
  (conversion_and_read_adc
     (conversion_command (this s1) MS5805_START_TEMPERATURE_ADC_CONVERSION) s1
   = ((st, adc), s2) ->
   read_temperature_and_pressure s = ((st, None), s2))
  /\ (forall (D2 : Z) (s3 : state),
        conversion_and_read_adc
          (conversion_command (this s1) MS5805_START_TEMPERATURE_ADC_CONVERSION)
          s1
        = ((ms5805_status_ok, Some D2), s2) ->
        conversion_and_read_adc
          (conversion_command (this s2) MS5805_START_PRESSURE_ADC_CONVERSION) s2
        = ((st, adc), s3) ->
        read_temperature_and_pressure s = ((st, None), s3)).
Proof.
  intros Hready Hfail.
  assert (Hneg : negb (ms5805_status_eqb st ms5805_status_ok) = true)
    by (destruct st; [contradiction | reflexivity ..]).
  split.
  - intros Hconv. rewrite read_temperature_and_pressure_run.
    rewrite (coefficients_ready_run s s1 Hready).
    cbn [ms5805_status_eqb negb]. rewrite Hconv. cbn [fst snd].
    rewrite Hneg. reflexivity.
  - intros D2 s3 Hconv2 Hconv1. rewrite read_temperature_and_pressure_run.
    rewrite (coefficients_ready_run s s1 Hready).
    cbn [ms5805_status_eqb negb]. rewrite Hconv2.
    cbn [fst snd ms5805_status_eqb negb]. rewrite Hconv1. cbn [fst snd].
    rewrite Hneg. reflexivity.
Qed.

Lemma conversion_error_ends_measurement_witness :
  coefficients_ready nack_state nack_state
  /\ ms5805_status_no_i2c_acknowledge <> ms5805_status_ok
  /\ fst (read_temperature_and_pressure nack_state)
     = (ms5805_status_no_i2c_acknowledge, None).
Proof.
  assert (H1 : coefficients_ready nack_state nack_state)
    by (left; split; vm_compute; reflexivity).
  assert (H2 : ms5805_status_no_i2c_acknowledge <> ms5805_status_ok)
    by discriminate.
  split; [exact H1|]. split; [exact H2|].
  rewrite (proj1 (conversion_error_ends_measurement
                    nack_state nack_state
                    (snd (conversion_and_read_adc
                            (conversion_command (this nack_state)
                               MS5805_START_TEMPERATURE_ADC_CONVERSION)
                            nack_state))
                    ms5805_status_no_i2c_acknowledge None H1 H2)).
  - reflexivity.
  - vm_compute. reflexivity.
Defined.

(** ** The raw value of a conversion *)

Section BigEndian.

(** A low part below [2 ^ n] and a high part shifted by [n] bits do not
    overlap: OR is addition. *)
Lemma lor_shifted (n hi lo : Z) :
  0 <= n -> 0 <= lo < 2 ^ n -> Z.lor (hi * 2 ^ n) lo = hi * 2 ^ n + lo.
Proof.
  intros Hn Hlo.
  assert (Hland : Z.land (hi * 2 ^ n) lo = 0).
  { apply Z.bits_inj'. intros k Hk. rewrite Z.land_spec, Z.bits_0.
    destruct (Z.lt_ge_cases k n) as [Hlt | Hge].
    - rewrite Z.mul_pow2_bits_low by lia. reflexivity.
    - assert (Hbit : Z.testbit lo k = false).
      { destruct (Z.eq_dec lo 0) as [-> | Hne]; [apply Z.bits_0|].
        apply Z.bits_above_log2; [lia|].
        apply Z.lt_le_trans with n; [|exact Hge].
        apply Z.log2_lt_pow2; lia. }
      rewrite Hbit. apply andb_false_r. }
  rewrite <- Z.lxor_lor by exact Hland.
  symmetry. apply Z.add_nocarry_lxor. exact Hland.
Qed.

(** Two bytes stored big-endian. *)
Lemma big_endian16_value (b0 b1 : Z) :
  big_endian16 b0 b1 = 256 * uint8 b0 + uint8 b1.
Proof.
  unfold big_endian16.
  pose proof (uint8_range b0) as B0. pose proof (uint8_range b1) as B1.
  rewrite Z.shiftl_mul_pow2 by lia.
  rewrite (lor_shifted 8) by lia.
  unfold uint16. rewrite (unsigned_id 16) by lia. lia.
Qed.

End BigEndian.



(** ** The coefficient load, turn by turn *)

Section LoadTurns.

Variable d : ms5805.
Variable w : world.

Lemma read_eeprom_coeff_before_word
    (command : Z) (i : nat) (table : list Z) (ops : list bus_op) :
  read_eeprom_coeff command (before_word d w i table ops)
  = ((if uint8 (next_tx w i) =? ms5805_STATUS_ERR_OVERFLOW
      then (ms5805_status_no_i2c_acknowledge, None)
      else (ms5805_status_ok, Some (fetched_word w i))),
     mk_state (with_eeprom_coeff d table)
       (advance w (S i) (2 * S i) 0
          (ops ++ word_exchange command (next_tx w i)
                    (next_rx w (2 * i)) (next_rx w (2 * i + 1))))).
Proof.
  unfold before_word. rewrite read_eeprom_coeff_run.
  cbn [wire this]. rewrite !next_tx_advance, !next_rx_advance, advance_advance.
  cbn [Nat.add]. unfold fetched_word.
  replace (2 * i + 1)%nat with (S (2 * i)) by lia.
  replace (S (S (2 * i))) with (2 * S i)%nat by lia.
  reflexivity.
Qed.

(** A turn whose exchange does not report the overflow code stores the
    word and goes on. *)
Lemma read_eeprom_loop_turn (n i : nat) (table : list Z) (ops : list bus_op) :
  uint8 (next_tx w i) <> ms5805_STATUS_ERR_OVERFLOW ->
  read_eeprom_loop (S n) i (before_word d w i table ops)
  = read_eeprom_loop n (S i)
      (before_word d w (S i) (<[i := fetched_word w i]> table)
         (ops ++ exchange_of_word w i)).
Proof.
  intros Hack. rewrite read_eeprom_loop_step.
  unfold bind at 1. rewrite read_eeprom_coeff_before_word.
  apply Z.eqb_neq in Hack. rewrite Hack.
  cbv beta iota zeta delta [bind get_this put_this ret].
  cbn [this wire ms5805_status_eqb negb eeprom_coeff with_eeprom_coeff].
  reflexivity.
Qed.

(** A turn whose exchange reports the overflow code ends the loop; its
    two bytes have been read all the same, and nothing is stored. *)
Lemma read_eeprom_loop_nack (n i : nat) (table : list Z) (ops : list bus_op) :
  uint8 (next_tx w i) = ms5805_STATUS_ERR_OVERFLOW ->
  read_eeprom_loop (S n) i (before_word d w i table ops)
  = (Some ms5805_status_no_i2c_acknowledge,
     before_word d w (S i) table (ops ++ exchange_of_word w i)).
Proof.
  intros Hnack. rewrite read_eeprom_loop_step.
  unfold bind at 1. rewrite read_eeprom_coeff_before_word.
  rewrite Hnack. cbn [Z.eqb Pos.eqb].
  cbv beta iota zeta delta [bind get_this put_this ret].
  cbn [this wire ms5805_status_eqb negb eeprom_coeff with_eeprom_coeff].
  reflexivity.
Qed.

(** [n] acknowledged turns, then the rest of the loop. *)
Lemma read_eeprom_loop_turns (n m : nat) :
  forall (i : nat) (table : list Z) (ops : list bus_op),
    (forall k : nat, (i <= k < i + n)%nat ->
                     uint8 (next_tx w k) <> ms5805_STATUS_ERR_OVERFLOW) ->
    read_eeprom_loop (n + m) i (before_word d w i table ops)
    = read_eeprom_loop m (i + n)
        (before_word d w (i + n) (store_words w i n table)
           (ops ++ fetch_ops w i n)).
Proof.
  induction n as [|n IH]; intros i table ops Hack.
  - cbn [Nat.add store_words fetch_ops].
    rewrite Nat.add_0_r, app_nil_r. reflexivity.
  - cbn [Nat.add store_words fetch_ops].
    rewrite read_eeprom_loop_turn by (apply Hack; lia).
    rewrite IH by (intros k Hk; apply Hack; lia).
    replace (S i + n)%nat with (i + S n)%nat by lia.
    unfold exchange_of_word. rewrite <- app_assoc. reflexivity.
Qed.

End LoadTurns.

Lemma before_word_start (s : state) :
  before_word (this s) (wire s) 0 (eeprom_coeff (this s)) [] = s.
Proof.
  unfold before_word. change (2 * 0)%nat with 0%nat.
  rewrite advance_nothing, with_eeprom_coeff_same.
  destruct s. reflexivity.
Qed.

(** The log of the first [n] words, address by address. *)
Lemma fetch_ops_word_exchanges (w : world) (n : nat) :
  forall k0 : nat,
    (k0 + n <= 8)%nat ->
    fetch_ops w k0 n
    = flat_map
        (fun k => word_exchange (0xA0 + 2 * Z.of_nat k) (next_tx w k)
                    (next_rx w (2 * k)) (next_rx w (2 * k + 1)))
        (seq k0 n).
Proof.
  induction n as [|n IH]; intros k0 Hk; [reflexivity|].
  cbn [fetch_ops seq flat_map]. rewrite IH by lia.
  replace (uint8 (MS5805_PROM_ADDRESS_READ_ADDRESS_0 + Z.of_nat k0 * 2))
    with (0xA0 + 2 * Z.of_nat k0);
    [reflexivity|].
  symmetry. unfold MS5805_PROM_ADDRESS_READ_ADDRESS_0.
  replace (0xA0 + Z.of_nat k0 * 2) with (0xA0 + 2 * Z.of_nat k0) by lia.
  apply (unsigned_id 8). lia.
Qed.

(** What the array holds after words [k0] to [k0 + n - 1] are stored. *)
Lemma store_words_lookup (w : world) (n : nat) :
  forall (k0 : nat) (table : list Z) (j : nat),
    store_words w k0 n table !! j
    = if decide ((k0 <= j < k0 + n)%nat /\ (j < length table)%nat)
      then Some (fetched_word w j) else table !! j.
Proof.
  induction n as [|n IH]; intros k0 table j; cbn [store_words].
  - destruct (decide _) as [[H _] | _]; [lia | reflexivity].
  - rewrite IH, length_insert.
    destruct (decide ((S k0 <= j < S k0 + n)%nat /\ (j < length table)%nat))
      as [[H1 H2] | N1].
    + destruct (decide _) as [_ | N2]; [reflexivity | lia].
    + destruct (decide ((k0 <= j < k0 + S n)%nat /\ (j < length table)%nat))
        as [[H1 H2] | N2].
      * assert (j = k0) by lia. subst j.
        apply list_lookup_insert_eq. exact H2.
      * destruct (Nat.eq_dec j k0) as [-> | Hne].
        -- rewrite list_insert_ge by lia. reflexivity.
        -- apply list_lookup_insert_ne. lia.
Qed.

Lemma store_words_length (w : world) (n : nat) :
  forall (k0 : nat) (table : list Z),
    length (store_words w k0 n table) = length table.
Proof.
  induction n as [|n IH]; intros k0 table; cbn [store_words];
    [reflexivity|].
  rewrite IH. apply length_insert.
Qed.

(** X8.  When word [k] is the first whose exchange reports the overflow
    code, [read_eeprom] returns [ms5805_status_no_i2c_acknowledge] after
    [k + 1] exchanges (the two bytes of the failed one are read all the
    same) and without a CRC check.  The flag and the resolution are as
    before, but the array is not: the [k] words read before the failure
    have replaced the old ones, the others are untouched. *)
Theorem read_eeprom_stops_at_first_nack (s : state) (k : nat) :
  (k < 7)%nat ->
  (forall j : nat, (j < k)%nat ->
                   uint8 (next_tx (wire s) j) <> ms5805_STATUS_ERR_OVERFLOW) ->
  uint8 (next_tx (wire s) k) = ms5805_STATUS_ERR_OVERFLOW ->
  fst (read_eeprom s) = ms5805_status_no_i2c_acknowledge
  /\ ops_of read_eeprom s = word_exchanges (wire s) (S k)
  /\ coeff_read (this (snd (read_eeprom s))) = coeff_read (this s)
  /\ resolution_osr (this (snd (read_eeprom s))) = resolution_osr (this s)
  /\ forall j : nat,
      eeprom_coeff (this (snd (read_eeprom s))) !! j
      = if decide ((j < k)%nat /\ (j < length (eeprom_coeff (this s)))%nat)
        then Some (fetched_word (wire s) j)
        else eeprom_coeff (this s) !! j.
Proof.
  intros Hk Hack Hnack.
  assert (R : read_eeprom s
              = (ms5805_status_no_i2c_acknowledge,
                 before_word (this s) (wire s) (S k)
                   (store_words (wire s) 0 k (eeprom_coeff (this s)))
                   (fetch_ops (wire s) 0 (S k)))).
  { unfold read_eeprom. rewrite bind_run.
    change MS5805_COEFFICIENT_COUNT with 7%nat.
    replace 7%nat with (k + S (6 - k))%nat by lia.
    pose proof (read_eeprom_loop_turns (this s) (wire s) k (S (6 - k)) 0
                  (eeprom_coeff (this s)) []
                  ltac:(intros j Hj; apply Hack; lia)) as T.
    rewrite before_word_start in T. rewrite T. clear T.
    cbn [Nat.add app].
    rewrite read_eeprom_loop_nack by exact Hnack.
    cbn [fst snd]. unfold ret.
    replace (S k) with (k + 1)%nat by lia.
    assert (F : fetch_ops (wire s) 0 (k + 1)
                = fetch_ops (wire s) 0 k
                  ++ exchange_of_word (wire s) k).
    { rewrite !fetch_ops_word_exchanges by lia.
      rewrite seq_app, flat_map_app. cbn [Nat.add seq flat_map].
      rewrite app_nil_r. unfold exchange_of_word. f_equal.
      f_equal. unfold MS5805_PROM_ADDRESS_READ_ADDRESS_0.
      replace (0xA0 + Z.of_nat k * 2) with (0xA0 + 2 * Z.of_nat k) by lia.
      symmetry. apply (unsigned_id 8). lia. }
    rewrite F. reflexivity. }
  rewrite R. cbn [fst snd before_word this wire coeff_read resolution_osr
                  eeprom_coeff with_eeprom_coeff].
  split; [reflexivity|]. split.
  { unfold ops_of. rewrite R. cbn [snd before_word wire advance log].
    rewrite drop_app_length. unfold word_exchanges.
    apply fetch_ops_word_exchanges. lia. }
  split; [reflexivity|]. split; [reflexivity|].
  intros j. rewrite store_words_lookup.
  destruct (decide ((0 <= j < 0 + k)%nat /\ _)) as [[H1 H2] | N1];
    destruct (decide ((j < k)%nat /\ _)) as [[H3 H4] | N2];
    try reflexivity; lia.
Qed.

(** Word 2 is not acknowledged. *)
Lemma read_eeprom_stops_at_first_nack_witness :
  (2 < 7)%nat
  /\ fst (read_eeprom
            (mk_state fresh_driver
               (world_of (fun k => if (k =? 2)%nat then 1 else 0) example_rx
                  (fun _ => ms5805_status_ok))))
     = ms5805_status_no_i2c_acknowledge.
Proof.
  split; [lia|].
  apply (read_eeprom_stops_at_first_nack
           (mk_state fresh_driver
              (world_of (fun k => if (k =? 2)%nat then 1 else 0) example_rx
                 (fun _ => ms5805_status_ok))) 2).
  - lia.
  - intros j Hj. destruct j as [|[|j]]; [vm_compute; discriminate ..|lia].
  - vm_compute. reflexivity.
Defined.

(** What the loop of [read_eeprom] keeps, on every bus: it ends normally
    or with [ms5805_status_no_i2c_acknowledge], and it touches neither the
    flag nor the resolution nor the size of the array. *)
Lemma read_eeprom_loop_keeps (n : nat) :
  forall (i : nat) (s : state),
    (fst (read_eeprom_loop n i s) = None
     \/ fst (read_eeprom_loop n i s) = Some ms5805_status_no_i2c_acknowledge)
    /\ coeff_read (this (snd (read_eeprom_loop n i s))) = coeff_read (this s)
    /\ resolution_osr (this (snd (read_eeprom_loop n i s)))
       = resolution_osr (this s)
    /\ length (eeprom_coeff (this (snd (read_eeprom_loop n i s))))
       = length (eeprom_coeff (this s)).
Proof.
  induction n as [|n IH]; intros i s.
  - cbn. auto.
  - rewrite read_eeprom_loop_step, bind_run, read_eeprom_coeff_run.
    cbn [fst snd].
    destruct (uint8 (next_tx (wire s) 0) =? ms5805_STATUS_ERR_OVERFLOW).
    + cbn. auto.
    + cbv beta iota zeta delta [bind get_this put_this ret].
      cbn [this wire ms5805_status_eqb negb eeprom_coeff with_eeprom_coeff].
      match goal with
      | |- context [read_eeprom_loop n (S i) ?s1] =>
          destruct (IH (S i) s1) as (H1 & H2 & H3 & H4)
      end.
      cbn [this wire coeff_read resolution_osr eeprom_coeff
           with_eeprom_coeff] in H2, H3, H4.
      rewrite length_insert in H4. auto.
Qed.

Lemma crc_check_length (n_prom : list Z) (crc : Z) :
  length (snd (crc_check n_prom crc)) = length n_prom.
Proof. unfold crc_check. cbn [snd]. rewrite !length_insert. reflexivity. Qed.

(** X9.  On every bus [read_eeprom] returns [ms5805_status_ok],
    [ms5805_status_no_i2c_acknowledge] or [ms5805_status_crc_error].  The
    flag is set after the call exactly when it was set before or the call
    returned [ms5805_status_ok]; the resolution and the size of the array
    are never changed. *)
Theorem read_eeprom_outcomes (s : state) :
  (fst (read_eeprom s) = ms5805_status_ok
   \/ fst (read_eeprom s) = ms5805_status_no_i2c_acknowledge
   \/ fst (read_eeprom s) = ms5805_status_crc_error)
  /\ (coeff_read (this (snd (read_eeprom s))) = true
      <-> coeff_read (this s) = true \/ fst (read_eeprom s) = ms5805_status_ok)
  /\ resolution_osr (this (snd (read_eeprom s))) = resolution_osr (this s)
  /\ length (eeprom_coeff (this (snd (read_eeprom s))))
     = length (eeprom_coeff (this s)).
Proof.
  unfold read_eeprom. rewrite bind_run.
  destruct (read_eeprom_loop_keeps MS5805_COEFFICIENT_COUNT 0 s)
    as (Hst & Hc & Hr & Hl).
  destruct (read_eeprom_loop MS5805_COEFFICIENT_COUNT 0 s) as [early s1].
  cbn [fst snd] in *.
  destruct Hst as [-> | ->].
  - rewrite bind_run. cbn [get_this fst snd].
    pose proof (crc_check_length (eeprom_coeff (this s1))
                  (uint8 (Z.shiftr
                            (Z.land (word_at (eeprom_coeff (this s1))
                                       MS5805_CRC_INDEX) 0xF000) 12))) as Hn.
    destruct (crc_check _ _) as [crc_ok n_prom]. cbn [snd] in Hn.
    cbv beta iota zeta delta [bind put_this get_this ret].
    destruct crc_ok;
      cbn [negb fst snd this wire coeff_read resolution_osr eeprom_coeff
           with_eeprom_coeff with_coeff_read].
    + repeat split; auto; congruence.
    + rewrite Hc. repeat split; auto; try congruence.
      intros [H | H]; [exact H | discriminate H].
  - unfold ret. cbn [fst snd]. rewrite Hc.
    repeat split; auto.
    intros [H | H]; [exact H | discriminate H].
Qed.

Section PromRoundTrip.

Ltac Zify.zify_post_hook ::= Z.to_euclidean_division_equations.

(** A 16-bit word is its high byte times 256 plus its low byte. *)
Lemma word_of_its_bytes (c b0 b1 : Z) :
  0 <= c < 2 ^ 16 ->
  uint8 b0 = Z.shiftr c 8 -> uint8 b1 = Z.land c 0xFF ->
  big_endian16 b0 b1 = c.
Proof.
  intros Hc E0 E1. rewrite big_endian16_value, E0, E1.
  rewrite Z.shiftr_div_pow2 by lia.
  change 0xFF with (Z.ones 8). rewrite Z.land_ones by lia. lia.
Qed.

(** The nibble that [read_eeprom] hands to [crc_check] is the top nibble
    of word 0. *)
Lemma stored_crc_top_nibble (C : list Z) :
  0 <= word_at C 0 < 2 ^ 16 -> stored_crc C = Z.shiftr (word_at C 0) 12.
Proof.
  intros H. unfold stored_crc. change MS5805_CRC_INDEX with 0%nat.
  rewrite Z.shiftr_land. change (Z.shiftr 0xF000 12) with (Z.ones 4).
  rewrite Z.land_ones by lia. rewrite Z.shiftr_div_pow2 by lia.
  unfold uint8, unsigned. lia.
Qed.

End PromRoundTrip.

(** The array that the loop leaves when the sensor sends [C]. *)
Lemma fetched_table_of_prom (s : state) (C : list Z) :
  length (eeprom_coeff (this s)) = 8%nat ->
  length C = 7%nat ->
  all_uint16 C = true ->
  sensor_sends (wire s) C ->
  fetched_table s = C ++ [word_at (eeprom_coeff (this s)) 7].
Proof.
  intros Hlen HlenC HC Hsend. unfold fetched_table.
  change MS5805_COEFFICIENT_COUNT with 7%nat.
  apply list_eq. intros j. rewrite store_words_lookup, Hlen.
  destruct (decide ((0 <= j < 0 + 7)%nat /\ (j < 8)%nat)) as [[H1 H2] | N].
  - rewrite lookup_app_l by lia.
    destruct (C !! j) as [c|] eqn:E;
      [|apply lookup_ge_None in E; lia].
    destruct (Hsend j c E) as [E0 E1]. f_equal. unfold fetched_word.
    apply word_of_its_bytes; [|exact E0 | exact E1].
    pose proof (all_uint16_words C HC j) as R. unfold word_at in R.
    rewrite E in R. exact R.
  - destruct (Nat.eq_dec j 7%nat) as [-> | Hne].
    + rewrite lookup_app_r by lia. rewrite HlenC. cbn.
      unfold word_at.
      destruct (eeprom_coeff (this s) !! 7%nat) as [x|] eqn:E;
        [reflexivity|].
      apply lookup_ge_None in E. lia.
    + rewrite !lookup_ge_None_2; [reflexivity | | lia].
      rewrite length_app, HlenC. cbn. lia.
Qed.

(** X10.  What the sensor sends is what the array holds: when the
    seven exchanges are acknowledged and the sensor answers them with the
    bytes of seven 16-bit words [C], [read_eeprom] leaves exactly [C],
    followed by a zero, in the array.  It returns [ms5805_status_ok] and
    sets the flag exactly when the CRC over these words equals the top
    nibble of word 0, and [ms5805_status_crc_error] otherwise. *)
Theorem read_eeprom_stores_what_the_sensor_sends (s : state) (C : list Z) :
  length (eeprom_coeff (this s)) = 8%nat ->
  length C = 7%nat ->
  all_uint16 C = true ->
  acknowledged (wire s) 7 ->
  sensor_sends (wire s) C ->
  eeprom_coeff (this (snd (read_eeprom s))) = C ++ [0]
  /\ (fst (read_eeprom s) = ms5805_status_ok
      <-> CrcReference.crc4 (C ++ [0]) = Z.shiftr (word_at C 0) 12)
  /\ (fst (read_eeprom s) = ms5805_status_crc_error
      <-> CrcReference.crc4 (C ++ [0]) <> Z.shiftr (word_at C 0) 12)
  /\ (fst (read_eeprom s) = ms5805_status_ok ->
      coeff_read (this (snd (read_eeprom s))) = true).
Proof.
  intros Hlen HlenC HC Hack Hsend.
  pose proof (fetched_table_of_prom s C Hlen HlenC HC Hsend) as HT.
  pose proof (read_eeprom_run s Hack) as R. cbv zeta in R.
  set (x := word_at (eeprom_coeff (this s)) 7) in *.
  assert (Hlen' : length (C ++ [x]) = 8%nat)
    by (rewrite length_app, HlenC; reflexivity).
  assert (Hw0 : word_at (C ++ [x]) 0 = word_at C 0).
  { unfold word_at. rewrite lookup_app_l by lia. reflexivity. }
  assert (Hnib : stored_crc (C ++ [x]) = Z.shiftr (word_at C 0) 12).
  { rewrite stored_crc_top_nibble; rewrite Hw0;
      [reflexivity | apply (all_uint16_words C HC 0%nat)]. }
  assert (Hcrc : CrcReference.crc4 (C ++ [x]) = CrcReference.crc4 (C ++ [0])).
  { unfold CrcReference.crc4, CrcReference.remainder.
    do 3 f_equal.
    do 7 (destruct C as [|? C]; [discriminate HlenC|]).
    destruct C; [reflexivity | discriminate HlenC]. }
  rewrite HT, Hnib in R.
  pose proof (crc_check_result (C ++ [x]) (Z.shiftr (word_at C 0) 12) Hlen')
    as Hres.
  pose proof (crc_check_array (C ++ [x]) (Z.shiftr (word_at C 0) 12) Hlen')
    as Harr.
  rewrite Hcrc in Hres.
  rewrite R. cbn [fst snd this eeprom_coeff coeff_read].
  rewrite Hres, Harr.
  split.
  { change MS5805_COEFFICIENT_COUNT with 7%nat.
    rewrite insert_app_r_alt by lia. rewrite HlenC. reflexivity. }
  destruct (Z.eqb_spec (CrcReference.crc4 (C ++ [0]))
              (Z.shiftr (word_at C 0) 12)) as [E | N].
  - repeat split; intros; first [assumption | reflexivity | discriminate
                                 | contradiction].
  - repeat split; intros; first [assumption | reflexivity | discriminate
                                 | contradiction].
Qed.

Lemma read_eeprom_stores_what_the_sensor_sends_witness :
  length (eeprom_coeff (this example_state)) = 8%nat
  /\ length [0x8000; 46372; 43981; 29059; 27842; 31553; 28165] = 7%nat
  /\ all_uint16 [0x8000; 46372; 43981; 29059; 27842; 31553; 28165] = true
  /\ eeprom_coeff (this (snd (read_eeprom example_state)))
     = [0x8000; 46372; 43981; 29059; 27842; 31553; 28165] ++ [0].
Proof.
  assert (H1 : length (eeprom_coeff (this example_state)) = 8%nat)
    by reflexivity.
  assert (H2 : length [0x8000; 46372; 43981; 29059; 27842; 31553; 28165]
               = 7%nat) by reflexivity.
  assert (H3 : all_uint16 [0x8000; 46372; 43981; 29059; 27842; 31553; 28165]
               = true) by reflexivity.
  assert (H4 : acknowledged (wire example_state) 7)
    by (intros k Hk; vm_compute; discriminate).
  assert (H5 : sensor_sends (wire example_state)
                 [0x8000; 46372; 43981; 29059; 27842; 31553; 28165]).
  { intros k c E.
    do 7 (destruct k as [|k];
          [injection E as <-; vm_compute; split; reflexivity|]).
    discriminate E. }
  split; [exact H1|]. split; [exact H2|]. split; [exact H3|].
  apply (read_eeprom_stores_what_the_sensor_sends example_state
           [0x8000; 46372; 43981; 29059; 27842; 31553; 28165]
           H1 H2 H3 H4 H5).
Defined.

(** The array that the loop leaves when the line gives the same byte
    throughout. *)
Lemma fetched_table_of_constant_line (s : state) (b : Z) :
  length (eeprom_coeff (this s)) = 8%nat ->
  0 <= b < 256 ->
  line_reads (wire s) 14 b ->
  fetched_table s
  = replicate 7 (256 * b + b) ++ [word_at (eeprom_coeff (this s)) 7].
Proof.
  intros Hlen Hb Hline. unfold fetched_table.
  change MS5805_COEFFICIENT_COUNT with 7%nat.
  apply list_eq. intros j. rewrite store_words_lookup, Hlen.
  destruct (decide ((0 <= j < 0 + 7)%nat /\ (j < 8)%nat)) as [[H1 H2] | N].
  - rewrite lookup_app_l by (rewrite length_replicate; lia).
    rewrite lookup_replicate_2 by lia. f_equal.
    unfold fetched_word. rewrite big_endian16_value.
    rewrite !Hline by lia. reflexivity.
  - destruct (Nat.eq_dec j 7%nat) as [-> | Hne].
    + rewrite lookup_app_r by (rewrite length_replicate; lia).
      rewrite length_replicate. cbn. unfold word_at.
      destruct (eeprom_coeff (this s) !! 7%nat) as [x|] eqn:E;
        [reflexivity|].
      apply lookup_ge_None in E. lia.
    + rewrite !lookup_ge_None_2; [reflexivity | | lia].
      rewrite length_app, length_replicate. cbn. lia.
Qed.

(** X11.  A data line that reads zero passes the CRC check: when the
    seven exchanges are acknowledged and all fourteen bytes read zero,
    [read_eeprom] returns [ms5805_status_ok], sets the flag and leaves an
    array of zeros, which later measurements use as validated
    coefficients. *)
Theorem silent_line_is_validated (s : state) :
  length (eeprom_coeff (this s)) = 8%nat ->
  acknowledged (wire s) 7 ->
  line_reads (wire s) 14 0 ->
  fst (read_eeprom s) = ms5805_status_ok
  /\ coeff_read (this (snd (read_eeprom s))) = true
  /\ eeprom_coeff (this (snd (read_eeprom s))) = replicate 8 0.
Proof.
  intros Hlen Hack Hline.
  pose proof (fetched_table_of_constant_line s 0 Hlen ltac:(lia) Hline) as HT.
  pose proof (read_eeprom_run s Hack) as R. cbv zeta in R.
  rewrite HT in R.
  set (x := word_at (eeprom_coeff (this s)) 7) in *.
  assert (Hcrc : crc_check (replicate 7 (256 * 0 + 0) ++ [x])
                   (stored_crc (replicate 7 (256 * 0 + 0) ++ [x]))
                 = (true, replicate 8 0))
    by (vm_compute; reflexivity).
  rewrite Hcrc in R. rewrite R. cbn [fst snd this coeff_read eeprom_coeff].
  auto.
Qed.

Lemma silent_line_is_validated_witness :
  length (eeprom_coeff (this silent_state)) = 8%nat
  /\ fst (read_eeprom silent_state) = ms5805_status_ok
  /\ coeff_read (this (snd (read_eeprom silent_state))) = true
  /\ eeprom_coeff (this (snd (read_eeprom silent_state))) = replicate 8 0.
Proof.
  assert (H1 : length (eeprom_coeff (this silent_state)) = 8%nat)
    by reflexivity.
  assert (H2 : acknowledged (wire silent_state) 7)
    by (intros k Hk; vm_compute; discriminate).
  assert (H3 : line_reads (wire silent_state) 14 0)
    by (intros k Hk; vm_compute; reflexivity).
  split; [exact H1|].
  apply (silent_line_is_validated silent_state H1 H2 H3).
Defined.

(** X12.  An empty receive buffer fails the CRC check: when the seven
    exchanges are acknowledged but every [Wire.read] gives -1 (stored as
    0xFF), [read_eeprom] returns [ms5805_status_crc_error] and leaves the
    flag as it was. *)
Theorem empty_buffer_is_crc_error (s : state) :
  length (eeprom_coeff (this s)) = 8%nat ->
  acknowledged (wire s) 7 ->
  line_reads (wire s) 14 0xFF ->
  fst (read_eeprom s) = ms5805_status_crc_error
  /\ coeff_read (this (snd (read_eeprom s))) = coeff_read (this s)
  /\ eeprom_coeff (this (snd (read_eeprom s))) = replicate 7 0xFFFF ++ [0].
Proof.
  intros Hlen Hack Hline.
  pose proof (fetched_table_of_constant_line s 0xFF Hlen ltac:(lia) Hline)
    as HT.
  pose proof (read_eeprom_run s Hack) as R. cbv zeta in R.
  rewrite HT in R.
  set (x := word_at (eeprom_coeff (this s)) 7) in *.
  assert (Hcrc : crc_check (replicate 7 (256 * 0xFF + 0xFF) ++ [x])
                   (stored_crc (replicate 7 (256 * 0xFF + 0xFF) ++ [x]))
                 = (false, replicate 7 0xFFFF ++ [0]))
    by (vm_compute; reflexivity).
  rewrite Hcrc in R. rewrite R. cbn [fst snd this coeff_read eeprom_coeff].
  auto.
Qed.

Lemma empty_buffer_is_crc_error_witness :
  length (eeprom_coeff (this empty_buffer_state)) = 8%nat
  /\ fst (read_eeprom empty_buffer_state) = ms5805_status_crc_error.
Proof.
  assert (H1 : length (eeprom_coeff (this empty_buffer_state)) = 8%nat)
    by reflexivity.
  assert (H2 : acknowledged (wire empty_buffer_state) 7)
    by (intros k Hk; vm_compute; discriminate).
  assert (H3 : line_reads (wire empty_buffer_state) 14 0xFF)
    by (intros k Hk; vm_compute; reflexivity).
  split; [exact H1|].
  apply (empty_buffer_is_crc_error empty_buffer_state H1 H2 H3).
Defined.

(** The array of a completed load holds 16-bit words. *)
Lemma loaded_table_uint16 (s : state) :
  length (eeprom_coeff (this s)) = 8%nat ->
  uint16_words (<[7%nat := 0]> (fetched_table s)).
Proof.
  intros Hlen i. unfold word_at.
  assert (Hl : length (fetched_table s) = 8%nat)
    by (unfold fetched_table; rewrite store_words_length; exact Hlen).
  destruct (Nat.eq_dec i 7%nat) as [-> | Hne].
  - rewrite list_lookup_insert_eq by lia. cbn. lia.
  - rewrite list_lookup_insert_ne by lia.
    unfold fetched_table. change MS5805_COEFFICIENT_COUNT with 7%nat.
    rewrite store_words_lookup, Hlen.
    destruct (decide _) as [_ | N].
    + cbn. unfold fetched_word, big_endian16. apply uint16_range.
    + rewrite lookup_ge_None_2 by lia. cbn. lia.
Qed.

(** X13.  The first measurement, from the bus to the outputs: with the
    flag clear, seven acknowledged word exchanges and a matching CRC,
    followed by two successful conversions with raw values other than
    zero, [read_temperature_and_pressure] returns [ms5805_status_ok] and
    stores the data sheet's formulas evaluated on the words just fetched;
    it leaves the flag set and these words, with a zero in slot 7, in the
    array. *)
Theorem first_measurement (s s2 s3 : state) (D2 D1 : Z) :
  coeff_read (this s) = false ->
  length (eeprom_coeff (this s)) = 8%nat ->
  acknowledged (wire s) 7 ->
  fst (crc_check (fetched_table s) (stored_crc (fetched_table s))) = true ->
  conversion_and_read_adc
    (conversion_command (this s) MS5805_START_TEMPERATURE_ADC_CONVERSION)
    (snd (read_eeprom s))
  = ((ms5805_status_ok, Some D2), s2) ->
  conversion_and_read_adc
    (conversion_command (this s) MS5805_START_PRESSURE_ADC_CONVERSION) s2
  = ((ms5805_status_ok, Some D1), s3) ->
  D2 <> 0 -> D1 <> 0 ->
  let C := <[7%nat := 0]> (fetched_table s) in
  read_temperature_and_pressure s
  = ((ms5805_status_ok,
      Some (Formula.temperature C D2, Formula.pressure C D2 D1)), s3)
  /\ coeff_read (this s3) = true
  /\ eeprom_coeff (this s3) = C.
Proof.
  intros Hc Hlen Hack Hcrc Hconv2 Hconv1 Hn2 Hn1 C.
  pose proof (read_eeprom_run s Hack) as R. cbv zeta in R.
  rewrite Hcrc in R.
  assert (Hl : length (fetched_table s) = 8%nat)
    by (unfold fetched_table; rewrite store_words_length; exact Hlen).
  rewrite (crc_check_array _ _ Hl) in R.
  change MS5805_COEFFICIENT_COUNT with 7%nat in R. fold C in R.
  assert (Hthis1 : this (snd (read_eeprom s))
                   = mk_ms5805 C true (resolution_osr (this s)))
    by (rewrite R; reflexivity).
  destruct (conversion_and_read_adc_result _ _ _ _ _ Hconv2)
    as (Hthis2 & _ & Hr2).
  destruct (conversion_and_read_adc_result _ _ _ _ _ Hconv1)
    as (Hthis3 & _ & Hr1).
  specialize (Hr2 D2 eq_refl). specialize (Hr1 D1 eq_refl).
  assert (Hint : compensation_int C D2 D1
                 = (Formula.TEMP C D2,
                    Formula.T2 (Formula.dT C D2) (Formula.TEMP C D2),
                    Formula.P C D2 D1)).
  { apply compensation_int_exact;
      [apply loaded_table_uint16, Hlen | lia | lia]. }
  assert (Hcmd : forall base,
             conversion_command (this (snd (read_eeprom s))) base
             = conversion_command (this s) base)
    by (intros base; rewrite Hthis1; reflexivity).
  assert (Hcmd' : forall base,
             conversion_command (this s2) base
             = conversion_command (this s) base)
    by (intros base; rewrite Hthis2; apply Hcmd).
  split; [|rewrite Hthis3, Hthis2, Hthis1; auto].
  rewrite read_temperature_and_pressure_run, Hc.
  destruct (read_eeprom s) as [st0 s1] eqn:E.
  injection R as -> R1. cbn [snd] in *.
  cbn [ms5805_status_eqb negb]. rewrite Hcmd, Hconv2.
  cbn [fst snd ms5805_status_eqb negb]. rewrite Hcmd', Hconv1.
  cbn [fst snd ms5805_status_eqb negb].
  replace (D2 =? 0) with false by (symmetry; apply Z.eqb_neq; exact Hn2).
  replace (D1 =? 0) with false by (symmetry; apply Z.eqb_neq; exact Hn1).
  cbn [orb]. rewrite Hthis3, Hthis2, Hthis1. cbn [eeprom_coeff].
  unfold compensation. rewrite Hint. reflexivity.
Qed.

(** The example run from the fresh driver. *)
Lemma first_measurement_witness :
  coeff_read (this example_state) = false
  /\ length (eeprom_coeff (this example_state)) = 8%nat
  /\ 8077636 <> 0 /\ 6465444 <> 0
  /\ coeff_read (this example_after_pressure) = true.
Proof.
  assert (H1 : coeff_read (this example_state) = false) by reflexivity.
  assert (H2 : length (eeprom_coeff (this example_state)) = 8%nat)
    by reflexivity.
  assert (H3 : acknowledged (wire example_state) 7)
    by (intros k Hk; vm_compute; discriminate).
  assert (H4 : fst (crc_check (fetched_table example_state)
                      (stored_crc (fetched_table example_state))) = true)
    by (vm_compute; reflexivity).
  assert (H5 : conversion_and_read_adc
                 (conversion_command (this example_state)
                    MS5805_START_TEMPERATURE_ADC_CONVERSION)
                 (snd (read_eeprom example_state))
               = ((ms5805_status_ok, Some 8077636), example_after_temperature))
    by (vm_compute; reflexivity).
  assert (H6 : conversion_and_read_adc
                 (conversion_command (this example_state)
                    MS5805_START_PRESSURE_ADC_CONVERSION)
                 example_after_temperature
               = ((ms5805_status_ok, Some 6465444), example_after_pressure))
    by (vm_compute; reflexivity).
  assert (H7 : 8077636 <> 0) by discriminate.
  assert (H8 : 6465444 <> 0) by discriminate.
  split; [exact H1|]. split; [exact H2|]. split; [exact H7|].
  split; [exact H8|].
  apply (first_measurement example_state example_after_temperature
           example_after_pressure 8077636 6465444
           H1 H2 H3 H4 H5 H6 H7 H8).
Defined.

(** ** What the CRC check detects and what it reads *)

Section CrcLinear.

Ltac xor_bits :=
  apply Z.bits_inj'; intros ? ?;
  repeat (rewrite Z.lxor_spec || rewrite Z.land_spec);
  repeat match goal with
         | |- context [Z.testbit ?a ?n] => destruct (Z.testbit a n)
         end;
  reflexivity.

Lemma lxor_swap (a b c e : Z) :
  Z.lxor (Z.lxor a b) (Z.lxor c e) = Z.lxor (Z.lxor a c) (Z.lxor b e).
Proof. xor_bits. Qed.

(** The bit step distributes over XOR. *)
Lemma bit_step_lxor (a b : Z) :
  CrcReference.bit_step (Z.lxor a b)
  = Z.lxor (CrcReference.bit_step a) (CrcReference.bit_step b).
Proof.
  unfold CrcReference.bit_step.
  assert (E : (2 * Z.lxor a b) mod 2 ^ 16
              = Z.lxor ((2 * a) mod 2 ^ 16) ((2 * b) mod 2 ^ 16)).
  { rewrite <- !uint16_shiftl_1, Z.shiftl_lxor. apply uint16_lxor. }
  rewrite E, Z.lxor_spec.
  destruct (Z.testbit a 15), (Z.testbit b 15); cbn [xorb]; xor_bits.
Qed.

Lemma iter_bit_step_lxor (n : nat) (a b : Z) :
  Nat.iter n CrcReference.bit_step (Z.lxor a b)
  = Z.lxor (Nat.iter n CrcReference.bit_step a)
           (Nat.iter n CrcReference.bit_step b).
Proof.
  induction n as [|n IH]; [reflexivity|].
  rewrite !Nat.iter_succ, IH. apply bit_step_lxor.
Qed.

Lemma byte_step_lxor (r1 r2 b1 b2 : Z) :
  CrcReference.byte_step (Z.lxor r1 r2) (Z.lxor b1 b2)
  = Z.lxor (CrcReference.byte_step r1 b1) (CrcReference.byte_step r2 b2).
Proof.
  unfold CrcReference.byte_step. rewrite lxor_swap.
  apply iter_bit_step_lxor.
Qed.

Lemma fold_byte_step_lxor (bs1 : list Z) :
  forall (bs2 : list Z) (r1 r2 : Z),
    length bs1 = length bs2 ->
    fold_left CrcReference.byte_step (zip_with Z.lxor bs1 bs2) (Z.lxor r1 r2)
    = Z.lxor (fold_left CrcReference.byte_step bs1 r1)
             (fold_left CrcReference.byte_step bs2 r2).
Proof.
  induction bs1 as [|b1 bs1 IH]; intros [|b2 bs2] r1 r2 Hlen;
    try discriminate Hlen; [reflexivity|].
  cbn [zip_with fold_left]. rewrite byte_step_lxor.
  apply IH. injection Hlen as Hlen. exact Hlen.
Qed.

Lemma bytes_msb_first_lxor (ws1 : list Z) :
  forall ws2 : list Z,
    length ws1 = length ws2 ->
    CrcReference.bytes_msb_first (zip_with Z.lxor ws1 ws2)
    = zip_with Z.lxor (CrcReference.bytes_msb_first ws1)
                      (CrcReference.bytes_msb_first ws2).
Proof.
  induction ws1 as [|w1 ws1 IH]; intros [|w2 ws2] Hlen;
    try discriminate Hlen; [reflexivity|].
  cbn [zip_with]. rewrite !bytes_msb_first_cons. cbn [zip_with].
  rewrite IH by (injection Hlen as Hlen; exact Hlen).
  rewrite Z.shiftr_lxor.
  replace (Z.land (Z.lxor w1 w2) 255)
    with (Z.lxor (Z.land w1 255) (Z.land w2 255)) by xor_bits.
  reflexivity.
Qed.

Lemma bytes_msb_first_length (ws : list Z) :
  length (CrcReference.bytes_msb_first ws) = (2 * length ws)%nat.
Proof.
  induction ws as [|w ws IH]; [reflexivity|].
  rewrite bytes_msb_first_cons. cbn [length]. rewrite IH. lia.
Qed.

Lemma masked_table_lxor (t e : list Z) :
  length t = 8%nat -> length e = 8%nat ->
  CrcReference.masked_table (zip_with Z.lxor t e)
  = zip_with Z.lxor (CrcReference.masked_table t)
                    (CrcReference.masked_table e).
Proof.
  intros Ht He.
  destruct (table_of_length_8 t Ht)
    as (w0 & w1 & w2 & w3 & w4 & w5 & w6 & w7 & ->).
  destruct (table_of_length_8 e He)
    as (e0 & e1 & e2 & e3 & e4 & e5 & e6 & e7 & ->).
  cbn.
  replace (Z.land (Z.lxor w0 e0) 4095)
    with (Z.lxor (Z.land w0 4095) (Z.land e0 4095)) by xor_bits.
  reflexivity.
Qed.

(** The syndrome of the XOR of two arrays is the XOR of their
    syndromes. *)
Lemma syndrome_lxor (t e : list Z) :
  length t = 8%nat -> length e = 8%nat ->
  syndrome (zip_with Z.lxor t e) = Z.lxor (syndrome t) (syndrome e).
Proof.
  intros Ht He. unfold syndrome, CrcReference.crc4, CrcReference.remainder.
  rewrite masked_table_lxor by assumption.
  rewrite bytes_msb_first_lxor by (rewrite !masked_table_length; congruence).
  change 0 with (Z.lxor 0 0) at 1.
  rewrite fold_byte_step_lxor
    by (rewrite !bytes_msb_first_length, !masked_table_length; congruence).
  assert (W : word_at (zip_with Z.lxor t e) 0
              = Z.lxor (word_at t 0) (word_at e 0)).
  { destruct t as [|w0 t]; [discriminate Ht|].
    destruct e as [|e0 e]; [discriminate He|]. reflexivity. }
  rewrite W, !Z.shiftr_lxor. apply lxor_swap.
Qed.

End CrcLinear.

(** Inverting one bit is XOR with a unit array. *)
Lemma flip_bit_unit_table (t : list Z) (i j : nat) :
  length t = 8%nat -> (i < 8)%nat ->
  flip_bit t i j = zip_with Z.lxor t (unit_table i j).
Proof.
  intros Ht Hi.
  destruct (table_of_length_8 t Ht)
    as (w0 & w1 & w2 & w3 & w4 & w5 & w6 & w7 & ->).
  unfold flip_bit, unit_table.
  do 8 (destruct i as [|i];
        [cbn; rewrite !Z.lxor_0_r; reflexivity|]).
  lia.
Qed.

(** No single bit of the seven words has syndrome zero. *)
Lemma unit_syndromes :
  forallb (fun i =>
             forallb (fun j => negb (syndrome (unit_table i j) =? 0))
               (seq 0 16))
    (seq 0 7) = true.
Proof. vm_compute. reflexivity. Qed.

Lemma unit_syndrome_nonzero (i j : nat) :
  (i < 7)%nat -> (j < 16)%nat -> syndrome (unit_table i j) <> 0.
Proof.
  intros Hi Hj. pose proof unit_syndromes as H.
  rewrite forallb_forall in H.
  specialize (H i ltac:(apply in_seq; lia)).
  rewrite forallb_forall in H.
  specialize (H j ltac:(apply in_seq; lia)).
  apply negb_true_iff, Z.eqb_neq in H. exact H.
Qed.

Lemma lxor_uint16 (a b : Z) :
  0 <= a < 2 ^ 16 -> 0 <= b < 2 ^ 16 -> 0 <= Z.lxor a b < 2 ^ 16.
Proof.
  intros Ha Hb.
  rewrite <- (unsigned_id 16 a Ha), <- (unsigned_id 16 b Hb).
  fold (uint16 a). fold (uint16 b). rewrite <- uint16_lxor.
  apply uint16_range.
Qed.

(** [read_eeprom]'s test in terms of the syndrome. *)
Lemma valid_prom_syndrome (t : list Z) :
  length t = 8%nat -> 0 <= word_at t 0 < 2 ^ 16 ->
  valid_prom t = (syndrome t =? 0).
Proof.
  intros Ht H0. unfold valid_prom, syndrome.
  rewrite crc_check_result by exact Ht.
  rewrite stored_crc_top_nibble by exact H0.
  destruct (Z.eqb_spec (CrcReference.crc4 t) (Z.shiftr (word_at t 0) 12))
    as [E | N].
  - rewrite E, Z.lxor_nilpotent. reflexivity.
  - symmetry. apply Z.eqb_neq. intros H. apply N.
    apply Z.lxor_eq. exact H.
Qed.

(** X14.  Every single-bit error is detected: if an array of eight
    16-bit words passes the test that [read_eeprom] makes, then the same
    array with any one bit of the words 0 to 6 inverted, the CRC nibble
    included, fails it. *)
Theorem single_bit_error_is_detected (t : list Z) (i j : nat) :
  length t = 8%nat ->
  all_uint16 t = true ->
  (i < 7)%nat -> (j < 16)%nat ->
  valid_prom t = true ->
  valid_prom (flip_bit t i j) = false.
Proof.
  intros Ht Hu Hi Hj Hvalid.
  pose proof (all_uint16_words t Hu) as Hw.
  assert (Hlen : length (flip_bit t i j) = 8%nat)
    by (unfold flip_bit; rewrite length_insert; exact Ht).
  assert (H0 : 0 <= word_at (flip_bit t i j) 0 < 2 ^ 16).
  { unfold flip_bit, word_at. destruct (Nat.eq_dec i 0%nat) as [-> | Hne].
    - rewrite list_lookup_insert_eq by lia. cbn [default from_option id].
      apply lxor_uint16; [apply Hw|].
      split; [apply Z.pow_nonneg; lia|].
      apply Z.pow_lt_mono_r; lia.
    - rewrite list_lookup_insert_ne by lia. apply Hw. }
  rewrite valid_prom_syndrome in Hvalid by (try exact Ht; apply Hw).
  rewrite valid_prom_syndrome by assumption.
  apply Z.eqb_eq in Hvalid. apply Z.eqb_neq.
  rewrite flip_bit_unit_table by (try exact Ht; lia).
  rewrite syndrome_lxor
    by (try exact Ht; unfold unit_table;
        rewrite length_insert, length_replicate; reflexivity).
  rewrite Hvalid, Z.lxor_0_l.
  apply unit_syndrome_nonzero; assumption.
Qed.

(** The example PROM with bit 3 of the reference temperature inverted. *)
Lemma single_bit_error_is_detected_witness :
  length [0x8000; 46372; 43981; 29059; 27842; 31553; 28165; 0] = 8%nat
  /\ all_uint16 [0x8000; 46372; 43981; 29059; 27842; 31553; 28165; 0] = true
  /\ (5 < 7)%nat /\ (3 < 16)%nat
  /\ valid_prom [0x8000; 46372; 43981; 29059; 27842; 31553; 28165; 0] = true
  /\ valid_prom [0x8000; 46372; 43981; 29059; 27842; 31561; 28165; 0] = false.
Proof.
  assert (H1 : length [0x8000; 46372; 43981; 29059; 27842; 31553; 28165; 0]
               = 8%nat) by reflexivity.
  assert (H2 : all_uint16 [0x8000; 46372; 43981; 29059; 27842; 31553; 28165; 0]
               = true) by reflexivity.
  assert (H3 : (5 < 7)%nat) by lia.
  assert (H4 : (3 < 16)%nat) by lia.
  assert (H5 : valid_prom [0x8000; 46372; 43981; 29059; 27842; 31553; 28165; 0]
               = true) by (vm_compute; reflexivity).
  split; [exact H1|]. split; [exact H2|]. split; [exact H3|].
  split; [exact H4|]. split; [exact H5|].
  apply (single_bit_error_is_detected
           [0x8000; 46372; 43981; 29059; 27842; 31553; 28165; 0] 5 3
           H1 H2 H3 H4 H5).
Defined.

(** The remainder after a byte fits sixteen bits. *)
Lemma crc_bits_range (n : nat) (r : Z) :
  0 <= r < 2 ^ 16 -> 0 <= crc_bits n r < 2 ^ 16.
Proof.
  revert r. induction n as [|n IH]; intros r Hr; [exact Hr|].
  cbn [crc_bits]. apply IH. unfold crc_bit.
  destruct (negb (Z.land r 32768 =? 0)); apply uint16_range.
Qed.

Lemma crc_loop_range (todo : nat) :
  forall (n_prom : list Z) (cnt : nat) (n_rem : Z),
    0 <= n_rem < 2 ^ 16 -> 0 <= crc_loop todo n_prom cnt n_rem < 2 ^ 16.
Proof.
  induction todo as [|todo IH]; intros n_prom cnt n_rem H; [exact H|].
  cbn [crc_loop]. apply IH. unfold crc_byte. apply crc_bits_range.
  destruct (cnt mod 2 =? 1)%nat; apply uint16_range.
Qed.

Section CrcReads.

Ltac Zify.zify_post_hook ::= Z.to_euclidean_division_equations.

(** X15.  What [crc_check] depends on.  It accepts only expected values
    from 0 to 15.  Its answer does not depend on what slot 7 holds, nor on
    the top four bits of word 0.  Run again on the array it has left, it
    gives the same answer and leaves the array unchanged. *)
Theorem crc_check_reads_seven_words (n_prom : list Z) (crc : Z) :
  length n_prom = 8%nat ->
  (fst (crc_check n_prom crc) = true -> 0 <= crc < 16)
  /\ (forall x : Z,
        fst (crc_check (<[7%nat := x]> n_prom) crc) = fst (crc_check n_prom crc))
  /\ (forall w0 : Z,
        Z.land w0 0x0FFF = Z.land (word_at n_prom 0) 0x0FFF ->
        fst (crc_check (<[0%nat := w0]> n_prom) crc)
        = fst (crc_check n_prom crc))
  /\ crc_check (snd (crc_check n_prom crc)) crc
     = (fst (crc_check n_prom crc), snd (crc_check n_prom crc)).
Proof.
  intros Hlen.
  assert (Hmask7 : forall x, CrcReference.masked_table (<[7%nat := x]> n_prom)
                             = CrcReference.masked_table n_prom).
  { intros x. destruct (table_of_length_8 n_prom Hlen)
      as (w0 & w1 & w2 & w3 & w4 & w5 & w6 & w7 & ->). reflexivity. }
  assert (Hsame7 : forall x,
             fst (crc_check (<[7%nat := x]> n_prom) crc)
             = fst (crc_check n_prom crc)).
  { intros x. rewrite !crc_check_result
      by (rewrite ?length_insert; exact Hlen).
    unfold CrcReference.crc4, CrcReference.remainder.
    rewrite Hmask7. reflexivity. }
  split; [|split; [exact Hsame7 | split]].
  - unfold crc_check. cbn [fst]. intros H. apply Z.eqb_eq in H. subst crc.
    match goal with
    | |- context [crc_loop ?n ?t ?c ?r] =>
        pose proof (crc_loop_range n t c r ltac:(lia)) as B
    end.
    rewrite Z.shiftr_div_pow2 by lia. lia.
  - intros w0 Hw0.
    rewrite !crc_check_result by (rewrite ?length_insert; exact Hlen).
    unfold CrcReference.crc4, CrcReference.remainder.
    replace (CrcReference.masked_table (<[0%nat := w0]> n_prom))
      with (CrcReference.masked_table n_prom); [reflexivity|].
    destruct (table_of_length_8 n_prom Hlen)
      as (v0 & w1 & w2 & w3 & w4 & w5 & w6 & w7 & ->).
    cbn in Hw0 |- *. rewrite Hw0. reflexivity.
  - rewrite (crc_check_array n_prom crc Hlen).
    change MS5805_COEFFICIENT_COUNT with 7%nat.
    apply injective_projections; cbn [fst snd].
    + apply Hsame7.
    + rewrite crc_check_array by (rewrite length_insert; exact Hlen).
      change MS5805_COEFFICIENT_COUNT with 7%nat.
      apply list_insert_insert_eq.
Qed.

End CrcReads.

(** An array whose slot 7 holds leftovers. *)
Lemma crc_check_reads_seven_words_witness :
  length [0x8000; 46372; 43981; 29059; 27842; 31553; 28165; 0x1234] = 8%nat
  /\ fst (crc_check
            (<[7%nat := 0]>
               [0x8000; 46372; 43981; 29059; 27842; 31553; 28165; 0x1234]) 8)
     = fst (crc_check
              [0x8000; 46372; 43981; 29059; 27842; 31553; 28165; 0x1234] 8).
Proof.
  assert (H : length [0x8000; 46372; 43981; 29059; 27842; 31553; 28165; 0x1234]
              = 8%nat) by reflexivity.
  split; [exact H|].
  destruct (crc_check_reads_seven_words
              [0x8000; 46372; 43981; 29059; 27842; 31553; 28165; 0x1234] 8 H)
    as (_ & E & _).
  exact (E 0).
Defined.

(** ** The shape of the compensation *)

Section CompensationShape.

Ltac Zify.zify_post_hook ::= Z.to_euclidean_division_equations.

(** X16.  At the reference temperature, that is for the raw temperature
    [C5 * 256], the temperature is exactly 2000 (20.00 degrees), the
    second order terms all vanish and the pressure is the first order
    formula on the pressure sensitivity [C1] and the pressure offset
    [C2] alone. *)
Theorem reference_temperature_is_2000 (C : list Z) (D1 : Z) :
  all_uint16 C = true ->
  0 <= D1 < 2 ^ 24 ->
  compensation_int C (word_at C 5 * 256) D1
  = (2000, 0, ((D1 * word_at C 1) / 32 - word_at C 2 * 131072) / 32768).
Proof.
  intros HC HD.
  pose proof (all_uint16_words C HC) as Hw.
  pose proof (Hw 5%nat) as H5. pose proof (Hw 1%nat) as H1.
  pose proof (Hw 2%nat) as H2.
  rewrite compensation_int_exact by (try exact Hw; lia).
  assert (EdT : Formula.dT C (word_at C 5 * 256) = 0).
  { unfold Formula.dT. rewrite Z.shiftl_mul_pow2 by lia. lia. }
  assert (ET : Formula.TEMP C (word_at C 5 * 256) = 2000).
  { unfold Formula.TEMP. rewrite EdT. reflexivity. }
  unfold Formula.P, Formula.OFF, Formula.SENS. rewrite ET, EdT.
  cbn [Formula.T2 Formula.OFF2 Formula.SENS2 Z.ltb Z.compare Pos.compare
       Pos.compare_cont].
  rewrite !Z.mul_0_r. cbn [Z.mul Z.shiftr Z.shiftl Z.opp].
  rewrite !Z.shiftl_mul_pow2, !Z.shiftr_div_pow2 by lia.
  f_equal. f_equal.
  pose proof (product_bound D1 (word_at C 1) (2 ^ 24) (2 ^ 16)
                ltac:(lia) ltac:(lia)) as Hp.
  assert (E : D1 * (word_at C 1 * 2 ^ 16 + 0 / 2 ^ 7 - 0) / 2 ^ 21
              = D1 * word_at C 1 / 32).
  { replace (D1 * (word_at C 1 * 2 ^ 16 + 0 / 2 ^ 7 - 0))
      with ((D1 * word_at C 1) * 2 ^ 16) by lia.
    lia. }
  rewrite E. lia.
Qed.

Lemma reference_temperature_is_2000_witness :
  all_uint16 [0; 46372; 43981; 29059; 27842; 31553; 28165; 0] = true
  /\ 0 <= 6465444 < 2 ^ 24
  /\ compensation_int [0; 46372; 43981; 29059; 27842; 31553; 28165; 0]
       (31553 * 256) 6465444
     = (2000, 0, 110002).
Proof.
  assert (H1 : all_uint16 [0; 46372; 43981; 29059; 27842; 31553; 28165; 0]
               = true) by reflexivity.
  assert (H2 : 0 <= 6465444 < 2 ^ 24) by lia.
  split; [exact H1|]. split; [exact H2|].
  pose proof (reference_temperature_is_2000
                [0; 46372; 43981; 29059; 27842; 31553; 28165; 0] 6465444 H1 H2)
    as E.
  vm_compute in E. vm_compute. exact E.
Defined.

(** X17.  The first order temperature follows the raw temperature: a
    larger raw value never gives a smaller [TEMP], and for every array of
    16-bit words and every 24-bit raw value [TEMP] lies between
    [2000 - 2 ^ 17] and [2000 + 2 ^ 17]. *)
Theorem first_order_temperature_is_monotone (C : list Z) (D2 D2' : Z) :
  all_uint16 C = true ->
  0 <= D2 <= D2' -> D2' < 2 ^ 24 ->
  calc_TEMP C (calc_dT C D2) <= calc_TEMP C (calc_dT C D2')
  /\ 2000 - 2 ^ 17 <= calc_TEMP C (calc_dT C D2)
  /\ calc_TEMP C (calc_dT C D2') < 2000 + 2 ^ 17.
Proof.
  intros HC Hle Hlt.
  pose proof (all_uint16_words C HC) as Hw.
  destruct (calc_dT_exact C D2 Hw ltac:(lia)) as [E1 B1].
  destruct (calc_dT_exact C D2' Hw ltac:(lia)) as [E2 B2].
  rewrite E1, E2.
  destruct (calc_TEMP_exact C _ Hw B1) as [T1 R1].
  destruct (calc_TEMP_exact C _ Hw B2) as [T2 R2].
  rewrite T1, T2.
  split; [|lia].
  apply Z.add_le_mono_l.
  rewrite !Z.shiftr_div_pow2 by lia.
  apply Z.div_le_mono; [lia|].
  apply Z.mul_le_mono_nonneg_r; [apply (Hw 6%nat)|].
  unfold Formula.dT. lia.
Qed.

Lemma first_order_temperature_is_monotone_witness :
  all_uint16 [0; 46372; 43981; 29059; 27842; 31553; 28165; 0] = true
  /\ 0 <= 7000000 <= 8077636 /\ 8077636 < 2 ^ 24
  /\ calc_TEMP [0; 46372; 43981; 29059; 27842; 31553; 28165; 0]
       (calc_dT [0; 46372; 43981; 29059; 27842; 31553; 28165; 0] 7000000)
     <= calc_TEMP [0; 46372; 43981; 29059; 27842; 31553; 28165; 0]
          (calc_dT [0; 46372; 43981; 29059; 27842; 31553; 28165; 0] 8077636).
Proof.
  assert (H1 : all_uint16 [0; 46372; 43981; 29059; 27842; 31553; 28165; 0]
               = true) by reflexivity.
  assert (H2 : 0 <= 7000000 <= 8077636) by lia.
  assert (H3 : 8077636 < 2 ^ 24) by lia.
  split; [exact H1|]. split; [exact H2|]. split; [exact H3|].
  apply (first_order_temperature_is_monotone
           [0; 46372; 43981; 29059; 27842; 31553; 28165; 0]
           7000000 8077636 H1 H2 H3).
Defined.

(** X18.  The second order terms are never negative, so the correction
    never raises the reported temperature above [TEMP], and at a fixed
    [dT] the offset and sensitivity corrections grow as [TEMP] falls
    below 2000. *)
Theorem second_order_terms_are_nonnegative (dT TEMP : Z) :
  - 2 ^ 30 <= dT <= 2 ^ 30 -> - 2 ^ 28 <= TEMP <= 2 ^ 28 ->
  0 <= fst (fst (second_order dT TEMP))
  /\ 0 <= snd (fst (second_order dT TEMP))
  /\ 0 <= snd (second_order dT TEMP)
  /\ (TEMP < 2000 ->
      snd (fst (second_order dT TEMP)) <= snd (fst (second_order dT (TEMP - 1)))
      /\ snd (second_order dT TEMP) <= snd (second_order dT (TEMP - 1))).
Proof.
  intros HD HT.
  pose proof (square_bound dT (2 ^ 30) ltac:(lia)) as Hd.
  assert (Hsq : forall a, 0 <= a * a) by (intros a; nia).
  assert (Hmono : forall a, a <= 0 -> a * a <= (a - 1) * (a - 1))
    by (intros a Ha; nia).
  rewrite second_order_exact by lia. cbn [fst snd].
  unfold Formula.T2, Formula.OFF2, Formula.SENS2. rewrite !Z.pow_2_r.
  rewrite !Z.shiftr_div_pow2 by lia.
  pose proof (Hsq (TEMP - 2000)) as Sa. pose proof (Hsq (TEMP + 1500)) as Sb.
  split; [destruct (TEMP <? 2000); lia|].
  split; [destruct (TEMP <? 2000), (TEMP <? -1500); lia|].
  split; [destruct (TEMP <? 2000), (TEMP <? -1500); lia|].
  intros Hlow.
  destruct (Z.eq_dec TEMP (- 2 ^ 28)) as [-> | Hne].
  - vm_compute. split; discriminate.
  - rewrite second_order_exact by lia. cbn [fst snd].
    unfold Formula.OFF2, Formula.SENS2. rewrite !Z.pow_2_r.
    pose proof (Hmono (TEMP - 2000) ltac:(lia)) as Ma.
    replace (TEMP - 2000 - 1) with (TEMP - 1 - 2000) in Ma by lia.
    pose proof (Hsq (TEMP - 1 - 2000)) as Sa'.
    pose proof (Hsq (TEMP - 1 + 1500)) as Sb'.
    replace (TEMP <? 2000) with true by (symmetry; apply Z.ltb_lt; lia).
    replace (TEMP - 1 <? 2000) with true by (symmetry; apply Z.ltb_lt; lia).
    destruct (Z.ltb_spec TEMP (-1500)) as [L | G].
    + replace (TEMP - 1 <? -1500) with true
        by (symmetry; apply Z.ltb_lt; lia).
      pose proof (Hmono (TEMP + 1500) ltac:(lia)) as Mb.
      replace (TEMP + 1500 - 1) with (TEMP - 1 + 1500) in Mb by lia.
      split; lia.
    + destruct (TEMP - 1 <? -1500); split; lia.
Qed.

Lemma second_order_terms_are_nonnegative_witness :
  - 2 ^ 30 <= -1077568 <= 2 ^ 30 /\ - 2 ^ 28 <= -1618 <= 2 ^ 28
  /\ 0 <= fst (fst (second_order (-1077568) (-1618))).
Proof.
  assert (H1 : - 2 ^ 30 <= -1077568 <= 2 ^ 30) by lia.
  assert (H2 : - 2 ^ 28 <= -1618 <= 2 ^ 28) by lia.
  split; [exact H1|]. split; [exact H2|].
  exact (proj1 (second_order_terms_are_nonnegative (-1077568) (-1618) H1 H2)).
Defined.

End CompensationShape.
